(** * usb-exporter: the usbmon line parser, the device cache and the
      aggregation step of [USBMonitorExporter] (src/usb-exporter.py)

    The development embeds the Python methods as Rocq functions over
    Python values: a [str] is a [string] whose characters are the code
    points U+0000..U+00FF, an [int] is a [Z], a [dict] with string keys is
    a [gmap string _], a raised exception is the [Raise] case of [res].
    The built-in [str] and [int] operations the exporter calls are written
    out in [Module Py] for that range of code points.  The [float] of a
    counter child is a [double]: a whole number that a double represents
    or [inf], with the rounding of [float(int)] and of [float + float]
    written out. *)

From Stdlib Require Import ZArith NArith List String Ascii Bool Lia.
From stdpp Require Import base option list strings pretty gmap.

Local Open Scope Z_scope.

(** ** Exceptions *)

Inductive exn : Type :=
| ValueError
| IndexError
| AttributeError
| OSError
| OverflowError.

Inductive res (A : Type) : Type :=
| Ok (a : A)
| Raise (e : exn).

Arguments Ok {A} a.
Arguments Raise {A} e.

Definition bind {A B : Type} (m : res A) (k : A -> res B) : res B :=
  match m with
  | Ok a => k a
  | Raise e => Raise e
  end.

Notation "x <- m ;;; k" := (bind m (fun x => k))
  (at level 100, m at next level, right associativity).

(** [try: m except ValueError: h] *)
Definition except_ValueError {A : Type} (m : res A) (h : res A) : res A :=
  match m with
  | Raise ValueError => h
  | _ => m
  end.

(** [try: m except Exception: h] and the bare [except:] *)
Definition except_Exception {A : Type} (m : res A) (h : A) : A :=
  match m with
  | Ok a => a
  | Raise _ => h
  end.

(** ** The Python built-ins the exporter uses *)

Module Py.

Definition code (c : ascii) : N := N_of_ascii c.

(** [str.isspace] of one character, the set [str.split()] and
    [str.strip()] use: TAB..CR, FS..US, SPACE, NEL, NBSP. *)
Definition isspace (c : ascii) : bool :=
  let n := code c in
  ((9 <=? n) && (n <=? 13) || (28 <=? n) && (n <=? 32)
   || (n =? 133) || (n =? 160))%N.

(** The decimal digits (category Nd): only 0..9 below U+0100. *)
Definition decimal (c : ascii) : option Z :=
  let n := code c in
  if ((48 <=? n) && (n <=? 57))%N then Some (Z.of_N n - 48) else None.

Definition is_decimal (c : ascii) : bool :=
  match decimal c with Some _ => true | None => false end.

(** [str.isdigit] of one character: the decimal digits and the
    superscripts two, three and one (U+00B2, U+00B3, U+00B9). *)
Definition isdigit_char (c : ascii) : bool :=
  let n := code c in
  (is_decimal c || (n =? 178) || (n =? 179) || (n =? 185))%N.

(** [s.isdigit()]: at least one character, all of them digits. *)
Fixpoint all_digit (s : string) : bool :=
  match s with
  | EmptyString => true
  | String c r => isdigit_char c && all_digit r
  end.

Definition isdigit (s : string) : bool :=
  match s with
  | EmptyString => false
  | _ => all_digit s
  end.

(** [s.lstrip(ch)] for a one-character argument. *)
Fixpoint lstrip_char (ch : ascii) (s : string) : string :=
  match s with
  | String c r => if Ascii.eqb c ch then lstrip_char ch r else s
  | EmptyString => EmptyString
  end.

Fixpoint lstrip (s : string) : string :=
  match s with
  | String c r => if isspace c then lstrip r else s
  | EmptyString => EmptyString
  end.

Fixpoint rstrip (s : string) : string :=
  match s with
  | EmptyString => EmptyString
  | String c r =>
      match rstrip r with
      | EmptyString => if isspace c then EmptyString else String c EmptyString
      | r' => String c r'
      end
  end.

(** [s.strip()] *)
Definition strip (s : string) : string := rstrip (lstrip s).

(** No white space anywhere, at the start, at the end. *)
Fixpoint no_space (s : string) : bool :=
  match s with
  | EmptyString => true
  | String c r => negb (isspace c) && no_space r
  end.

Definition starts_with_space (s : string) : bool :=
  match s with
  | String c _ => isspace c
  | EmptyString => false
  end.

Fixpoint ends_with_space (s : string) : bool :=
  match s with
  | EmptyString => false
  | String c EmptyString => isspace c
  | String _ r => ends_with_space r
  end.

(** [s.split()]: the maximal runs of characters that are not white
    space, in order.  [cur] is the run being read, reversed. *)
Fixpoint split_go (cur : option string) (s : string) : list string :=
  match s with
  | EmptyString => option_list (String.rev <$> cur)
  | String c r =>
      if isspace c
      then option_list (String.rev <$> cur) ++ split_go None r
      else split_go (Some (String c (default EmptyString cur))) r
  end.

Definition split (s : string) : list string := split_go None s.

(** [s.split(sep)] for a one-character separator: one more piece than
    there are separators, empty pieces kept. *)
Fixpoint split_sep (sep : ascii) (s : string) : list string :=
  match s with
  | EmptyString => [EmptyString]
  | String c r =>
      if Ascii.eqb c sep then EmptyString :: split_sep sep r
      else match split_sep sep r with
           | t :: ts => String c t :: ts
           | [] => [String c EmptyString]
           end
  end.

(** [x in l] and [l.index(x)] on a list of strings. *)
Definition contains (x : string) (l : list string) : bool :=
  existsb (String.eqb x) l.

Fixpoint index (x : string) (l : list string) : res nat :=
  match l with
  | [] => Raise ValueError
  | y :: r => if String.eqb y x then Ok 0%nat
              else i <- index x r ;;; Ok (S i)
  end.

(** [l[i]] and [s[i]] for a non-negative index. *)
Definition item {A : Type} (l : list A) (i : nat) : res A :=
  match nth_error l i with
  | Some a => Ok a
  | None => Raise IndexError
  end.

Definition char_at (s : string) (i : nat) : res ascii :=
  match String.get i s with
  | Some c => Ok c
  | None => Raise IndexError
  end.

(** [int(s)] in base ten, for a string without white space at either
    end: an optional sign, then decimal digits, single underscores
    allowed between two digits.  The exporter calls [int] on tokens of
    [split], on colon fields of a token, on a group of digits and on what
    [strip] returns ([parser_fields_no_space], [read_sysfs_file_trimmed]
    below), so the white space [int] would skip is never there.
    [digits_go] returns the value and the number of digits read. *)
Fixpoint digits_go (acc : Z) (n : nat) (s : string) : option (Z * nat) :=
  match s with
  | EmptyString => Some (acc, n)
  | String c r =>
      match decimal c with
      | Some d => digits_go (10 * acc + d) (S n) r
      | None =>
          if Ascii.eqb c "_" then
            match r with
            | String c' _ => if is_decimal c' then digits_go acc n r else None
            | EmptyString => None
            end
          else None
      end
  end.

Definition digits (s : string) : option (Z * nat) :=
  match s with
  | String c _ => if is_decimal c then digits_go 0 0 s else None
  | EmptyString => None
  end.

Section Int.
(** [sys.get_int_max_str_digits()]: 0 switches the limit off (as do
    interpreters that predate it); the limit is only looked at above
    640 digits. *)
Variable max_str_digits : nat.

Definition too_long (n : nat) : bool :=
  ((640 <? n) && (0 <? max_str_digits) && (max_str_digits <? n))%nat.

Definition magnitude (s : string) : res Z :=
  match digits s with
  | Some (v, n) => if too_long n then Raise ValueError else Ok v
  | None => Raise ValueError
  end.

Definition int (s : string) : res Z :=
  match s with
  | String "+" r => magnitude r
  | String "-" r => v <- magnitude r ;;; Ok (- v)
  | _ => magnitude s
  end.
End Int.

(** [str(z)] of an [int]. *)
Definition str (z : Z) : string := pretty z.

(** [s.lower()]: A..Z and the upper-case letters U+00C0..U+00DE (the
    multiplication sign U+00D7 apart) move up by 32. *)
Definition lower_char (c : ascii) : ascii :=
  let n := code c in
  if ((65 <=? n) && (n <=? 90)
      || (192 <=? n) && (n <=? 222) && negb (n =? 215))%N
  then ascii_of_N (n + 32) else c.

Fixpoint lower (s : string) : string :=
  match s with
  | EmptyString => EmptyString
  | String c r => String (lower_char c) (lower r)
  end.

(** [sub in s] on strings. *)
Fixpoint contains_str (sub s : string) : bool :=
  String.prefix sub s ||
  match s with
  | EmptyString => false
  | String _ r => contains_str sub r
  end.

Fixpoint contains_char (ch : ascii) (s : string) : bool :=
  match s with
  | EmptyString => false
  | String c r => Ascii.eqb c ch || contains_char ch r
  end.

(** A deterministic automaton run over a string, for the patterns of
    [re.match] below. *)
Fixpoint run {S : Type} (step : S -> ascii -> option S) (q : S)
  (w : string) : option S :=
  match w with
  | EmptyString => Some q
  | String c r =>
      match step q c with
      | Some q' => run step q' r
      | None => None
      end
  end.

Definition is_newline (c : ascii) : bool := (code c =? 10)%N.

(** [re.match(r'^\d+-\d+(\.\d+)*$', s)]; the dollar also matches before
    a final newline. *)
Inductive port_state : Type :=
| P_start | P_bus | P_dash | P_port | P_dot | P_newline.

Definition port_step (q : port_state) (c : ascii) : option port_state :=
  match q with
  | P_start => if is_decimal c then Some P_bus else None
  | P_bus => if is_decimal c then Some P_bus
             else if Ascii.eqb c "-" then Some P_dash else None
  | P_dash => if is_decimal c then Some P_port else None
  | P_port => if is_decimal c then Some P_port
              else if Ascii.eqb c "." then Some P_dot
              else if is_newline c then Some P_newline else None
  | P_dot => if is_decimal c then Some P_port else None
  | P_newline => None
  end.

Definition match_port (s : string) : bool :=
  match run port_step P_start s with
  | Some P_port | Some P_newline => true
  | _ => false
  end.

(** [re.match(r'^usb\d+$', s)] *)
Inductive hub_state : Type :=
| H_start | H_u | H_s | H_b | H_num | H_newline.

Definition hub_step (q : hub_state) (c : ascii) : option hub_state :=
  match q with
  | H_start => if Ascii.eqb c "u" then Some H_u else None
  | H_u => if Ascii.eqb c "s" then Some H_s else None
  | H_s => if Ascii.eqb c "b" then Some H_b else None
  | H_b => if is_decimal c then Some H_num else None
  | H_num => if is_decimal c then Some H_num
             else if is_newline c then Some H_newline else None
  | H_newline => None
  end.

Definition match_root_hub (s : string) : bool :=
  match run hub_step H_start s with
  | Some H_num | Some H_newline => true
  | _ => false
  end.

(** [re.match(r'.*:\d+\.\d+$', s)]: some prefix without a newline,
    then colon, digits, dot, digits. *)
Inductive iface_state : Type :=
| I_start | I_colon | I_config | I_dot | I_iface | I_newline.

Definition iface_step (q : iface_state) (c : ascii) : option iface_state :=
  match q with
  | I_start => if Ascii.eqb c ":" then Some I_colon else None
  | I_colon => if is_decimal c then Some I_config else None
  | I_config => if is_decimal c then Some I_config
                else if Ascii.eqb c "." then Some I_dot else None
  | I_dot => if is_decimal c then Some I_iface else None
  | I_iface => if is_decimal c then Some I_iface
               else if is_newline c then Some I_newline else None
  | I_newline => None
  end.

Definition iface_tail (s : string) : bool :=
  match run iface_step I_start s with
  | Some I_iface | Some I_newline => true
  | _ => false
  end.

Fixpoint match_interface (s : string) : bool :=
  iface_tail s ||
  match s with
  | EmptyString => false
  | String c r => negb (is_newline c) && match_interface r
  end.

(** [re.search(r'(\d+)', s).group(1)]: the first longest run of
    decimal digits; [None] when [re.search] finds nothing. *)
Fixpoint take_decimals (s : string) : string :=
  match s with
  | String c r => if is_decimal c then String c (take_decimals r)
                  else EmptyString
  | EmptyString => EmptyString
  end.

Fixpoint search_digits (s : string) : option string :=
  match s with
  | EmptyString => None
  | String c r => if is_decimal c then Some (take_decimals s)
                  else search_digits r
  end.

(** [re.sub(r'[^\x20-\x7E]', '', s)] *)
Fixpoint printable (s : string) : string :=
  match s with
  | EmptyString => EmptyString
  | String c r =>
      if ((32 <=? code c) && (code c <=? 126))%N
      then String c (printable r) else printable r
  end.

(** [os.path.join(a, b)] and [os.path.basename(p)] of posixpath. *)
Fixpoint ends_with_slash (s : string) : bool :=
  match s with
  | EmptyString => false
  | String c EmptyString => Ascii.eqb c "/"
  | String _ r => ends_with_slash r
  end.

Definition path_join (a b : string) : string :=
  match b with
  | String "/" _ => b
  | _ => if String.eqb a "" || ends_with_slash a then a +:+ b
         else a +:+ "/" +:+ b
  end.

Fixpoint basename (p : string) : string :=
  match p with
  | EmptyString => EmptyString
  | String c r =>
      if contains_char "/" r then basename r
      else if Ascii.eqb c "/" then r else p
  end.

End Py.

(** ** The exporter *)

(** The dict [parse_usbmon_line] returns. *)
Record event : Type := {
  event_type : string;
  bus : string;
  device : string;
  endpoint : string;
  direction : string;
  transfer_type : string;
  status : string;
  data_length : Z
}.

(** A Python number: the cache holds [float] speeds and [int] powers,
    the placeholder of [get_device_info] an [int] speed. *)
Inductive number (float : Type) : Type :=
| Int (z : Z)
| Float (f : float).

Arguments Int {float} z.
Arguments Float {float} f.

(** A value of [self.usb_devices], and the placeholder of
    [get_device_info], which has only seven of the keys: a key the dict
    lacks is [None]. *)
Record device_info (float : Type) : Type := {
  vendor_id : string;
  product_id : string;
  vendor_name : string;
  product_name : string;
  serial : string;
  version : option string;
  class_id : option string;
  driver : option string;
  speed : number float;
  max_power : Z;
  info_bus : option string;
  info_device : option string
}.

Arguments vendor_id {float} _.
Arguments product_id {float} _.
Arguments vendor_name {float} _.
Arguments product_name {float} _.
Arguments serial {float} _.
Arguments version {float} _.
Arguments class_id {float} _.
Arguments driver {float} _.
Arguments speed {float} _.
Arguments max_power {float} _.
Arguments info_bus {float} _.
Arguments info_device {float} _.

(** ** The floats of the counters

    A child of a [prometheus_client] Counter keeps its value in a Python
    [float] that starts at [0.0] and only has non-negative [int]s added
    to it, so it is a whole number or [inf]: [Finite z] is the double
    that equals [z]. *)
Inductive double : Type :=
| Finite (z : Z)
| Infinity.

(** The double nearest to the whole number [z], for [0 <= z]: 53 bits
    are kept, a tie goes to the even one, and what rounds to [2^1024]
    or more is [inf]. *)
Definition round_double (z : Z) : double :=
  if z <? 2 ^ 53 then Finite z
  else
    let e := Z.log2 z - 52 in
    let q := z / 2 ^ e in
    let r := z mod 2 ^ e in
    let half := 2 ^ (e - 1) in
    let m := if (half <? r) || ((r =? half) && Z.odd q) then q + 1 else q in
    if 2 ^ 1024 <=? m * 2 ^ e then Infinity else Finite (m * 2 ^ e).

(** The conversion of the [int] operand of [float + int]: an [int] that
    rounds beyond the largest double raises [OverflowError]. *)
Definition float_of_int (z : Z) : res double :=
  match round_double z with
  | Finite r => Ok (Finite r)
  | Infinity => Raise OverflowError
  end.

(** [x + y] of two floats: the exact sum, rounded. *)
Definition double_add (x y : double) : double :=
  match x, y with
  | Finite a, Finite b => round_double (a + b)
  | _, _ => Infinity
  end.

(** [x <= y] of two floats. *)
Definition double_le (x y : double) : Prop :=
  match x, y with
  | Finite a, Finite b => a <= b
  | _, Infinity => True
  | Infinity, Finite _ => False
  end.

(** [Finite z] stands for a float only when [z] is one of the numbers
    that rounding leaves alone. *)
Definition is_double (x : double) : Prop :=
  match x with
  | Finite z => 0 <= z /\ round_double z = Finite z
  | Infinity => True
  end.

(** The whole number a float equals, [2^1024] for [inf]. *)
Definition whole (x : double) : Z :=
  match x with
  | Finite z => z
  | Infinity => 2 ^ 1024
  end.

(** The children of a labelled [prometheus_client] Counter, by the
    tuple of label values in the order of the label names, each with the
    float it holds.  A child that [labels(...)] has not created yet reads
    as the [0.0] it is created with. *)
Abbreviation counter := (gmap (list string) double).

Definition value (c : counter) (labels : list string) : double :=
  default (Finite 0) (c !! labels).

(** [c.labels(...).inc(amount)]: the library raises [ValueError] on a
    negative amount and then runs [self._value += amount] on the float
    of the child. *)
Definition inc (labels : list string) (amount : Z) (c : counter) : res counter :=
  if amount <? 0 then Raise ValueError
  else
    v <- float_of_int amount ;;;
    Ok (<[labels := double_add (value c labels) v]> c).

(** [after] is [before] with [amount] added to the float of the child
    [labels], which makes the exact sum as long as that is at most
    [2^53], and with every other child as it was. *)
Definition incremented (before after : counter) (labels : list string)
  (amount : Z) : Prop :=
  (exists v, float_of_int amount = Ok v /\
             value after labels = double_add (value before labels) v) /\
  (forall old, value before labels = Finite old -> 0 <= old ->
               old + amount <= 2 ^ 53 ->
               value after labels = Finite (old + amount)) /\
  forall other, other <> labels -> after !! other = before !! other.

(** The four counters of [setup_metrics]. *)
Record metrics : Type := {
  usb_data_sent_bytes : counter;
  usb_data_received_bytes : counter;
  usb_transfer_errors_sent : counter;
  usb_transfer_errors_received : counter
}.

(** The file system calls of the cache refresh. *)
Record sysfs : Type := {
  path_exists : string -> bool;
  listdir : string -> res (list string);
  read : string -> res string;
  readlink : string -> res string
}.

(** ** An example registry

    One root hub, one mouse and one interface directory under
    [/sys/bus/usb/devices/], and a cache left by an earlier refresh, when
    a device with address 5 was plugged in, the mouse was not, and the hub
    had another record.  The speeds of the example are whole numbers, so
    [Z] stands in for [float]. *)

Definition demo_files : list (string * string) :=
  [("/sys/bus/usb/devices/usb1/busnum", "1
");
   ("/sys/bus/usb/devices/usb1/devnum", "1
");
   ("/sys/bus/usb/devices/usb1/idVendor", "1d6b
");
   ("/sys/bus/usb/devices/usb1/idProduct", "0002
");
   ("/sys/bus/usb/devices/usb1/speed", "480
");
   ("/sys/bus/usb/devices/usb1/bMaxPower", "0mA
");
   ("/sys/bus/usb/devices/1-1/busnum", "1
");
   ("/sys/bus/usb/devices/1-1/devnum", "2
");
   ("/sys/bus/usb/devices/1-1/idVendor", "046D
");
   ("/sys/bus/usb/devices/1-1/idProduct", "c077
");
   ("/sys/bus/usb/devices/1-1/serial", "A17
");
   ("/sys/bus/usb/devices/1-1/product", "USB Optical Mouse
");
   ("/sys/bus/usb/devices/1-1/speed", "12
");
   ("/sys/bus/usb/devices/1-1/bMaxPower", "100mA
")].

Fixpoint assoc (key : string) (l : list (string * string)) : option string :=
  match l with
  | [] => None
  | (k, v) :: rest => if String.eqb k key then Some v else assoc key rest
  end.

Definition demo_fs : sysfs :=
  {| path_exists p :=
       String.eqb p "/sys/bus/usb/devices/"
       || match assoc p demo_files with Some _ => true | None => false end;
     listdir p :=
       if String.eqb p "/sys/bus/usb/devices/"
       then Ok ["1-1"; "1-0:1.0"; "usb1"] else Raise OSError;
     read p :=
       match assoc p demo_files with
       | Some content => Ok content
       | None => Raise OSError
       end;
     readlink _ := Raise OSError |}.

(** The registry root is gone. *)
Definition unplugged_fs : sysfs :=
  {| path_exists _ := false;
     listdir _ := Raise OSError;
     read _ := Raise OSError;
     readlink _ := Raise OSError |}.

Definition demo_float_of_str (s : string) : res Z := Py.int 0 s.

Definition old_record (device serial : string) : device_info Z :=
  {| vendor_id := "046d"; product_id := "c077";
     vendor_name := "unknown"; product_name := "USB Optical Mouse";
     serial := serial;
     version := Some "unknown"; class_id := Some "00"; driver := Some "none";
     speed := Float 12; max_power := 100;
     info_bus := Some "1"; info_device := Some device |}.

Definition old_cache : gmap string (device_info Z) :=
  <["1:5" := old_record "5" "gone"]> (<["1:1" := old_record "1" "hub"]> ∅).

Definition no_metrics : metrics :=
  {| usb_data_sent_bytes := ∅; usb_data_received_bytes := ∅;
     usb_transfer_errors_sent := ∅; usb_transfer_errors_received := ∅ |}.

Section Exporter.

Variable max_str_digits : nat.

(** [float], [float(s)] and [0.0]. *)
Variable float : Type.
Variable float_of_str : string -> res float.
Variable float_zero : float.

Abbreviation int := (Py.int max_str_digits).

Definition get_transfer_type (type_char : ascii) : string :=
  if Ascii.eqb type_char "C" then "control"
  else if Ascii.eqb type_char "Z" then "isochronous"
  else if Ascii.eqb type_char "I" then "interrupt"
  else if Ascii.eqb type_char "B" then "bulk"
  else "unknown".

(** [p.lstrip('-').isdigit()] *)
Definition looks_integer (p : string) : bool :=
  Py.isdigit (Py.lstrip_char "-" p).

(** The loop [for i in range(5, len(parts))] of [parse_usbmon_line],
    run on [parts[5:]]: the value of [result['data_length']] when the
    loop ends, or the exception that leaves it. *)
Fixpoint scan_length (payload : list string) : res Z :=
  match payload with
  | [] => Ok 0
  | p :: rest =>
      if looks_integer p then
        val <- int p ;;;
        if (0 <=? val) && (val <? 100000000) then Ok val
        else scan_length rest
      else scan_length rest
  end.

(** The body of the inner [try] of [parse_usbmon_line]: the value of
    [result['data_length']] after it.  Both branches assign last, so
    an exception leaves the initial 0. *)
Definition extract_length (parts : list string) : res Z :=
  if Py.contains "=" parts then
    idx <- Py.index "=" parts ;;;
    if (0 <? idx)%nat then
      prev <- Py.item parts (idx - 1) ;;;
      if looks_integer prev then int prev else Ok 0
    else Ok 0
  else scan_length (drop 5 parts).

(** The body of the outer [try] of [parse_usbmon_line]. *)
Definition parse_body (line : string) : res (option event) :=
  let parts := Py.split (Py.strip line) in
  if (length parts <? 6)%nat then Ok None
  else
    event_type <- Py.item parts 2 ;;;
    address <- Py.item parts 3 ;;;
    status <- Py.item parts 4 ;;;
    let address_parts := Py.split_sep ":" address in
    if (length address_parts <? 4)%nat then Ok None
    else
      direction_type <- Py.item address_parts 0 ;;;
      bus <- Py.item address_parts 1 ;;;
      devnum <- (raw <- Py.item address_parts 2 ;;; int raw) ;;;
      let device := Py.str devnum in
      endpoint <- Py.item address_parts 3 ;;;
      let direction :=
        if (1 <? String.length direction_type)%nat
           && match String.get 1 direction_type with
              | Some c => Ascii.eqb c "i"
              | None => false
              end
        then "in" else "out" in
      type_char <- Py.char_at direction_type 0 ;;;
      let transfer_type := get_transfer_type type_char in
      data_length <- except_ValueError (extract_length parts) (Ok 0) ;;;
      Ok (Some {| event_type := event_type; bus := bus; device := device;
                  endpoint := endpoint; direction := direction;
                  transfer_type := transfer_type; status := status;
                  data_length := data_length |}).

Definition parse_usbmon_line (line : string) : option event :=
  except_Exception (parse_body line) None.

(** [self.usb_devices] *)
Abbreviation cache := (gmap string (device_info float)).

Definition device_key (bus device : string) : string :=
  bus +:+ ":" +:+ device.

Definition placeholder : device_info float :=
  {| vendor_id := "unknown"; product_id := "unknown";
     vendor_name := "unknown"; product_name := "unknown";
     serial := "unknown";
     version := None; class_id := None; driver := None;
     speed := Int 0; max_power := 0;
     info_bus := None; info_device := None |}.

Definition get_device_info (usb_devices : cache) (bus device : string)
  : device_info float :=
  let key := device_key bus device in
  default placeholder (usb_devices !! key).

Definition errors_labels (parsed : event) : list string :=
  [bus parsed; device parsed; endpoint parsed; transfer_type parsed;
   status parsed].

Definition bytes_labels (parsed : event) (info : device_info float)
  : list string :=
  [bus parsed; device parsed; endpoint parsed; transfer_type parsed;
   vendor_name info; product_name info; serial info].

(** [process_usbmon_data]: the counters after the call, or the
    exception that leaves it.  A call that raises has changed no float:
    all it can leave behind is a child at [0.0] that [labels] has just
    created, which reads like the absent one. *)
Definition process_usbmon_data (usb_devices : cache) (line : string)
  (m : metrics) : res metrics :=
  match parse_usbmon_line line with
  | None => Ok m
  | Some parsed =>
      if negb (String.eqb (event_type parsed) "C") then Ok m
      else if negb (String.eqb (status parsed) "0") then
        if String.eqb (direction parsed) "out" then
          c <- inc (errors_labels parsed) 1 (usb_transfer_errors_sent m) ;;;
          Ok {| usb_data_sent_bytes := usb_data_sent_bytes m;
                usb_data_received_bytes := usb_data_received_bytes m;
                usb_transfer_errors_sent := c;
                usb_transfer_errors_received := usb_transfer_errors_received m |}
        else
          c <- inc (errors_labels parsed) 1 (usb_transfer_errors_received m) ;;;
          Ok {| usb_data_sent_bytes := usb_data_sent_bytes m;
                usb_data_received_bytes := usb_data_received_bytes m;
                usb_transfer_errors_sent := usb_transfer_errors_sent m;
                usb_transfer_errors_received := c |}
      else if 0 <? data_length parsed then
        let info := get_device_info usb_devices (bus parsed) (device parsed) in
        if String.eqb (direction parsed) "out" then
          c <- inc (bytes_labels parsed info) (data_length parsed)
                 (usb_data_sent_bytes m) ;;;
          Ok {| usb_data_sent_bytes := c;
                usb_data_received_bytes := usb_data_received_bytes m;
                usb_transfer_errors_sent := usb_transfer_errors_sent m;
                usb_transfer_errors_received := usb_transfer_errors_received m |}
        else
          c <- inc (bytes_labels parsed info) (data_length parsed)
                 (usb_data_received_bytes m) ;;;
          Ok {| usb_data_sent_bytes := usb_data_sent_bytes m;
                usb_data_received_bytes := c;
                usb_transfer_errors_sent := usb_transfer_errors_sent m;
                usb_transfer_errors_received := usb_transfer_errors_received m |}
      else Ok m
  end.

(** *** The cache refresh *)

Section Refresh.
Variable fs : sysfs.

Definition read_sysfs_file (filepath : string) (default : option string)
  : option string :=
  except_Exception
    (if negb (path_exists fs filepath) then Ok default
     else
       content <- read fs filepath ;;;
       let content := Py.strip content in
       Ok (if String.eqb content "" then default else Some content))
    default.

(** The calls that pass a [str] default get a [str] back
    ([read_sysfs_file_str] below). *)
Definition read_sysfs_str (filepath : string) (default : string) : string :=
  from_option id default (read_sysfs_file filepath (Some default)).

Definition clean_string (text : string) : string :=
  if String.eqb text "unknown" || String.eqb text "" then "unknown"
  else
    let cleaned := Py.strip (Py.printable text) in
    if String.eqb cleaned "" then "unknown" else cleaned.

Definition parse_speed (speed_str : string) : res float :=
  except_ValueError (float_of_str speed_str) (Ok float_zero).

Definition parse_power (power_str : string) : Z :=
  except_Exception
    (if Py.contains_str "mA" power_str then
       match Py.search_digits power_str with
       | Some group => int group
       | None => Raise AttributeError
       end
     else
       v <- int power_str ;;; Ok (v * 2))
    0.

(** The loop of [get_driver_name]: [Some] is the value returned from
    inside the loop. *)
Fixpoint first_driver (device_path : string) (items : list string)
  : res (option string) :=
  match items with
  | [] => Ok None
  | item :: rest =>
      if Py.match_interface item then
        let interface_path := Py.path_join device_path item in
        let driver_link := Py.path_join interface_path "driver" in
        if path_exists fs driver_link then
          driver_path <- readlink fs driver_link ;;;
          Ok (Some (Py.basename driver_path))
        else first_driver device_path rest
      else first_driver device_path rest
  end.

Definition get_driver_name (device_path : string) : string :=
  match
    except_Exception
      (items <- listdir fs device_path ;;; first_driver device_path items)
      None
  with
  | Some name => name
  | None => "none"
  end.

Definition devices_path : string := "/sys/bus/usb/devices/".

(** The body of the inner [try] of [update_device_info], up to the
    assignment under the lock: the key and the dict to store, [None]
    for [continue]. *)
Definition read_device (device_dir : string)
  : res (option (string * device_info float)) :=
  let full_path := Py.path_join devices_path device_dir in
  match read_sysfs_file (full_path +:+ "/busnum") None,
        read_sysfs_file (full_path +:+ "/devnum") None with
  | Some bus_id, Some dev_id =>
      if String.eqb bus_id "" || String.eqb dev_id "" then Ok None
      else
        bus_num <- int bus_id ;;;
        let bus_id := Py.str bus_num in
        dev_num <- int dev_id ;;;
        let dev_id := Py.str dev_num in
        let vendor_id := read_sysfs_str (full_path +:+ "/idVendor") "unknown" in
        let product_id := read_sysfs_str (full_path +:+ "/idProduct") "unknown" in
        let serial := read_sysfs_str (full_path +:+ "/serial") "unknown" in
        let version := read_sysfs_str (full_path +:+ "/version") "unknown" in
        let class_id := read_sysfs_str (full_path +:+ "/bDeviceClass") "00" in
        let driver := get_driver_name full_path in
        speed <- parse_speed (read_sysfs_str (full_path +:+ "/speed") "0") ;;;
        let max_power := parse_power (read_sysfs_str (full_path +:+ "/bMaxPower") "0") in
        let vendor_name :=
          clean_string (read_sysfs_str (full_path +:+ "/manufacturer") "unknown") in
        let product_name :=
          clean_string (read_sysfs_str (full_path +:+ "/product") "unknown") in
        Ok (Some (device_key bus_id dev_id,
                  {| vendor_id := Py.lower vendor_id;
                     product_id := Py.lower product_id;
                     vendor_name := vendor_name;
                     product_name := product_name;
                     serial := serial;
                     version := Some version;
                     class_id := Some class_id;
                     driver := Some driver;
                     speed := Float speed;
                     max_power := max_power;
                     info_bus := Some bus_id;
                     info_device := Some dev_id |}))
  | _, _ => Ok None
  end.

(** One turn of the loop of [update_device_info]: the name filter,
    the inner [try] with its [except Exception: pass], and the
    assignment [self.usb_devices[device_key] = ...] made while holding
    [device_lock]. *)
Definition accepted (device_dir : string) : bool :=
  Py.match_port device_dir || Py.match_root_hub device_dir.

Definition device_write (device_dir : string)
  : option (string * device_info float) :=
  if accepted device_dir
  then except_Exception (read_device device_dir) None
  else None.

Definition refresh_one (usb_devices : cache) (device_dir : string) : cache :=
  match device_write device_dir with
  | Some (key, info) => <[key := info]> usb_devices
  | None => usb_devices
  end.

Definition update_device_info (usb_devices : cache) : cache :=
  except_Exception
    (if negb (path_exists fs devices_path) then Ok usb_devices
     else
       names <- listdir fs devices_path ;;;
       Ok (fold_left refresh_one names usb_devices))
    usb_devices.

(** The caches a reader holding [device_lock] can see while
    [update_device_info] runs: the one before the call and the one
    after each turn of the loop (the lock is taken once per turn). *)
Fixpoint refresh_states (usb_devices : cache) (names : list string)
  : list cache :=
  usb_devices ::
  match names with
  | [] => []
  | device_dir :: rest =>
      refresh_states (refresh_one usb_devices device_dir) rest
  end.

Definition update_states (usb_devices : cache) : list cache :=
  except_Exception
    (if negb (path_exists fs devices_path) then Ok [usb_devices]
     else
       names <- listdir fs devices_path ;;;
       Ok (refresh_states usb_devices names))
    [usb_devices].

End Refresh.

(** *** The length as the specification words it *)

(** The integer a token stands for, when it looks like one. *)
Definition integer_value (t : string) : option Z :=
  if looks_integer t then
    match int t with
    | Ok v => Some v
    | Raise _ => None
    end
  else None.

Definition in_range (v : Z) : bool := (0 <=? v) && (v <? 100000000).

(** "the first integer-valued token in the range [0, 100_000_000)" *)
Fixpoint first_in_range (payload : list string) : option Z :=
  match payload with
  | [] => None
  | t :: rest =>
      match integer_value t with
      | Some v => if in_range v then Some v else first_in_range rest
      | None => first_in_range rest
      end
  end.

(** "if a literal = token is present, the token immediately preceding
    it is taken as the length if numeric; otherwise the payload tokens
    (from index 5 onward) are scanned left to right and the first
    integer-valued token in the range is used; if neither yields a value,
    dataLength is 0" *)
Definition stated_length (parts : list string) : Z :=
  if Py.contains "=" parts then
    match Py.index "=" parts with
    | Ok (S i) =>
        match nth_error parts i with
        | Some prev => default 0 (integer_value prev)
        | None => 0
        end
    | _ => 0
    end
  else default 0 (first_in_range (drop 5 parts)).

(** A token the scan passes over: not of the shape of an integer, or
    an integer outside the range. *)
Definition passed_over (t : string) : Prop :=
  looks_integer t = false \/ exists v, int t = Ok v /\ in_range v = false.

(** *** The counters by name, and the monitoring loop *)

Inductive counter_name : Type :=
| Sent_bytes
| Received_bytes
| Errors_sent
| Errors_received.

#[global] Instance counter_name_eq_dec : EqDecision counter_name.
Proof. solve_decision. Defined.

Definition counter_of (name : counter_name) (m : metrics) : counter :=
  match name with
  | Sent_bytes => usb_data_sent_bytes m
  | Received_bytes => usb_data_received_bytes m
  | Errors_sent => usb_transfer_errors_sent m
  | Errors_received => usb_transfer_errors_received m
  end.

(** What a line counts for: the counters [process_usbmon_data] leaves
    when it starts from the empty ones of [setup_metrics]. *)
Definition line_effect (usb_devices : cache) (line : string) : metrics :=
  except_Exception (process_usbmon_data usb_devices line no_metrics)
    no_metrics.

(** The [while True] loop of [monitor_usbmon].  [reads] lists what the
    calls of [f.readline()] give, decoded, each with [self.usb_devices]
    as it is when the line is processed (the refresh runs in another
    thread); an empty line is the end of the file and breaks the loop, an
    exception of [open] or of the read leaves it through the outer
    [except], and an exception of [process_usbmon_data] is logged by the
    inner one. *)
Fixpoint monitor_loop (reads : list (cache * res string)) (m : metrics)
  : metrics :=
  match reads with
  | [] => m
  | (usb_devices, Ok line) :: rest =>
      if String.eqb line "" then m
      else
        monitor_loop rest
          (except_Exception (process_usbmon_data usb_devices line m) m)
  | (_, Raise _) :: _ => m
  end.

(** [monitor_usbmon(bus)] with [self.usbmon_path = usbmon_path]. *)
Definition monitor_usbmon (fs : sysfs) (usbmon_path bus : string)
  (reads : list (cache * res string)) (m : metrics) : metrics :=
  let usbmon_file := usbmon_path +:+ "/" +:+ bus in
  if negb (path_exists fs usbmon_file) then m
  else monitor_loop reads m.

(** The sum over a stream of what its lines count for at one child. *)
Definition stream_total (name : counter_name) (labels : list string)
  (lines : list (cache * string)) : Z :=
  foldr (fun r acc =>
           whole (value (counter_of name (line_effect r.1 r.2)) labels) + acc)
    0 lines.

(** A stream of lines with no end of file and no failing read in it. *)
Definition flowing (lines : list (cache * string))
  : list (cache * res string) :=
  (fun r => (r.1, Ok r.2)) <$> lines.

(** *** What the refresh keeps true of the cache *)

(** A record with all twelve keys, stored under the key made of its own
    bus and device, both the [str] of an [int]. *)
Definition keyed (key : string) (info : device_info float) : Prop :=
  exists bus_num dev_num : Z,
    info_bus info = Some (Py.str bus_num) /\
    info_device info = Some (Py.str dev_num) /\
    key = device_key (Py.str bus_num) (Py.str dev_num) /\
    is_Some (version info) /\ is_Some (class_id info) /\
    is_Some (driver info).

Definition cache_ok (usb_devices : cache) : Prop :=
  forall key info, usb_devices !! key = Some info -> keyed key info.

(** Every character is printable ASCII. *)
Fixpoint all_printable (s : string) : bool :=
  match s with
  | EmptyString => true
  | String c r =>
      ((32 <=? Py.code c) && (Py.code c <=? 126))%N && all_printable r
  end.

Fixpoint all_decimal (s : string) : bool :=
  match s with
  | EmptyString => true
  | String c r => Py.is_decimal c && all_decimal r
  end.

(** [m] with the float [amount] added to the child [labels] of the
    counter [name]. *)
Definition add_to (name : counter_name) (labels : list string)
  (amount : double) (m : metrics) : metrics :=
  let raised c := <[labels := double_add (value c labels) amount]> c in
  match name with
  | Sent_bytes =>
      {| usb_data_sent_bytes := raised (usb_data_sent_bytes m);
         usb_data_received_bytes := usb_data_received_bytes m;
         usb_transfer_errors_sent := usb_transfer_errors_sent m;
         usb_transfer_errors_received := usb_transfer_errors_received m |}
  | Received_bytes =>
      {| usb_data_sent_bytes := usb_data_sent_bytes m;
         usb_data_received_bytes := raised (usb_data_received_bytes m);
         usb_transfer_errors_sent := usb_transfer_errors_sent m;
         usb_transfer_errors_received := usb_transfer_errors_received m |}
  | Errors_sent =>
      {| usb_data_sent_bytes := usb_data_sent_bytes m;
         usb_data_received_bytes := usb_data_received_bytes m;
         usb_transfer_errors_sent := raised (usb_transfer_errors_sent m);
         usb_transfer_errors_received := usb_transfer_errors_received m |}
  | Errors_received =>
      {| usb_data_sent_bytes := usb_data_sent_bytes m;
         usb_data_received_bytes := usb_data_received_bytes m;
         usb_transfer_errors_sent := usb_transfer_errors_sent m;
         usb_transfer_errors_received := raised (usb_transfer_errors_received m) |}
  end.

(** The assignments one call of [update_device_info] makes, the last
    one first; none when the registry cannot be listed. *)
Definition refresh_writes (fs : sysfs)
  : list (string * device_info float) :=
  if path_exists fs devices_path then
    match listdir fs devices_path with
    | Ok names => reverse (omap (device_write fs) names)
    | Raise _ => []
    end
  else [].

(** *** An example stream

    A debug file system that has the usbmon file of all buses, and two
    lines read from it while the cache is empty. *)
Definition usbmon_fs : sysfs :=
  {| path_exists p := String.eqb p "/sys/kernel/debug/usb/usbmon/0u";
     listdir _ := Raise OSError;
     read _ := Raise OSError;
     readlink _ := Raise OSError |}.

Definition demo_stream : list (gmap string (device_info Z) * string) :=
  [(∅, "abc 123 C Ci:1:002:1 0 32 ...
");
   (∅, "abc 123 C Bo:2:005:3 5 0
")].

(** ** Properties *)

(** *** The built-ins *)

Lemma bind_Ok {A B : Type} (m : res A) (k : A -> res B) (b : B) :
  bind m k = Ok b -> exists a, m = Ok a /\ k a = Ok b.
Proof. destruct m as [a|e]; simpl; [eauto | discriminate]. Qed.

Lemma item_Ok {A : Type} (l : list A) (i : nat) (a : A) :
  Py.item l i = Ok a <-> nth_error l i = Some a.
Proof.
  unfold Py.item. destruct (nth_error l i); split; congruence.
Qed.

Lemma item_lt {A : Type} (l : list A) (i : nat) :
  (i < length l)%nat -> exists a, Py.item l i = Ok a /\ nth_error l i = Some a.
Proof.
  intros Hi. unfold Py.item.
  destruct (nth_error l i) as [a|] eqn:E; [eauto |].
  apply nth_error_None in E. lia.
Qed.

Lemma magnitude_raises (s : string) (e : exn) :
  Py.magnitude max_str_digits s = Raise e -> e = ValueError.
Proof.
  unfold Py.magnitude. destruct (Py.digits s) as [[v n]|]; [|congruence].
  destruct (Py.too_long max_str_digits n); congruence.
Qed.

(** [int] raises nothing but [ValueError]. *)
Lemma int_raises (s : string) (e : exn) : int s = Raise e -> e = ValueError.
Proof.
  assert (Hneg : forall r, bind (Py.magnitude max_str_digits r)
                   (fun v => Ok (- v)) = Raise e -> e = ValueError).
  { intros r. destruct (Py.magnitude max_str_digits r) eqn:E; simpl;
      [discriminate | intros [= <-]; eauto using magnitude_raises]. }
  unfold Py.int. destruct s as [|c r]; [apply magnitude_raises |].
  destruct c as [[] [] [] [] [] [] [] []];
    solve [apply magnitude_raises | apply Hneg].
Qed.

Lemma contains_In (x : string) (l : list string) :
  Py.contains x l = true <-> In x l.
Proof.
  unfold Py.contains. rewrite existsb_exists. split.
  - intros (y & Hy & E). apply String.eqb_eq in E. congruence.
  - intros H. exists x. split; [done | apply String.eqb_refl].
Qed.

(** [l.index(x)] finds the first occurrence. *)
Lemma index_first (x : string) (pre post : list string) :
  ~ In x pre -> Py.index x (pre ++ x :: post) = Ok (length pre).
Proof.
  induction pre as [|y pre IH]; simpl; intros Hn.
  - by rewrite String.eqb_refl.
  - destruct (String.eqb y x) eqn:E.
    + apply String.eqb_eq in E. destruct Hn. by left.
    + rewrite IH; [done |]. intros Hin. apply Hn. by right.
Qed.

Lemma In_first (x : string) (l : list string) :
  In x l -> exists pre post, l = pre ++ x :: post /\ ~ In x pre.
Proof.
  induction l as [|y l IH]; simpl; [intros [] |].
  intros H. destruct (decide (y = x)) as [->|Hne].
  - exists [], l. split; [done | intros []].
  - destruct H as [H|H]; [done |].
    destruct (IH H) as (pre & post & -> & Hn).
    exists (y :: pre), post. split; [done |].
    intros [E|Hin]; [by apply Hne | by apply Hn].
Qed.

(** The strings handed to [int] have no white space at either end:
    they are tokens of [split], colon fields of a token, or come out of
    [strip]. *)
Lemma no_space_rev_app (s1 s2 : string) :
  Py.no_space (String.rev_app s1 s2) = Py.no_space s1 && Py.no_space s2.
Proof.
  revert s2. induction s1 as [|c s1 IH]; intros s2; simpl; [done |].
  rewrite IH. simpl. destruct (Py.isspace c), (Py.no_space s1); simpl; auto.
Qed.

Lemma rev_app_nonempty (s1 s2 : string) :
  String.rev_app s1 s2 = "" -> s1 = "" /\ s2 = "".
Proof.
  revert s2. induction s1 as [|c s1 IH]; intros s2; simpl; [done |].
  intros H. destruct (IH _ H) as [_ [=]].
Qed.

Lemma split_go_tokens (s : string) (cur : option string) (t : string) :
  (forall w, cur = Some w -> w <> "" /\ Py.no_space w = true) ->
  In t (Py.split_go cur s) -> t <> "" /\ Py.no_space t = true.
Proof.
  assert (Hcur : forall cur : option string,
             (forall w, cur = Some w -> w <> "" /\ Py.no_space w = true) ->
             In t (option_list (String.rev <$> cur)) ->
             t <> "" /\ Py.no_space t = true).
  { intros [w|] Hw; simpl; [|intros []]. intros [<- | []].
    destruct (Hw w eq_refl) as [Hne Hns]. split.
    - intros E. apply rev_app_nonempty in E as [E _]. done.
    - unfold String.rev. rewrite no_space_rev_app, Hns. done. }
  revert cur. induction s as [|c s IH]; intros cur Hw; simpl; [by apply Hcur |].
  destruct (Py.isspace c) eqn:Ec.
  - intros H. apply in_app_or in H as [H|H]; [by apply (Hcur cur) |].
    apply (IH None); [intros w [=] | done].
  - apply IH. intros w [= <-]. split; [done |]. simpl. rewrite Ec. simpl.
    destruct cur as [w|]; simpl; [|done]. by destruct (Hw w eq_refl).
Qed.

Lemma split_tokens (s t : string) :
  In t (Py.split s) -> t <> "" /\ Py.no_space t = true.
Proof. apply split_go_tokens. intros w [=]. Qed.

Lemma split_sep_no_space (sep : ascii) (s t : string) :
  Py.no_space s = true -> In t (Py.split_sep sep s) -> Py.no_space t = true.
Proof.
  revert t. induction s as [|c s IH]; intros t; simpl.
  - intros _ [<- | []]. done.
  - intros H. apply andb_true_iff in H as [Hc Hs].
    destruct (Ascii.eqb c sep).
    + intros [<- | H]; [done | by apply IH].
    + destruct (Py.split_sep sep s) as [|t' ts] eqn:E.
      * intros [<- | []]. simpl. by rewrite Hc.
      * intros [<- | H].
        -- simpl. rewrite Hc. simpl. apply IH; [done | by left].
        -- apply IH; [done | by right].
Qed.

Lemma parser_fields_no_space (line t field : string) :
  In t (Py.split (Py.strip line)) ->
  Py.no_space t = true /\
  (In field (Py.split_sep ":" t) -> Py.no_space field = true).
Proof.
  intros Ht. apply split_tokens in Ht as [_ Ht].
  split; [done |]. by apply split_sep_no_space.
Qed.

Lemma rstrip_cases (c : ascii) (r : string) :
  Py.rstrip (String c r) = "" \/
  exists r', Py.rstrip (String c r) = String c r'.
Proof. simpl. destruct (Py.rstrip r); [destruct (Py.isspace c) |]; eauto. Qed.

Lemma strip_trimmed (s : string) :
  Py.starts_with_space (Py.strip s) = false /\
  Py.ends_with_space (Py.strip s) = false.
Proof.
  unfold Py.strip. split.
  - induction s as [|c s IH]; simpl; [done |].
    destruct (Py.isspace c) eqn:Ec; [done |].
    destruct (rstrip_cases c s) as [-> | (r' & ->)]; simpl; done.
  - generalize (Py.lstrip s). clear s. intros s.
    induction s as [|c s IH]; simpl; [done |].
    destruct (Py.rstrip s) as [|c' r'] eqn:E.
    + destruct (Py.isspace c) eqn:Ec; simpl; done.
    + done.
Qed.

(** [str] of what [int] read is read back by [int]. *)
Lemma decimal_range (c : ascii) (d : Z) :
  Py.decimal c = Some d -> 0 <= d <= 9.
Proof.
  unfold Py.decimal. destruct (_ && _)%N eqn:E; [|discriminate].
  intros [= <-]. apply andb_true_iff in E as [E1 E2].
  apply N.leb_le in E1, E2. lia.
Qed.

Lemma decimal_pretty_N_char (d : N) :
  (d < 10)%N -> Py.decimal (pretty_N_char d) = Some (Z.of_N d).
Proof.
  intros H.
  assert (d = 0 \/ d = 1 \/ d = 2 \/ d = 3 \/ d = 4 \/ d = 5 \/ d = 6
          \/ d = 7 \/ d = 8 \/ d = 9)%N as Hd by lia.
  repeat (destruct Hd as [-> | Hd]; [reflexivity |]). by subst.
Qed.

Lemma digits_go_bound (s : string) (acc : Z) (m : nat) (v : Z) (n : nat) :
  Py.digits_go acc m s = Some (v, n) ->
  0 <= acc < 10 ^ Z.of_nat m ->
  0 <= v < 10 ^ Z.of_nat n /\ (m <= n)%nat.
Proof.
  revert acc m. induction s as [|c r IH]; intros acc m; simpl.
  - intros [= <- <-]. auto.
  - destruct (Py.decimal c) as [d|] eqn:Ed.
    + intros H Hacc. apply decimal_range in Ed.
      apply IH in H as [Hv Hm]; [split; [done | lia] |].
      rewrite Nat2Z.inj_succ, Z.pow_succ_r by lia. lia.
    + destruct (Ascii.eqb c "_"); [|discriminate].
      destruct r as [|c' r']; [discriminate |].
      destruct (Py.is_decimal c'); [|discriminate]. apply IH.
Qed.

Lemma digits_bound (s : string) (v : Z) (n : nat) :
  Py.digits s = Some (v, n) -> 0 <= v < 10 ^ Z.of_nat n /\ (1 <= n)%nat.
Proof.
  unfold Py.digits. destruct s as [|c r]; [discriminate |].
  unfold Py.is_decimal. destruct (Py.decimal c) as [d|] eqn:Ed; [|discriminate].
  simpl. rewrite Ed. intros H. apply decimal_range in Ed.
  apply digits_go_bound in H; [done |]. simpl. lia.
Qed.

Lemma digits_go_pretty (x : N) :
  exists k : nat,
    (x = 0%N -> k = 0%nat) /\
    ((0 < x)%N -> (1 <= k)%nat /\ 10 ^ Z.of_nat (k - 1) <= Z.of_N x) /\
    (forall s acc n,
        Py.digits_go acc n (pretty_N_go x s)
        = Py.digits_go (acc * 10 ^ Z.of_nat k + Z.of_N x) (n + k) s) /\
    (forall s, (0 < x)%N ->
               exists c r, pretty_N_go x s = String c r /\ Py.is_decimal c = true).
Proof.
  induction (N.lt_wf_0 x) as [x _ IH].
  destruct (decide (x = 0)%N) as [-> | Hx].
  - exists 0%nat. split; [done |]. split; [lia |]. split; [|lia].
    intros s acc n. rewrite pretty_N_go_0. f_equal; [simpl; lia | lia].
  - assert (Hpos : (0 < x)%N) by lia.
    destruct (IH (x `div` 10)%N) as (k & Hzero & Hlow & Hgo & Hstart).
    { apply N.div_lt; lia. }
    pose proof (N.div_mod x 10 ltac:(lia)) as Hdm.
    pose proof (N.mod_lt x 10 ltac:(lia)) as Hmod.
    apply (f_equal Z.of_N) in Hdm. rewrite N2Z.inj_add, N2Z.inj_mul in Hdm.
    change (Z.of_N 10) with 10 in Hdm.
    assert (Hr : 0 <= Z.of_N (x `mod` 10) < 10).
    { split; [apply N2Z.is_nonneg |]. by apply (N2Z.inj_lt _ 10). }
    assert (Hq0 : 0 <= Z.of_N (x `div` 10)) by apply N2Z.is_nonneg.
    exists (S k). split; [lia |]. split; [|split].
    + intros _. split; [lia |]. simpl. rewrite Nat.sub_0_r.
      destruct (decide (x `div` 10 = 0)%N) as [E0 | E0].
      * rewrite (Hzero E0). simpl. rewrite E0 in Hdm. simpl in Hdm.
        assert (0 < Z.of_N x) by (by apply (N2Z.inj_lt 0)). lia.
      * destruct Hlow as [Hk Hl]; [by apply N.neq_0_lt_0 |].
        replace (Z.of_nat k) with (Z.succ (Z.of_nat (k - 1))) by lia.
        rewrite Z.pow_succ_r by lia. clear E0 Hzero. lia.
    + intros s acc n. rewrite pretty_N_go_step by done. rewrite Hgo. simpl.
      rewrite decimal_pretty_N_char by done.
      f_equal; [|lia].
      rewrite Nat2Z.inj_succ, Z.pow_succ_r by lia. lia.
    + intros s _. rewrite pretty_N_go_step by done.
      destruct (decide (x `div` 10 = 0)%N) as [E0 | E0].
      * rewrite E0, pretty_N_go_0. eexists _, _. split; [done |].
        unfold Py.is_decimal. by rewrite decimal_pretty_N_char.
      * apply Hstart. by apply N.neq_0_lt_0.
Qed.

Lemma too_long_mono (k n : nat) :
  (k <= n)%nat -> Py.too_long max_str_digits n = false ->
  Py.too_long max_str_digits k = false.
Proof.
  unfold Py.too_long. intros Hkn H.
  destruct (640 <? k)%nat eqn:E1; [|done].
  destruct (0 <? max_str_digits)%nat eqn:E2; [|done].
  destruct (max_str_digits <? k)%nat eqn:E3; [|done].
  apply Nat.ltb_lt in E1, E3.
  assert ((640 <? n)%nat = true) as H1 by (apply Nat.ltb_lt; lia).
  assert ((max_str_digits <? n)%nat = true) as H3 by (apply Nat.ltb_lt; lia).
  rewrite H1, H3 in H. done.
Qed.

Lemma int_decimal_start (c : ascii) (r : string) :
  Py.is_decimal c = true -> int (String c r) = Py.magnitude max_str_digits (String c r).
Proof.
  destruct c as [[] [] [] [] [] [] [] []]; try reflexivity; discriminate.
Qed.

(** The magnitude of [str] of a positive number, within the limit that
    let the number in. *)
Lemma magnitude_pretty (p : positive) (n : nat) :
  Z.pos p < 10 ^ Z.of_nat n ->
  Py.too_long max_str_digits n = false ->
  Py.magnitude max_str_digits (pretty (N.pos p)) = Ok (Z.pos p) /\
  exists c r, pretty (N.pos p) = String c r /\ Py.is_decimal c = true.
Proof.
  intros Hlt Hn.
  destruct (digits_go_pretty (N.pos p)) as (k & _ & Hlow & Hgo & Hstart).
  destruct Hlow as [Hk Hl]; [done |].
  destruct (Hstart "") as (c & r & E & Hc); [done |].
  unfold pretty, pretty_N. destruct (decide (N.pos p = 0)%N) as [|_]; [done |].
  split; [|eauto].
  unfold Py.magnitude, Py.digits. rewrite E, Hc, <- E, Hgo. simpl.
  assert (Hkn : (k <= n)%nat).
  { assert (Z.of_nat (k - 1) < Z.of_nat n); [|lia].
    apply (Z.pow_lt_mono_r_iff 10); [lia | lia |].
    change (Z.of_N (N.pos p)) with (Z.pos p) in Hl. lia. }
  rewrite (too_long_mono k n) by done. done.
Qed.

Lemma magnitude_Ok (s : string) (v : Z) :
  Py.magnitude max_str_digits s = Ok v ->
  exists n, 0 <= v < 10 ^ Z.of_nat n /\ Py.too_long max_str_digits n = false.
Proof.
  unfold Py.magnitude. destruct (Py.digits s) as [[v' n]|] eqn:E; [|discriminate].
  destruct (Py.too_long max_str_digits n) eqn:T; [discriminate |].
  intros [= <-]. apply digits_bound in E as [E _]. eauto.
Qed.

Lemma int_Ok (s : string) (z : Z) :
  int s = Ok z ->
  exists n, Z.abs z < 10 ^ Z.of_nat n /\ Py.too_long max_str_digits n = false.
Proof.
  assert (Hpos : forall r, Py.magnitude max_str_digits r = Ok z ->
            exists n, Z.abs z < 10 ^ Z.of_nat n
                      /\ Py.too_long max_str_digits n = false).
  { intros r H. apply magnitude_Ok in H as (n & Hv & Hn). exists n.
    split; [lia | done]. }
  assert (Hneg : forall r, bind (Py.magnitude max_str_digits r)
                   (fun v => Ok (- v)) = Ok z ->
            exists n, Z.abs z < 10 ^ Z.of_nat n
                      /\ Py.too_long max_str_digits n = false).
  { intros r H. apply bind_Ok in H as (v & H & [= <-]).
    apply magnitude_Ok in H as (n & Hv & Hn). exists n. split; [lia | done]. }
  unfold Py.int. destruct s as [|c r]; [apply Hpos |].
  destruct c as [[] [] [] [] [] [] [] []]; solve [apply Hpos | apply Hneg].
Qed.

Lemma int_str (z : Z) (n : nat) :
  Z.abs z < 10 ^ Z.of_nat n -> Py.too_long max_str_digits n = false ->
  int (Py.str z) = Ok z.
Proof.
  intros Hz Hn. destruct z as [|p|p].
  - reflexivity.
  - destruct (magnitude_pretty p n) as (Hm & c & r & E & Hc); [done.. |].
    change (Py.str (Z.pos p)) with (pretty (N.pos p)).
    rewrite E, int_decimal_start, <- E by done. done.
  - destruct (magnitude_pretty p n) as (Hm & _); [done.. |].
    change (Py.str (Z.neg p)) with (String "-" (pretty (N.pos p))).
    simpl. rewrite Hm. done.
Qed.

(** [str(int(s))] is an integer literal of the same value. *)
Lemma int_str_int (s : string) (z : Z) :
  int s = Ok z -> int (Py.str z) = Ok z.
Proof. intros H. apply int_Ok in H as (n & Hz & Hn). eauto using int_str. Qed.

(** *** The parser *)

(** What an accepted line looks like. *)
Lemma parse_inv (line : string) (ev : event) :
  parse_usbmon_line line = Some ev ->
  let parts := Py.split (Py.strip line) in
  exists type_field raw_device z,
    (6 <= length parts)%nat /\
    nth_error parts 2 = Some (event_type ev) /\
    nth_error parts 4 = Some (status ev) /\
    (exists address,
       nth_error parts 3 = Some address /\
       let address_parts := Py.split_sep ":" address in
       (4 <= length address_parts)%nat /\
       nth_error address_parts 0 = Some type_field /\
       nth_error address_parts 1 = Some (bus ev) /\
       nth_error address_parts 2 = Some raw_device /\
       nth_error address_parts 3 = Some (endpoint ev)) /\
    int raw_device = Ok z /\
    device ev = Py.str z /\
    (direction ev = "in" \/ direction ev = "out") /\
    (exists c, String.get 0 type_field = Some c /\
               transfer_type ev = get_transfer_type c) /\
    except_ValueError (extract_length parts) (Ok 0) = Ok (data_length ev).
Proof.
  intros H. cbv zeta. unfold parse_usbmon_line, parse_body in H.
  set (parts := Py.split (Py.strip line)) in *.
  destruct (length parts <? 6)%nat eqn:Hlen; [discriminate |].
  apply Nat.ltb_ge in Hlen.
  destruct (Py.item parts 2) as [et|] eqn:E2; [|discriminate].
  destruct (Py.item parts 3) as [address|] eqn:E3; [|discriminate].
  destruct (Py.item parts 4) as [st|] eqn:E4; [|discriminate].
  simpl in H.
  destruct (length (Py.split_sep ":" address) <? 4)%nat eqn:Hal; [discriminate |].
  apply Nat.ltb_ge in Hal.
  destruct (Py.item (Py.split_sep ":" address) 0) as [dt|] eqn:A0; [|discriminate].
  destruct (Py.item (Py.split_sep ":" address) 1) as [b|] eqn:A1; [|discriminate].
  destruct (Py.item (Py.split_sep ":" address) 2) as [raw|] eqn:A2; [|discriminate].
  simpl in H.
  destruct (int raw) as [z|] eqn:Ez; [|discriminate].
  destruct (Py.item (Py.split_sep ":" address) 3) as [ep|] eqn:A3; [|discriminate].
  simpl in H.
  unfold Py.char_at in H.
  destruct (String.get 0 dt) as [c|] eqn:Ec; [|discriminate].
  simpl in H.
  destruct (except_ValueError (extract_length parts) (Ok 0)) as [dl|] eqn:El;
    [|discriminate].
  simpl in H. injection H as <-. simpl.
  apply item_Ok in E2, E3, E4, A0, A1, A2, A3.
  exists dt, raw, z. repeat split; try done.
  - exists address. repeat split; done.
  - destruct (_ && _); auto.
  - eauto.
Qed.

(** C6: a line of fewer than six tokens, or one whose fourth token has
    fewer than four colon-separated fields, is not parsed: the parser
    returns no event at all. *)
Theorem malformed_line_fails (line : string) :
  (length (Py.split (Py.strip line)) < 6)%nat \/
  (exists address,
      nth_error (Py.split (Py.strip line)) 3 = Some address /\
      (length (Py.split_sep ":" address) < 4)%nat) ->
  parse_usbmon_line line = None.
Proof.
  intros H.
  destruct (parse_usbmon_line line) as [ev|] eqn:E; [|done].
  apply parse_inv in E as (dt & raw & z & Hlen & _ & _ & Haddr & _).
  destruct Haddr as (address & Ha & Hal & _).
  destruct H as [H | (address' & Ha' & Hal')]; [lia |].
  rewrite Ha in Ha'. injection Ha' as <-. lia.
Qed.

(** C10: six tokens and a four-field address do not make a line
    parse: some such line is rejected, and every such line whose third
    address field (the device) [int] does not accept is rejected. *)
Theorem bad_device_field_fails :
  (exists line address,
      (6 <= length (Py.split (Py.strip line)))%nat /\
      nth_error (Py.split (Py.strip line)) 3 = Some address /\
      (4 <= length (Py.split_sep ":" address))%nat /\
      parse_usbmon_line line = None) /\
  (forall line address raw_device e,
      (6 <= length (Py.split (Py.strip line)))%nat ->
      nth_error (Py.split (Py.strip line)) 3 = Some address ->
      (4 <= length (Py.split_sep ":" address))%nat ->
      nth_error (Py.split_sep ":" address) 2 = Some raw_device ->
      int raw_device = Raise e ->
      parse_usbmon_line line = None).
Proof.
  split.
  - exists "ffff8801 1699 C Ci:1:0x2:0 0 4 = 01000000", "Ci:1:0x2:0".
    repeat split; vm_compute; (lia || done).
  - intros line address raw e _ Ha _ Hraw He.
    destruct (parse_usbmon_line line) as [ev|] eqn:E; [|done].
    apply parse_inv in E as (dt & raw' & z & _ & _ & _ & Haddr & Hz & _).
    destruct Haddr as (address' & Ha' & _ & _ & _ & Hraw' & _).
    rewrite Ha in Ha'. injection Ha' as <-.
    rewrite Hraw in Hraw'. injection Hraw' as <-. congruence.
Qed.

(** *** The length of the payload *)

Lemma scan_length_raises (payload : list string) (e : exn) :
  scan_length payload = Raise e -> e = ValueError.
Proof.
  induction payload as [|p rest IH]; simpl; [discriminate |].
  destruct (looks_integer p); [|done].
  destruct (int p) as [v|e'] eqn:E; simpl.
  - destruct (_ && _); [discriminate | done].
  - intros [= <-]. eauto using int_raises.
Qed.

Lemma scan_length_passes (skipped rest : list string) :
  Forall passed_over skipped ->
  scan_length (skipped ++ rest) = scan_length rest.
Proof.
  induction 1 as [|t skipped Ht _ IH]; simpl; [done |].
  destruct Ht as [-> | (v & -> & Hv)]; [done |].
  destruct (looks_integer t); [|done]. simpl.
  unfold in_range in Hv. by rewrite Hv.
Qed.

Lemma scan_length_nonneg (payload : list string) (v : Z) :
  scan_length payload = Ok v -> 0 <= v < 100000000.
Proof.
  induction payload as [|p rest IH]; simpl; [intros [= <-]; lia |].
  destruct (looks_integer p); [|done].
  destruct (int p) as [val|e'] eqn:E; simpl; [|discriminate].
  destruct (_ && _) eqn:R; [|done].
  intros [= <-]. apply andb_true_iff in R as [R1 R2].
  apply Z.leb_le in R1. apply Z.ltb_lt in R2. lia.
Qed.

(** The marker branch, at the first "=" of the line. *)
Lemma extract_length_marker (pre post : list string) :
  ~ In "=" pre ->
  extract_length (pre ++ "=" :: post) =
    match last pre with
    | Some prev => if looks_integer prev then int prev else Ok 0
    | None => Ok 0
    end.
Proof.
  intros Hn. unfold extract_length.
  assert (Hc : Py.contains "=" (pre ++ "=" :: post) = true).
  { apply contains_In, in_or_app. right. by left. }
  rewrite Hc, index_first by done. simpl.
  destruct pre as [|p pre _] using rev_ind; [done |].
  rewrite last_snoc, length_app. simpl.
  replace (length pre + 1 - 1)%nat with (length pre) by lia.
  destruct (0 <? length pre + 1)%nat eqn:E; [| apply Nat.ltb_ge in E; lia].
  unfold Py.item. rewrite <- app_assoc. simpl.
  rewrite nth_error_app2, Nat.sub_diag by lia. done.
Qed.

Lemma extract_length_scan (parts : list string) :
  ~ In "=" parts -> extract_length parts = scan_length (drop 5 parts).
Proof.
  intros Hn. unfold extract_length.
  destruct (Py.contains "=" parts) eqn:E; [|done].
  apply contains_In in E. done.
Qed.

(** The inner [try] always leaves a length. *)
Lemma extract_length_caught (parts : list string) :
  exists v, except_ValueError (extract_length parts) (Ok 0) = Ok v.
Proof.
  assert (H : forall e, extract_length parts = Raise e -> e = ValueError).
  { intros e. destruct (in_dec string_dec "=" parts) as [Hin|Hn].
    - apply In_first in Hin as (pre & post & -> & Hn).
      rewrite extract_length_marker by done.
      destruct (last pre) as [prev|]; [|discriminate].
      destruct (looks_integer prev); [apply int_raises | discriminate].
    - rewrite extract_length_scan by done. apply scan_length_raises. }
  destruct (extract_length parts) as [v|e] eqn:E; simpl; [eauto |].
  rewrite (H e eq_refl). eauto.
Qed.

(** A line is accepted as soon as its first five tokens pass. *)
Lemma parse_accepts (line : string) (event_type address status : string)
  (type_field bus raw_device endpoint : string) (z : Z) (c : ascii) :
  let parts := Py.split (Py.strip line) in
  let address_parts := Py.split_sep ":" address in
  (6 <= length parts)%nat ->
  nth_error parts 2 = Some event_type ->
  nth_error parts 3 = Some address ->
  nth_error parts 4 = Some status ->
  (4 <= length address_parts)%nat ->
  nth_error address_parts 0 = Some type_field ->
  nth_error address_parts 1 = Some bus ->
  nth_error address_parts 2 = Some raw_device ->
  nth_error address_parts 3 = Some endpoint ->
  int raw_device = Ok z ->
  String.get 0 type_field = Some c ->
  exists ev, parse_usbmon_line line = Some ev.
Proof.
  intros parts address_parts Hlen E2 E3 E4 Hal A0 A1 A2 A3 Ez Ec.
  unfold parse_usbmon_line, parse_body. fold parts.
  destruct (length parts <? 6)%nat eqn:L; [apply Nat.ltb_lt in L; lia |].
  apply item_Ok in E2, E3, E4. rewrite E2, E3, E4. simpl.
  fold address_parts.
  destruct (length address_parts <? 4)%nat eqn:L'; [apply Nat.ltb_lt in L'; lia |].
  apply item_Ok in A0, A1, A2, A3. rewrite A0, A1, A2. simpl.
  rewrite Ez, A3. simpl. unfold Py.char_at. rewrite Ec. simpl.
  destruct (extract_length_caught parts) as (v & ->). simpl. eauto.
Qed.

(** C3 (as amended): for an accepted line, with a "=" token the length
    is the integer of the token before the first "=", when there is one,
    it looks like an integer and [int] accepts it, and 0 otherwise;
    without a "=" token the tokens from index 5 on are scanned left to
    right, passing over those that do not look like an integer or lie
    outside [0, 100000000): the first one left gives the length when
    [int] accepts it and ends the scan with length 0 when [int] rejects
    it, and the length is 0 when none is left.  Whether a line is
    accepted depends on its first five tokens and on there being six:
    the length never makes the parse fail. *)
Theorem length_extraction (line : string) (ev : event) :
  parse_usbmon_line line = Some ev ->
  let parts := Py.split (Py.strip line) in
  (forall pre post,
      parts = pre ++ "=" :: post -> ~ In "=" pre ->
      data_length ev =
        match last pre with
        | Some prev => default 0 (integer_value prev)
        | None => 0
        end) /\
  (~ In "=" parts ->
   (forall skipped t rest v,
       drop 5 parts = skipped ++ t :: rest -> Forall passed_over skipped ->
       looks_integer t = true -> int t = Ok v -> in_range v = true ->
       data_length ev = v) /\
   (forall skipped t rest e,
       drop 5 parts = skipped ++ t :: rest -> Forall passed_over skipped ->
       looks_integer t = true -> int t = Raise e ->
       data_length ev = 0) /\
   (Forall passed_over (drop 5 parts) -> data_length ev = 0)) /\
  (forall line',
      take 5 (Py.split (Py.strip line')) = take 5 parts ->
      (6 <= length (Py.split (Py.strip line')))%nat ->
      exists ev', parse_usbmon_line line' = Some ev').
Proof.
  intros Hp parts.
  pose proof (parse_inv _ _ Hp) as
    (dt & raw & z & Hlen & E2 & E4 & (address & E3 & Hal & A0 & A1 & A2 & A3)
     & Ez & _ & _ & (c & Ec & _) & Hdl).
  fold parts in Hlen, E2, E3, E4, Hdl.
  split; [|split].
  - intros pre post Hparts Hn. rewrite Hparts in Hdl.
    rewrite extract_length_marker in Hdl by done.
    destruct (last pre) as [prev|]; [|simpl in Hdl; congruence].
    unfold integer_value. destruct (looks_integer prev);
      [|simpl in *; congruence].
    destruct (int prev) as [v|e] eqn:E; simpl in *; [congruence |].
    rewrite (int_raises _ _ E) in Hdl. simpl in Hdl. congruence.
  - intros Hn. rewrite extract_length_scan in Hdl by done.
    split; [|split].
    + intros skipped t rest v Hd Hs Ht Hv Hr. rewrite Hd in Hdl.
      rewrite scan_length_passes in Hdl by done. simpl in Hdl.
      unfold in_range in Hr. rewrite Ht, Hv in Hdl. simpl in Hdl.
      rewrite Hr in Hdl. simpl in Hdl. congruence.
    + intros skipped t rest e Hd Hs Ht He. rewrite Hd in Hdl.
      rewrite scan_length_passes in Hdl by done. simpl in Hdl.
      rewrite Ht, He in Hdl. simpl in Hdl.
      rewrite (int_raises _ _ He) in Hdl. congruence.
    + intros Hs. rewrite <- (app_nil_r (drop 5 parts)) in Hdl.
      rewrite scan_length_passes in Hdl by done. simpl in Hdl. congruence.
  - intros line' Htake Hlen'.
    assert (Hnth : forall i, (i < 5)%nat ->
              nth_error (Py.split (Py.strip line')) i = nth_error parts i).
    { intros i Hi.
      rewrite <- (take_drop 5 (Py.split (Py.strip line'))), <- (take_drop 5 parts).
      rewrite !nth_error_app1 by (rewrite length_take; lia).
      by rewrite Htake. }
    eapply (parse_accepts line'); try eassumption;
      rewrite Hnth by lia; eassumption.
Qed.

Lemma scan_as_stated (payload : list string) :
  (forall t, In t payload -> looks_integer t = true -> exists v, int t = Ok v) ->
  scan_length payload = Ok (default 0 (first_in_range payload)).
Proof.
  induction payload as [|t rest IH]; simpl; intros H; [done |].
  unfold integer_value. destruct (looks_integer t) eqn:L; [|auto].
  destruct (H t) as (v & ->); auto. simpl. unfold in_range.
  destruct (_ && _); auto.
Qed.

(** The length is the stated one unless the scan meets a token that
    looks like an integer and that [int] rejects. *)
Lemma length_as_stated (line : string) (ev : event) :
  parse_usbmon_line line = Some ev ->
  let parts := Py.split (Py.strip line) in
  (forall t, In t (drop 5 parts) -> looks_integer t = true ->
             exists v, int t = Ok v) ->
  data_length ev = stated_length parts.
Proof.
  intros Hp parts Hall.
  pose proof (parse_inv _ _ Hp) as (_ & _ & _ & _ & _ & _ & _ & _ & _ & _ & _ & Hdl).
  fold parts in Hdl. unfold stated_length.
  destruct (Py.contains "=" parts) eqn:C.
  - apply contains_In, In_first in C as (pre & post & E & Hn).
    rewrite E in Hdl |- *. rewrite extract_length_marker in Hdl by done.
    rewrite index_first by done.
    destruct pre as [|prev pre _] using rev_ind; [simpl in *; congruence |].
    rewrite last_snoc in Hdl. rewrite length_app. simpl.
    replace (length pre + 1)%nat with (S (length pre)) by lia.
    rewrite <- app_assoc. simpl.
    rewrite nth_error_app2, Nat.sub_diag by lia. simpl.
    unfold integer_value. destruct (looks_integer prev); [|simpl in *; congruence].
    destruct (int prev) as [v|e] eqn:Ei; simpl in *; [congruence |].
    rewrite (int_raises _ _ Ei) in Hdl. simpl in Hdl. congruence.
  - unfold extract_length in Hdl. rewrite C in Hdl.
    rewrite scan_as_stated in Hdl by done. simpl in Hdl. congruence.
Qed.

(** C7: the line below is accepted with the length -5: the branch of
    the "=" marker takes the integer before the marker with its sign. *)
Theorem marker_length_negative :
  exists ev,
    parse_usbmon_line "ffff8801 1699 C Ci:1:002:0 0 -5 = 01000000" = Some ev /\
    data_length ev = -5.
Proof. eexists. split; vm_compute; reflexivity. Qed.

(** The scan branch does keep the length in range. *)
Lemma scan_branch_nonneg (line : string) (ev : event) :
  parse_usbmon_line line = Some ev ->
  ~ In "=" (Py.split (Py.strip line)) ->
  0 <= data_length ev < 100000000.
Proof.
  intros Hp Hn.
  pose proof (parse_inv _ _ Hp) as (_ & _ & _ & _ & _ & _ & _ & _ & _ & _ & _ & Hdl).
  rewrite extract_length_scan in Hdl by done.
  destruct (scan_length _) as [v|e] eqn:E; simpl in Hdl.
  - injection Hdl as <-. eauto using scan_length_nonneg.
  - rewrite (scan_length_raises _ _ E) in Hdl. injection Hdl as <-. lia.
Qed.

(** C8 (as amended): for an accepted line, the device of the event is
    the [str] of the integer that [int] reads from the third colon field
    of the address, sign kept: a line is rejected when that field is no
    integer, the device is negative when the field is, and [int] reads
    the device back as the same integer; the bus is the second colon
    field as it stands. *)
Theorem bus_device_fields (line : string) (ev : event) :
  parse_usbmon_line line = Some ev ->
  exists address raw_device z,
    nth_error (Py.split (Py.strip line)) 3 = Some address /\
    nth_error (Py.split_sep ":" address) 1 = Some (bus ev) /\
    nth_error (Py.split_sep ":" address) 2 = Some raw_device /\
    int raw_device = Ok z /\
    device ev = Py.str z /\
    int (device ev) = Ok z.
Proof.
  intros Hp.
  pose proof (parse_inv _ _ Hp) as
    (dt & raw & z & _ & _ & _ & (address & E3 & _ & _ & A1 & A2 & _)
     & Ez & Hd & _).
  exists address, raw, z. rewrite Hd. eauto 10 using int_str_int.
Qed.

(** *** The floats of the counters *)

Lemma round_double_small (z : Z) : z <= 2 ^ 53 -> round_double z = Finite z.
Proof.
  intros H. unfold round_double.
  destruct (z <? 2 ^ 53) eqn:E; [done |].
  apply Z.ltb_ge in E. assert (z = 2 ^ 53) as -> by lia.
  vm_compute. reflexivity.
Qed.

(** The shape of a rounded number of 54 bits or more. *)
Lemma round_double_large (z : Z) :
  2 ^ 53 <= z ->
  let e := Z.log2 z - 52 in
  let q := z / 2 ^ e in
  let r := z mod 2 ^ e in
  1 <= e /\ 2 ^ 52 <= q < 2 ^ 53 /\
  exists m,
    (m = q /\ (r < 2 ^ (e - 1) \/ r = 2 ^ (e - 1) /\ Z.odd q = false) \/
     m = q + 1 /\ (2 ^ (e - 1) < r \/ r = 2 ^ (e - 1) /\ Z.odd q = true)) /\
    round_double z
    = if 2 ^ 1024 <=? m * 2 ^ e then Infinity else Finite (m * 2 ^ e).
Proof.
  intros Hz e q r.
  assert (Hl : 53 <= Z.log2 z).
  { change 53 with (Z.log2 (2 ^ 53)). by apply Z.log2_le_mono. }
  assert (He : 1 <= e) by (unfold e; lia).
  destruct (Z.log2_spec z) as [Hlo Hhi]; [lia |].
  assert (Hp : 0 < 2 ^ e) by (apply Z.pow_pos_nonneg; lia).
  assert (E1 : 2 ^ Z.log2 z = 2 ^ 52 * 2 ^ e).
  { rewrite <- Z.pow_add_r by lia. f_equal. unfold e. lia. }
  assert (E2 : 2 ^ Z.succ (Z.log2 z) = 2 ^ 53 * 2 ^ e).
  { rewrite <- Z.pow_add_r by lia. f_equal. unfold e. lia. }
  split; [done |]. split.
  - unfold q. split.
    + apply Z.div_le_lower_bound; lia.
    + apply Z.div_lt_upper_bound; lia.
  - unfold round_double.
    destruct (z <? 2 ^ 53) eqn:E; [apply Z.ltb_lt in E; lia |].
    fold e. cbv zeta. fold q r.
    destruct (2 ^ (e - 1) <? r) eqn:E3.
    { apply Z.ltb_lt in E3. exists (q + 1). split; [right; auto | done]. }
    apply Z.ltb_ge in E3. destruct (r =? 2 ^ (e - 1)) eqn:E4.
    + apply Z.eqb_eq in E4. destruct (Z.odd q) eqn:E5; simpl.
      * exists (q + 1). split; [right; auto | done].
      * exists q. split; [left; auto | done].
    + apply Z.eqb_neq in E4. simpl.
      exists q. split; [left; split; [done | left; lia] | done].
Qed.

Lemma pow2_ge_2 (e : Z) : 1 <= e -> 2 <= 2 ^ e.
Proof.
  intros He. change 2 with (2 ^ 1) at 1. apply Z.pow_le_mono_r; lia.
Qed.

Lemma round_double_exact (m e : Z) :
  1 <= e -> 2 ^ 52 <= m < 2 ^ 53 -> m * 2 ^ e < 2 ^ 1024 ->
  round_double (m * 2 ^ e) = Finite (m * 2 ^ e).
Proof.
  intros He Hm Hfin.
  pose proof (pow2_ge_2 e He) as Hp.
  assert (Hh : 0 < 2 ^ (e - 1)) by (apply Z.pow_pos_nonneg; lia).
  assert (Hlog : Z.log2 (m * 2 ^ e) = e + 52).
  { rewrite Z.log2_mul_pow2 by lia. f_equal. apply Z.log2_unique; [lia |].
    change (Z.succ 52) with 53. lia. }
  unfold round_double.
  destruct (m * 2 ^ e <? 2 ^ 53) eqn:E; [apply Z.ltb_lt in E; nia |].
  rewrite Hlog. replace (e + 52 - 52) with e by lia. cbv zeta.
  rewrite Z.div_mul, Z.mod_mul by lia.
  destruct (2 ^ (e - 1) <? 0) eqn:E1; [apply Z.ltb_lt in E1; lia |].
  destruct (0 =? 2 ^ (e - 1)) eqn:E2; [apply Z.eqb_eq in E2; lia |].
  simpl. destruct (2 ^ 1024 <=? m * 2 ^ e) eqn:E3; [|done].
  apply Z.leb_le in E3. lia.
Qed.

Lemma round_double_is_double (z : Z) : 0 <= z -> is_double (round_double z).
Proof.
  intros Hz. destruct (Z.le_gt_cases z (2 ^ 53)) as [Hs | Hl].
  - rewrite round_double_small by done. split; [done |].
    by apply round_double_small.
  - destruct (round_double_large z) as (He & Hq & m & Hm & ->); [lia |].
    set (e := Z.log2 z - 52) in *.
    pose proof (pow2_ge_2 e He) as Hp.
    destruct (2 ^ 1024 <=? m * 2 ^ e) eqn:E; [done |].
    apply Z.leb_gt in E. split; [nia |].
    assert (Hm' : 2 ^ 52 <= m <= 2 ^ 53) by (destruct Hm as [[-> _] | [-> _]]; lia).
    destruct (Z.eq_dec m (2 ^ 53)) as [-> | Hne].
    + replace (2 ^ 53 * 2 ^ e) with (2 ^ 52 * 2 ^ (e + 1)) in *
        by (rewrite (Z.pow_add_r 2 e 1) by lia; lia).
      apply round_double_exact; lia.
    + apply round_double_exact; lia.
Qed.

(** A double of 54 bits or more is a multiple of its unit in the last
    place. *)
Lemma is_double_large (x : Z) :
  is_double (Finite x) -> 2 ^ 53 <= x ->
  x mod 2 ^ (Z.log2 x - 52) = 0.
Proof.
  intros [_ Hr] Hx.
  destruct (round_double_large x Hx) as (He & Hq & m & Hm & Hround).
  set (e := Z.log2 x - 52) in *.
  pose proof (pow2_ge_2 e He) as Hp.
  rewrite Hround in Hr. destruct (2 ^ 1024 <=? m * 2 ^ e); [done |].
  injection Hr as Hr.
  pose proof (Z.div_mod x (2 ^ e) ltac:(lia)) as Hdm.
  pose proof (Z.mod_pos_bound x (2 ^ e) ltac:(lia)) as Hb.
  destruct Hm as [[-> _] | [-> _]]; lia.
Qed.

Lemma round_double_ge (x y : Z) :
  is_double (Finite x) -> 0 <= y ->
  double_le (Finite x) (round_double (x + y)).
Proof.
  intros Hx Hy. pose proof Hx as [Hx0 _].
  destruct (Z.le_gt_cases (x + y) (2 ^ 53)) as [Hs | Hl].
  { rewrite round_double_small by done. simpl. lia. }
  destruct (round_double_large (x + y)) as (He & Hq & m & Hm & ->); [lia |].
  set (e := Z.log2 (x + y) - 52) in *.
  pose proof (pow2_ge_2 e He) as Hp.
  destruct (2 ^ 1024 <=? m * 2 ^ e); [done |]. simpl.
  assert (Hle : x <= (x + y) / 2 ^ e * 2 ^ e);
    [| destruct Hm as [[-> _] | [-> _]]; nia].
  destruct (Z.lt_ge_cases x (2 ^ 53)) as [Hxs | Hxl]; [nia |].
  pose proof (is_double_large x Hx Hxl) as Hmod.
  set (ex := Z.log2 x - 52) in *.
  assert (Hex : ex <= e) by (unfold ex, e; pose proof (Z.log2_le_mono x (x + y)); lia).
  assert (Hl53 : 53 <= Z.log2 x).
  { change 53 with (Z.log2 (2 ^ 53)). by apply Z.log2_le_mono. }
  destruct (Z.eq_dec ex e) as [Heq | Hne].
  - rewrite Heq in Hmod.
    apply Z.mod_divide in Hmod as [k Hk]; [| lia].
    assert (k <= (x + y) / 2 ^ e); [| nia].
    apply Z.div_le_lower_bound; lia.
  - destruct (Z.log2_spec x) as [_ Hhi]; [lia |].
    assert (2 ^ Z.succ (Z.log2 x) <= 2 ^ 52 * 2 ^ e); [| nia].
    rewrite <- Z.pow_add_r by lia. apply Z.pow_le_mono_r; [lia |].
    unfold ex in *. lia.
Qed.

Lemma double_add_ge (x y : double) :
  is_double x -> is_double y -> double_le x (double_add x y).
Proof.
  destruct x as [a|], y as [b|]; simpl; try done.
  intros Ha [Hb _]. by apply round_double_ge.
Qed.

Lemma double_add_is_double (x y : double) :
  is_double x -> is_double y -> is_double (double_add x y).
Proof.
  destruct x as [a|], y as [b|]; simpl; try done.
  intros [Ha _] [Hb _]. apply round_double_is_double. lia.
Qed.

Lemma double_le_refl (x : double) : double_le x x.
Proof. destruct x; simpl; [lia | done]. Qed.

Lemma double_le_trans (x y z : double) :
  double_le x y -> double_le y z -> double_le x z.
Proof. destruct x, y, z; simpl; try done; lia. Qed.

(** [inf] is what the numbers from [2^1024 - 2^970] on round to. *)
Lemma round_double_Infinity (z : Z) :
  round_double z = Infinity <-> 2 ^ 1024 - 2 ^ 970 <= z.
Proof.
  assert (P1 : 2 ^ 1024 = 2 ^ 54 * 2 ^ 970) by (apply (Z.pow_add_r 2 54 970); lia).
  assert (P2 : 0 < 2 ^ 970) by (apply Z.pow_pos_nonneg; lia).
  rewrite P1.
  destruct (Z.le_gt_cases z (2 ^ 53)) as [Hs | Hl].
  { rewrite round_double_small by done. split; [done |].
    generalize dependent (2 ^ 970). intros. lia. }
  destruct (round_double_large z) as (He & Hq & m & Hm & ->); [lia |].
  rewrite P1.
  set (e := Z.log2 z - 52) in *.
  pose proof (pow2_ge_2 e He) as Hp.
  pose proof (Z.div_mod z (2 ^ e) ltac:(lia)) as Hdm.
  pose proof (Z.mod_pos_bound z (2 ^ e) ltac:(lia)) as Hb.
  assert (Hodd : Z.odd (2 ^ 53 - 1) = true) by (vm_compute; reflexivity).
  assert (Hcmp : 2 ^ e <= 2 ^ 970 \/ 2 ^ e = 2 * 2 ^ 970 /\ 2 ^ (e - 1) = 2 ^ 970
                 \/ 4 * 2 ^ 970 <= 2 ^ e).
  { destruct (Z.lt_trichotomy e 971) as [Hlt | [-> | Hgt]].
    - left. apply Z.pow_le_mono_r; lia.
    - right. left. split; [apply (Z.pow_add_r 2 1 970); lia | done].
    - right. right. replace (4 * 2 ^ 970) with (2 ^ 972)
        by (apply (Z.pow_add_r 2 2 970); lia).
      apply Z.pow_le_mono_r; lia. }
  remember (2 ^ e) as B eqn:EB. remember (z `div` B) as q eqn:Eq.
  remember (z `mod` B) as r eqn:Er. remember (2 ^ (e - 1)) as h eqn:Eh.
  remember (2 ^ 970) as A eqn:EA. clear EB Eq Er Eh EA P1 Hl He. clearbody e.
  assert (Hm' : q <= m <= q + 1) by (destruct Hm as [[-> _] | [-> _]]; lia).
  assert (H1 : 2 ^ 52 * B <= m * B) by (apply Z.mul_le_mono_nonneg_r; lia).
  assert (H2 : m * B <= 2 ^ 53 * B) by (apply Z.mul_le_mono_nonneg_r; lia).
  assert (H3 : 2 ^ 52 * B <= B * q) by (rewrite (Z.mul_comm B q); apply Z.mul_le_mono_nonneg_r; lia).
  assert (H4 : B * q <= (2 ^ 53 - 1) * B) by (rewrite (Z.mul_comm B q); apply Z.mul_le_mono_nonneg_r; lia).
  destruct (2 ^ 54 * A <=? m * B) eqn:E;
    [apply Z.leb_le in E; split; [intros _ | done]
    | apply Z.leb_gt in E; split; [done | intros Hbig; exfalso]].
  - destruct Hcmp as [Hc | [[-> ->] | Hc]]; [lia | | lia].
    destruct Hm as [[-> _] | [-> Hup]]; [lia |].
    destruct (Z.eq_dec q (2 ^ 53 - 1)) as [-> | Hne]; [lia |].
    assert ((q + 1) * (2 * A) <= (2 ^ 53 - 1) * (2 * A)); [| lia].
    apply Z.mul_le_mono_nonneg_r; lia.
  - destruct Hcmp as [Hc | [[-> ->] | Hc]]; [lia | | lia].
    destruct (Z.eq_dec q (2 ^ 53 - 1)) as [-> | Hne].
    + destruct Hm as [[-> Hdown] | [-> _]]; [| lia].
      destruct Hdown as [Hdown | [_ Hdown]]; [lia | congruence].
    + assert (2 * A * q <= 2 * A * (2 ^ 53 - 2)); [| lia].
      apply Z.mul_le_mono_nonneg_l; lia.
Qed.

Lemma float_of_int_small (z : Z) :
  z <= 2 ^ 53 -> float_of_int z = Ok (Finite z).
Proof. intros H. unfold float_of_int. by rewrite round_double_small. Qed.

(** What [float_of_int] returns is a float, the nearest one. *)
Lemma float_of_int_Ok (z : Z) (v : double) :
  0 <= z -> float_of_int z = Ok v ->
  exists r, v = Finite r /\ round_double z = Finite r /\ is_double (Finite r).
Proof.
  intros Hz. unfold float_of_int.
  pose proof (round_double_is_double z Hz) as Hd.
  destruct (round_double z) as [r|]; [|done].
  intros [= <-]. by exists r.
Qed.

Lemma float_of_int_Raise (z : Z) (e : exn) :
  float_of_int z = Raise e <-> e = OverflowError /\ 2 ^ 1024 - 2 ^ 970 <= z.
Proof.
  rewrite <- round_double_Infinity. unfold float_of_int.
  destruct (round_double z) as [r|]; split.
  - done.
  - by intros [_ ?].
  - by intros [= <-].
  - by intros [-> _].
Qed.

Lemma float_of_int_converts (z : Z) :
  z < 2 ^ 1024 - 2 ^ 970 -> exists v, float_of_int z = Ok v.
Proof.
  intros Hz. destruct (float_of_int z) as [v|e] eqn:E; [by exists v |].
  apply float_of_int_Raise in E as [_ E]. lia.
Qed.

(** *** The aggregation step *)

Lemma insert_incremented (labels : list string) (amount : Z) (v : double)
  (c : counter) :
  0 <= amount -> float_of_int amount = Ok v ->
  incremented c (<[labels := double_add (value c labels) v]> c) labels amount.
Proof.
  intros Ha Hv. split; [| split].
  - exists v. split; [done |]. unfold value at 1. by rewrite lookup_insert_eq.
  - intros old Hold Ho Hsum. unfold value at 1. rewrite lookup_insert_eq.
    rewrite float_of_int_small in Hv by lia. injection Hv as <-.
    rewrite Hold. simpl. by apply round_double_small.
  - intros other Hne. by rewrite lookup_insert_ne.
Qed.

Lemma insert_incremented_one (labels : list string) (c : counter) :
  incremented c (<[labels := double_add (value c labels) (Finite 1)]> c)
    labels 1.
Proof. apply insert_incremented; [lia | reflexivity]. Qed.

Lemma inc_one (labels : list string) (c : counter) :
  inc labels 1 c = Ok (<[labels := double_add (value c labels) (Finite 1)]> c).
Proof. reflexivity. Qed.

Lemma inc_incremented (labels : list string) (amount : Z) (c : counter) :
  0 <= amount < 2 ^ 1024 - 2 ^ 970 ->
  exists c', inc labels amount c = Ok c' /\ incremented c c' labels amount.
Proof.
  intros [Ha Hb]. unfold inc.
  destruct (amount <? 0) eqn:E; [apply Z.ltb_lt in E; lia |].
  destruct (float_of_int_converts amount Hb) as [v Hv]. rewrite Hv. simpl.
  eexists. split; [done | by apply insert_incremented].
Qed.

(** C1: a parsed completion with status "0" and a positive length that
    the conversion to a float accepts (one below 2^1024 - 2^970) adds the
    length to the float of exactly one byte counter, the sent one for
    direction "out" and the received one for "in", at the child labelled
    bus, device, endpoint, transfer type and the vendor name, product
    name and serial of the cache lookup: the child holds the float
    nearest to the sum, which is the sum itself as long as that is at
    most 2^53; the other byte counter and both error counters stay as
    they were. *)
Theorem completion_counts_bytes (usb_devices : cache) (line : string)
  (m : metrics) (parsed : event) :
  parse_usbmon_line line = Some parsed ->
  event_type parsed = "C" ->
  status parsed = "0" ->
  0 < data_length parsed < 2 ^ 1024 - 2 ^ 970 ->
  let info := get_device_info usb_devices (bus parsed) (device parsed) in
  let labels := [bus parsed; device parsed; endpoint parsed;
                 transfer_type parsed;
                 vendor_name info; product_name info; serial info] in
  exists m',
    process_usbmon_data usb_devices line m = Ok m' /\
    usb_transfer_errors_sent m' = usb_transfer_errors_sent m /\
    usb_transfer_errors_received m' = usb_transfer_errors_received m /\
    ((direction parsed = "out" /\
      incremented (usb_data_sent_bytes m) (usb_data_sent_bytes m')
        labels (data_length parsed) /\
      usb_data_received_bytes m' = usb_data_received_bytes m)
     \/
     (direction parsed = "in" /\
      incremented (usb_data_received_bytes m) (usb_data_received_bytes m')
        labels (data_length parsed) /\
      usb_data_sent_bytes m' = usb_data_sent_bytes m)).
Proof.
  intros Hp Het Hst Hdl info labels.
  pose proof (parse_inv _ _ Hp) as (_ & _ & _ & _ & _ & _ & _ & _ & _ & Hdir & _).
  unfold process_usbmon_data. rewrite Hp, Het, Hst. simpl.
  destruct (0 <? data_length parsed) eqn:E; [| apply Z.ltb_ge in E; lia].
  fold info. unfold bytes_labels. fold labels.
  destruct Hdir as [Hd|Hd]; rewrite Hd; simpl.
  - destruct (inc_incremented labels (data_length parsed)
                (usb_data_received_bytes m)) as (c' & -> & Hc); [lia |].
    simpl. eexists. split; [done |]. simpl. auto 10.
  - destruct (inc_incremented labels (data_length parsed)
                (usb_data_sent_bytes m)) as (c' & -> & Hc); [lia |].
    simpl. eexists. split; [done |]. simpl. auto 10.
Qed.

(** C2: a parsed completion whose status is not "0" raises exactly one
    error counter, the sent one for direction "out" and the received one
    for "in", by 1, at the child labelled bus, device, endpoint, transfer
    type and status; the other error counter and both byte counters stay
    as they were. *)
Theorem completion_counts_error (usb_devices : cache) (line : string)
  (m : metrics) (parsed : event) :
  parse_usbmon_line line = Some parsed ->
  event_type parsed = "C" ->
  status parsed <> "0" ->
  let labels := [bus parsed; device parsed; endpoint parsed;
                 transfer_type parsed; status parsed] in
  exists m',
    process_usbmon_data usb_devices line m = Ok m' /\
    usb_data_sent_bytes m' = usb_data_sent_bytes m /\
    usb_data_received_bytes m' = usb_data_received_bytes m /\
    ((direction parsed = "out" /\
      incremented (usb_transfer_errors_sent m) (usb_transfer_errors_sent m')
        labels 1 /\
      usb_transfer_errors_received m' = usb_transfer_errors_received m)
     \/
     (direction parsed = "in" /\
      incremented (usb_transfer_errors_received m)
        (usb_transfer_errors_received m') labels 1 /\
      usb_transfer_errors_sent m' = usb_transfer_errors_sent m)).
Proof.
  intros Hp Het Hst labels.
  pose proof (parse_inv _ _ Hp) as (_ & _ & _ & _ & _ & _ & _ & _ & _ & Hdir & _).
  unfold process_usbmon_data. rewrite Hp, Het, !inc_one. simpl.
  destruct (String.eqb (status parsed) "0") eqn:E;
    [apply String.eqb_eq in E; done |]. simpl.
  unfold errors_labels. fold labels.
  destruct Hdir as [Hd|Hd]; rewrite Hd; simpl;
    (eexists; split; [done |]); simpl; auto 10 using insert_incremented_one.
Qed.

(** *** The cache lookup *)

(** The key tells the pair, for a bus without a colon (a field of the
    address, or the [str] of an [int]). *)
Lemma device_key_inj (bus1 device1 bus2 device2 : string) :
  Py.contains_char ":" bus1 = false ->
  Py.contains_char ":" bus2 = false ->
  device_key bus1 device1 = device_key bus2 device2 ->
  bus1 = bus2 /\ device1 = device2.
Proof.
  unfold device_key. revert bus2.
  induction bus1 as [|c b1 IH]; intros [|c2 b2]; simpl; intros H1 H2 E.
  - injection E as E. done.
  - injection E as <- E. discriminate.
  - injection E as -> E. discriminate.
  - injection E as <- E.
    apply orb_false_iff in H1 as [_ H1]. apply orb_false_iff in H2 as [_ H2].
    destruct (IH b2 H1 H2 E) as [-> ->]. done.
Qed.

(** C9: the lookup always returns a record: the cached one when the
    key of the pair is in the cache, and otherwise the placeholder, whose
    ids, names and serial are "unknown" and whose speed and power are
    0. *)
Theorem lookup_total (usb_devices : cache) (bus device : string) :
  (forall info,
      usb_devices !! device_key bus device = Some info ->
      get_device_info usb_devices bus device = info) /\
  (usb_devices !! device_key bus device = None ->
   let info := get_device_info usb_devices bus device in
   vendor_id info = "unknown" /\ product_id info = "unknown" /\
   vendor_name info = "unknown" /\ product_name info = "unknown" /\
   serial info = "unknown" /\ speed info = Int 0 /\ max_power info = 0).
Proof.
  unfold get_device_info. split.
  - intros info ->. done.
  - intros ->. simpl. repeat split.
Qed.

(** *** The cache refresh *)

Section RefreshFacts.
Variable fs : sysfs.

Lemma read_sysfs_file_str (filepath default : string) :
  read_sysfs_file fs filepath (Some default)
  = Some (read_sysfs_str fs filepath default).
Proof.
  unfold read_sysfs_str, read_sysfs_file.
  destruct (path_exists fs filepath); simpl; [|done].
  destruct (read fs filepath) as [content|]; simpl; [|done].
  by destruct (String.eqb _ _).
Qed.

(** The loop writes the records of the accepted entries over the
    cache, in the order of the listing. *)
Lemma refresh_fold (names : list string) (usb_devices : cache) :
  fold_left (refresh_one fs) names usb_devices
  = list_to_map (reverse (omap (device_write fs) names)) ∪ usb_devices.
Proof.
  induction names as [|device_dir names IH] using rev_ind.
  - simpl. by rewrite (left_id_L ∅ (∪)).
  - rewrite fold_left_app, omap_app, reverse_app. simpl.
    rewrite IH. unfold refresh_one.
    destruct (device_write fs device_dir) as [[key info]|]; simpl; [|done].
    by rewrite insert_union_l.
Qed.

Lemma refresh_states_turns (names : list string) (usb_devices : cache) :
  refresh_states fs usb_devices names
  = (fun n => fold_left (refresh_one fs) (take n names) usb_devices)
      <$> seq 0 (S (length names)).
Proof.
  revert usb_devices.
  induction names as [|device_dir names IH]; intros usb_devices; [done |].
  cbn [refresh_states]. rewrite IH.
  change (seq 0 (S (length (device_dir :: names))))
    with (0%nat :: seq 1 (S (length names))).
  rewrite fmap_cons, <- (fmap_S_seq 0), <- list_fmap_compose.
  reflexivity.
Qed.

(** What [read_sysfs_file] hands to [int] came out of [strip]. *)
Lemma read_sysfs_file_trimmed (filepath content : string) :
  read_sysfs_file fs filepath None = Some content ->
  content <> "" /\
  Py.starts_with_space content = false /\ Py.ends_with_space content = false.
Proof.
  unfold read_sysfs_file.
  destruct (path_exists fs filepath); simpl; [|discriminate].
  destruct (read fs filepath) as [text|]; simpl; [|discriminate].
  destruct (String.eqb (Py.strip text) "") eqn:E; [discriminate |].
  intros [= <-]. split; [|apply strip_trimmed].
  intros H. rewrite H in E. discriminate.
Qed.

(** A key that no entry of the listing writes keeps its record. *)
Lemma refresh_retains (names : list string) (usb_devices : cache)
  (key : string) :
  (forall device_dir info,
      In device_dir names -> device_write fs device_dir <> Some (key, info)) ->
  fold_left (refresh_one fs) names usb_devices !! key = usb_devices !! key.
Proof.
  intros Hk. rewrite refresh_fold. apply lookup_union_r.
  apply not_elem_of_list_to_map_1.
  rewrite list_elem_of_fmap. intros ([k info] & -> & Hin).
  apply elem_of_reverse, list_elem_of_omap in Hin as (device_dir & Hd & Hw).
  apply list_elem_of_In in Hd. by apply (Hk device_dir info).
Qed.

(** C5: when the registry root does not exist, or listing it raises,
    [update_device_info] leaves the cache as it was, and no reader sees
    any other cache in between. *)
Theorem refresh_without_root (usb_devices : cache) :
  path_exists fs devices_path = false \/
  (exists e, listdir fs devices_path = Raise e) ->
  update_device_info fs usb_devices = usb_devices /\
  update_states fs usb_devices = [usb_devices].
Proof.
  unfold update_device_info, update_states.
  intros [-> | (e & ->)]; simpl; [done |].
  by destruct (path_exists fs devices_path).
Qed.

(** C4 (as amended): a refresh that lists the registry writes the
    record of each accepted entry over the cache, in the order of the
    listing: afterwards every key written holds the record written
    last for it and every other key holds what it held before; a
    reader that takes the lock during the refresh sees the cache of
    before with the records of the first [n] entries written over it,
    for some [n]. *)
Theorem refresh_merges (usb_devices : cache) (names : list string) :
  path_exists fs devices_path = true ->
  listdir fs devices_path = Ok names ->
  let written n : cache :=
    list_to_map (reverse (omap (device_write fs) (take n names))) in
  update_device_info fs usb_devices
    = written (length names) ∪ usb_devices /\
  update_states fs usb_devices
    = (fun n => written n ∪ usb_devices) <$> seq 0 (S (length names)).
Proof.
  intros He Hl written. unfold update_device_info, update_states.
  rewrite He, Hl. cbn [negb bind except_Exception]. split.
  - unfold written. by rewrite refresh_fold, firstn_all.
  - rewrite refresh_states_turns. apply list_fmap_ext.
    intros _ n _. apply refresh_fold.
Qed.

End RefreshFacts.

(** ** Further properties *)

(** *** The parser *)

Lemma split_go_lstrip (s : string) :
  Py.split_go None (Py.lstrip s) = Py.split_go None s.
Proof.
  induction s as [|c r IH]; simpl; [done |].
  destruct (Py.isspace c) eqn:E; simpl; [done |]. by rewrite E.
Qed.

Lemma split_go_blank (r : string) (cur : option string) :
  Py.rstrip r = "" -> Py.split_go cur r = option_list (String.rev <$> cur).
Proof.
  revert cur. induction r as [|c r IH]; intros cur; simpl; [done |].
  destruct (Py.rstrip r) eqn:E; [|discriminate].
  destruct (Py.isspace c); [|discriminate].
  intros _. rewrite IH by done. simpl. by rewrite app_nil_r.
Qed.

Lemma split_go_rstrip (s : string) (cur : option string) :
  Py.split_go cur (Py.rstrip s) = Py.split_go cur s.
Proof.
  revert cur. induction s as [|c r IH]; intros cur; [done |].
  cbn [Py.rstrip]. destruct (Py.rstrip r) as [|c' r'] eqn:E.
  - destruct (Py.isspace c) eqn:Ec; simpl; rewrite Ec.
    + rewrite split_go_blank by done. simpl. by rewrite app_nil_r.
    + by rewrite split_go_blank.
  - simpl. destruct (Py.isspace c); by rewrite <- IH.
Qed.

(** [line.strip().split()] is [line.split()]. *)
Lemma split_strip (s : string) : Py.split (Py.strip s) = Py.split s.
Proof.
  unfold Py.split, Py.strip. by rewrite split_go_rstrip, split_go_lstrip.
Qed.

Lemma split_sep_no_sep (sep : ascii) (s t : string) :
  In t (Py.split_sep sep s) -> Py.contains_char sep t = false.
Proof.
  revert t. induction s as [|c s IH]; intros t; simpl.
  - intros [<- | []]. done.
  - destruct (Ascii.eqb c sep) eqn:E.
    + intros [<- | H]; [done | by apply IH].
    + destruct (Py.split_sep sep s) as [|t' ts] eqn:Es.
      * intros [<- | []]. simpl. by rewrite E.
      * intros [<- | H].
        -- simpl. rewrite E. simpl. apply IH. by left.
        -- apply IH. by right.
Qed.

(** X1: the parser reads a line through its tokens only: two lines with
    the same white-space tokens give the same result, so the white space
    around a line and between its tokens, and the final newline, do not
    matter. *)
Theorem parse_same_tokens (line1 line2 : string) :
  Py.split line1 = Py.split line2 ->
  parse_usbmon_line line1 = parse_usbmon_line line2.
Proof.
  intros H. unfold parse_usbmon_line, parse_body.
  by rewrite !split_strip, H.
Qed.

(** X2: the parser accepts exactly the lines with at least six tokens
    whose fourth token has at least four colon fields, the first of them
    not empty and the third one an integer for [int]. *)
Theorem parse_accepts_iff (line : string) :
  is_Some (parse_usbmon_line line) <->
  (6 <= length (Py.split line))%nat /\
  exists address type_field raw_device z,
    nth_error (Py.split line) 3 = Some address /\
    (4 <= length (Py.split_sep ":" address))%nat /\
    nth_error (Py.split_sep ":" address) 0 = Some type_field /\
    type_field <> "" /\
    nth_error (Py.split_sep ":" address) 2 = Some raw_device /\
    int raw_device = Ok z.
Proof.
  rewrite <- (split_strip line). split.
  - intros [ev Hp].
    pose proof (parse_inv _ _ Hp) as
      (dt & raw & z & Hlen & _ & _ & (address & E3 & Hal & A0 & _ & A2 & _)
       & Ez & _ & _ & (c & Ec & _) & _).
    split; [done |]. exists address, dt, raw, z.
    repeat split; try done. intros ->. discriminate.
  - intros (Hlen & address & dt & raw & z & E3 & Hal & A0 & Hdt & A2 & Ez).
    destruct (item_lt (Py.split (Py.strip line)) 2) as (et & _ & E2); [lia |].
    destruct (item_lt (Py.split (Py.strip line)) 4) as (st & _ & E4); [lia |].
    destruct (item_lt (Py.split_sep ":" address) 1) as (b & _ & A1); [lia |].
    destruct (item_lt (Py.split_sep ":" address) 3) as (ep & _ & A3); [lia |].
    destruct dt as [|c dt']; [done |].
    destruct (parse_accepts line et address st (String c dt') b raw ep z c)
      as (ev & Hev); [done.. |].
    by exists ev.
Qed.

(** X3: an accepted line is classified by the first colon field of its
    address: the direction is "in" when the second character of that
    field is "i" and "out" in every other case (also when there is no
    second character), and the transfer type is read from the first
    character, C, Z, I and B giving control, isochronous, interrupt and
    bulk and any other character "unknown". *)
Theorem parsed_classification (line : string) (ev : event) :
  parse_usbmon_line line = Some ev ->
  exists address c rest,
    nth_error (Py.split line) 3 = Some address /\
    nth_error (Py.split_sep ":" address) 0 = Some (String c rest) /\
    (direction ev = "in" /\ (exists rest', rest = String "i" rest') \/
     direction ev = "out" /\ (forall rest', rest <> String "i" rest')) /\
    (transfer_type ev = "control" /\ c = "C"%char \/
     transfer_type ev = "isochronous" /\ c = "Z"%char \/
     transfer_type ev = "interrupt" /\ c = "I"%char \/
     transfer_type ev = "bulk" /\ c = "B"%char \/
     transfer_type ev = "unknown" /\
     c <> "C"%char /\ c <> "Z"%char /\ c <> "I"%char /\ c <> "B"%char).
Proof.
  rewrite <- (split_strip line).
  intros H. unfold parse_usbmon_line, parse_body in H.
  set (parts := Py.split (Py.strip line)) in *.
  destruct (length parts <? 6)%nat; [discriminate |].
  destruct (Py.item parts 2) as [et|]; [|discriminate].
  destruct (Py.item parts 3) as [address|] eqn:E3; [|discriminate].
  destruct (Py.item parts 4) as [st|]; [|discriminate].
  simpl in H.
  destruct (length (Py.split_sep ":" address) <? 4)%nat; [discriminate |].
  destruct (Py.item (Py.split_sep ":" address) 0) as [dt|] eqn:A0; [|discriminate].
  destruct (Py.item (Py.split_sep ":" address) 1) as [b|]; [|discriminate].
  destruct (Py.item (Py.split_sep ":" address) 2) as [raw|]; [|discriminate].
  simpl in H.
  destruct (int raw) as [z|]; [|discriminate].
  destruct (Py.item (Py.split_sep ":" address) 3) as [ep|]; [|discriminate].
  simpl in H. unfold Py.char_at in H.
  destruct dt as [|c rest]; [discriminate |]. simpl in H.
  destruct (except_ValueError (extract_length parts) (Ok 0)) as [dl|];
    [|discriminate].
  simpl in H. injection H as <-. simpl.
  apply item_Ok in E3, A0. exists address, c, rest.
  split; [done |]. split; [done |]. split.
  - destruct rest as [|c1 rest1]; simpl.
    + right. split; [done | discriminate].
    + destruct (Ascii.eqb c1 "i") eqn:Ei.
      * apply Ascii.eqb_eq in Ei as ->. left.
        destruct rest1; simpl; eauto.
      * right. split; [by destruct rest1 |].
        intros rest' [= -> _]. by rewrite Ascii.eqb_refl in Ei.
  - unfold get_transfer_type.
    destruct (Ascii.eqb c "C") eqn:EC; [apply Ascii.eqb_eq in EC; auto |].
    destruct (Ascii.eqb c "Z") eqn:EZ; [apply Ascii.eqb_eq in EZ; auto |].
    destruct (Ascii.eqb c "I") eqn:EI; [apply Ascii.eqb_eq in EI; auto |].
    destruct (Ascii.eqb c "B") eqn:EB; [apply Ascii.eqb_eq in EB; auto 6 |].
    apply Ascii.eqb_neq in EC, EZ, EI, EB. auto 10.
Qed.

(** X4: the bus and the device of two accepted lines make the same
    cache key only when they are the same bus and the same device: the
    bus of an event holds no colon. *)
Theorem parsed_key_injective (line1 line2 : string) (ev1 ev2 : event) :
  parse_usbmon_line line1 = Some ev1 ->
  parse_usbmon_line line2 = Some ev2 ->
  device_key (bus ev1) (device ev1) = device_key (bus ev2) (device ev2) ->
  bus ev1 = bus ev2 /\ device ev1 = device ev2.
Proof.
  intros H1 H2.
  assert (Hb : forall line ev, parse_usbmon_line line = Some ev ->
                 Py.contains_char ":" (bus ev) = false).
  { intros line ev Hp.
    pose proof (parse_inv _ _ Hp) as
      (_ & _ & _ & _ & _ & _ & (address & _ & _ & _ & A1 & _) & _).
    apply nth_error_In in A1. by apply split_sep_no_sep in A1. }
  apply device_key_inj; eauto.
Qed.

(** X5: without a "=" token the length of an accepted line is 0 or the
    integer of one of the tokens from index 5 on, a token that has the
    shape of an integer, and it lies in [0, 100000000). *)
Theorem scanned_length_origin (line : string) (ev : event) :
  parse_usbmon_line line = Some ev ->
  ~ In "=" (Py.split line) ->
  0 <= data_length ev < 100000000 /\
  (data_length ev = 0 \/
   exists t, In t (drop 5 (Py.split line)) /\ looks_integer t = true /\
             int t = Ok (data_length ev)).
Proof.
  rewrite <- (split_strip line). intros Hp Hn.
  pose proof (parse_inv _ _ Hp) as (_ & _ & _ & _ & _ & _ & _ & _ & _ & _ & _ & Hdl).
  rewrite extract_length_scan in Hdl by done.
  destruct (scan_length _) as [v|e] eqn:E; simpl in Hdl.
  - injection Hdl as <-. split; [eauto using scan_length_nonneg |].
    clear Hp Hn. revert E.
    generalize (drop 5 (Py.split (Py.strip line))). intros payload.
    induction payload as [|p rest IH]; simpl; [intros [= <-]; by left |].
    destruct (looks_integer p) eqn:L.
    + destruct (int p) as [val|] eqn:Ei; simpl; [|discriminate].
      destruct (_ && _).
      * intros [= <-]. right. exists p. auto.
      * intros H. destruct (IH H) as [? | (t & ? & ? & ?)]; [by left |].
        right. exists t. auto.
    + intros H. destruct (IH H) as [? | (t & ? & ? & ?)]; [by left |].
      right. exists t. auto.
  - rewrite (scan_length_raises _ _ E) in Hdl. injection Hdl as <-.
    split; [lia | by left].
Qed.

(** *** The aggregation step and the monitoring loop *)

Lemma value_add_to (name name' : counter_name) (labels labels' : list string)
  (amount : double) (m : metrics) :
  value (counter_of name' (add_to name labels amount m)) labels'
  = if decide (name' = name /\ labels' = labels)
    then double_add (value (counter_of name' m) labels') amount
    else value (counter_of name' m) labels'.
Proof.
  assert (Hin : forall c : counter,
             value (<[labels := double_add (value c labels) amount]> c) labels'
             = if decide (labels' = labels)
               then double_add (value c labels') amount
               else value c labels').
  { intros c. unfold value at 1. destruct (decide (labels' = labels)) as [->|Hne].
    - by rewrite lookup_insert_eq.
    - by rewrite lookup_insert_ne. }
  destruct (decide (name' = name /\ labels' = labels)) as [[-> ->] | Hne].
  - destruct name; simpl; rewrite Hin; by rewrite decide_True.
  - destruct name, name'; simpl; rewrite ?Hin; try done;
      (rewrite decide_False; [done | intros ->; by apply Hne]).
Qed.

(** A line either leaves every set of counters as it is, or adds to one
    child, the same one the same float whatever the counters are, or
    raises [OverflowError] whatever they are. *)
Lemma process_shape (usb_devices : cache) (line : string) :
  (forall m, process_usbmon_data usb_devices line m = Ok m) \/
  (exists name labels amount v,
      0 < amount /\ float_of_int amount = Ok v /\
      forall m, process_usbmon_data usb_devices line m
                = Ok (add_to name labels v m)) \/
  (forall m, process_usbmon_data usb_devices line m = Raise OverflowError).
Proof.
  unfold process_usbmon_data.
  destruct (parse_usbmon_line line) as [parsed|]; [|by left].
  destruct (negb (String.eqb (event_type parsed) "C")); [by left |].
  destruct (negb (String.eqb (status parsed) "0")).
  - right. left. destruct (String.eqb (direction parsed) "out").
    + exists Errors_sent, (errors_labels parsed), 1, (Finite 1).
      split; [lia |]. split; [reflexivity |]. intros m. by rewrite inc_one.
    + exists Errors_received, (errors_labels parsed), 1, (Finite 1).
      split; [lia |]. split; [reflexivity |]. intros m. by rewrite inc_one.
  - destruct (0 <? data_length parsed) eqn:E; [|by left].
    apply Z.ltb_lt in E. right. unfold inc.
    destruct (data_length parsed <? 0) eqn:E'; [apply Z.ltb_lt in E'; lia |].
    destruct (float_of_int (data_length parsed)) as [v|e] eqn:Ev.
    + left. destruct (String.eqb (direction parsed) "out").
      * by eexists Sent_bytes, _, (data_length parsed), v.
      * by eexists Received_bytes, _, (data_length parsed), v.
    + right. apply float_of_int_Raise in Ev as [-> _].
      by destruct (String.eqb (direction parsed) "out").
Qed.

Lemma value_no_metrics (name : counter_name) (labels : list string) :
  value (counter_of name no_metrics) labels = Finite 0.
Proof. by destruct name. Qed.

(** What a line counts for at a child is a float [a], and the line
    leaves the child alone or adds [a] to it. *)
Lemma process_values (usb_devices : cache) (line : string) (m : metrics)
  (name : counter_name) (labels : list string) :
  exists a,
    value (counter_of name (line_effect usb_devices line)) labels = Finite a /\
    is_double (Finite a) /\
    let m' := except_Exception (process_usbmon_data usb_devices line m) m in
    (value (counter_of name m') labels = value (counter_of name m) labels /\
     a = 0
     \/
     value (counter_of name m') labels
     = double_add (value (counter_of name m) labels) (Finite a)).
Proof.
  assert (H0 : is_double (Finite 0)) by (split; [lia | reflexivity]).
  unfold line_effect.
  destruct (process_shape usb_devices line)
    as [Hsame | [(name' & labels' & amount & v & Hpos & Hv & Hadd) | Hraise]].
  - exists 0. rewrite !Hsame. simpl. rewrite value_no_metrics. auto.
  - destruct (float_of_int_Ok amount v ltac:(lia) Hv) as (r & -> & _ & Hr).
    rewrite !Hadd. simpl. rewrite !value_add_to, value_no_metrics.
    case_decide.
    + exists r. simpl. replace (0 + r) with r by lia.
      destruct Hr as [? Hr]. rewrite Hr. auto.
    + exists 0. auto.
  - exists 0. rewrite !Hraise. simpl. rewrite value_no_metrics. auto.
Qed.

(** X6: [process_usbmon_data] raises nothing but the [OverflowError] of
    [inc], and that exactly for a completion with status "0" whose length
    does not convert to a float, one of 2^1024 - 2^970 or more; such a
    length can only be the token before a "=" token. *)
Theorem process_raises_overflow_only (usb_devices : cache) (line : string)
  (m : metrics) (e : exn) :
  process_usbmon_data usb_devices line m = Raise e <->
  e = OverflowError /\
  exists ev,
    parse_usbmon_line line = Some ev /\
    event_type ev = "C" /\ status ev = "0" /\
    In "=" (Py.split (Py.strip line)) /\
    2 ^ 1024 - 2 ^ 970 <= data_length ev.
Proof.
  assert (Hbig : 100000000 < 2 ^ 1024 - 2 ^ 970) by reflexivity.
  unfold process_usbmon_data.
  destruct (parse_usbmon_line line) as [parsed|] eqn:Hp;
    [| split; [done | by intros (_ & ev & ? & _)]].
  rewrite !inc_one.
  destruct (String.eqb (event_type parsed) "C") eqn:Et; simpl;
    [apply String.eqb_eq in Et
    | apply String.eqb_neq in Et; split; [done |];
      intros (_ & ev & [= <-] & ? & _); done].
  destruct (String.eqb (status parsed) "0") eqn:Es; simpl;
    [apply String.eqb_eq in Es
    | apply String.eqb_neq in Es; split;
      [by destruct (String.eqb (direction parsed) "out")
      | intros (_ & ev & [= <-] & _ & ? & _); done]].
  destruct (0 <? data_length parsed) eqn:E;
    [apply Z.ltb_lt in E
    | apply Z.ltb_ge in E; split; [done |];
      intros (_ & ev & [= <-] & _ & _ & _ & ?); lia].
  unfold inc.
  destruct (data_length parsed <? 0) eqn:E'; [apply Z.ltb_lt in E'; lia |].
  destruct (float_of_int (data_length parsed)) as [v|e'] eqn:Ev.
  - split; [by destruct (String.eqb (direction parsed) "out") |].
    intros (_ & ev & [= <-] & _ & _ & _ & Hdl).
    assert (float_of_int (data_length parsed) = Raise OverflowError)
      by by apply float_of_int_Raise.
    congruence.
  - apply float_of_int_Raise in Ev as [-> Hdl]. split.
    + intros He. split;
        [destruct (String.eqb (direction parsed) "out"); simpl in He; congruence |].
      exists parsed. repeat split; try done.
      destruct (in_dec string_dec "=" (Py.split (Py.strip line))) as [|Hn];
        [done |].
      pose proof (scan_branch_nonneg _ _ Hp Hn). lia.
    + intros [-> _]. by destruct (String.eqb (direction parsed) "out").
Qed.

(** X7: a line that is rejected, an event whose type is not "C", and a
    completion with status "0" whose length is zero or negative leave all
    four counters as they are. *)
Theorem process_unmetered (usb_devices : cache) (line : string) (m : metrics) :
  parse_usbmon_line line = None \/
  (exists ev, parse_usbmon_line line = Some ev /\
              (event_type ev <> "C" \/
               status ev = "0" /\ data_length ev <= 0)) ->
  process_usbmon_data usb_devices line m = Ok m.
Proof.
  unfold process_usbmon_data.
  intros [-> | (ev & -> & [Ht | (Hs & Hd)])]; [done | |].
  - destruct (String.eqb (event_type ev) "C") eqn:E; [|done].
    by apply String.eqb_eq in E.
  - destruct (negb (String.eqb (event_type ev) "C")); [done |].
    rewrite Hs. simpl.
    destruct (0 <? data_length ev) eqn:E; [|done].
    apply Z.ltb_lt in E. lia.
Qed.

Lemma stream_total_nonneg (name : counter_name) (labels : list string)
  (lines : list (cache * string)) :
  0 <= stream_total name labels lines.
Proof.
  induction lines as [|[usb_devices line] lines IH]; simpl; [lia |].
  destruct (process_values usb_devices line no_metrics name labels)
    as (a & -> & [Ha _] & _).
  simpl. lia.
Qed.

Lemma monitor_loop_values (lines : list (cache * string)) (m : metrics)
  (name : counter_name) (labels : list string) (held : Z) :
  Forall (fun r => r.2 <> "") lines ->
  value (counter_of name m) labels = Finite held ->
  0 <= held ->
  held + stream_total name labels lines <= 2 ^ 53 ->
  value (counter_of name (monitor_loop (flowing lines) m)) labels
  = Finite (held + stream_total name labels lines).
Proof.
  intros Hl. revert m held.
  induction Hl as [|[usb_devices line] lines Hne _ IH]; intros m held Hm Hh Hs;
    simpl in *.
  - rewrite Hm. f_equal. lia.
  - destruct (String.eqb line "") eqn:E; [by apply String.eqb_eq in E |].
    pose proof (stream_total_nonneg name labels lines) as Hrest.
    destruct (process_values usb_devices line m name labels)
      as (a & Ha & [Ha0 _] & Hstep).
    rewrite Ha in *. simpl in *.
    destruct Hstep as [[Hsame ->] | Hadd].
    + rewrite (IH _ held); [f_equal; lia | congruence | lia | lia].
    + rewrite (IH _ (held + a)); [f_equal; lia | | lia | lia].
      rewrite Hadd, Hm. simpl. apply round_double_small. lia.
Qed.

(** X8: counting is additive over a stream as long as the floats are
    exact.  When the usbmon file exists, the stream has no empty line, a
    child holds the whole number [held] and [held] plus the sum of what
    the lines count for one by one is at most 2^53, then after
    [monitor_usbmon] the child holds exactly that sum. *)
Theorem monitor_usbmon_additive (fs : sysfs) (usbmon_path bus : string)
  (lines : list (cache * string)) (m : metrics)
  (name : counter_name) (labels : list string) (held : Z) :
  path_exists fs (usbmon_path +:+ "/" +:+ bus) = true ->
  Forall (fun r => r.2 <> "") lines ->
  value (counter_of name m) labels = Finite held ->
  0 <= held ->
  held + stream_total name labels lines <= 2 ^ 53 ->
  value (counter_of name
           (monitor_usbmon fs usbmon_path bus (flowing lines) m)) labels
  = Finite (held + stream_total name labels lines).
Proof.
  intros He Hl Hm Hh Hs. unfold monitor_usbmon. rewrite He. simpl.
  by apply monitor_loop_values.
Qed.

(** X9: no counter child ever goes down: whatever [monitor_usbmon]
    reads, end of file and failing reads included, a child that holds a
    float (as every child the library keeps does) holds at least as much
    afterwards, and a float again. *)
Theorem monitor_usbmon_monotone (fs : sysfs) (usbmon_path bus : string)
  (reads : list (cache * res string)) (m : metrics)
  (name : counter_name) (labels : list string) :
  is_double (value (counter_of name m) labels) ->
  double_le (value (counter_of name m) labels)
    (value (counter_of name (monitor_usbmon fs usbmon_path bus reads m)) labels)
  /\
  is_double
    (value (counter_of name (monitor_usbmon fs usbmon_path bus reads m)) labels).
Proof.
  unfold monitor_usbmon.
  destruct (negb _); [by split; [apply double_le_refl |] |].
  revert m. induction reads as [|[usb_devices [line|e]] reads IH];
    intros m Hm; simpl; try by split; [apply double_le_refl |].
  destruct (String.eqb line ""); [by split; [apply double_le_refl |] |].
  destruct (process_values usb_devices line m name labels)
    as (a & _ & Ha & Hstep). simpl in Hstep.
  set (m' := except_Exception (process_usbmon_data usb_devices line m) m) in *.
  assert (Hm' : double_le (value (counter_of name m) labels)
                  (value (counter_of name m') labels) /\
                is_double (value (counter_of name m') labels)).
  { destruct Hstep as [[-> _] | ->].
    - by split; [apply double_le_refl |].
    - split; [by apply double_add_ge | by apply double_add_is_double]. }
  destruct Hm' as [Hle Hd]. destruct (IH m' Hd) as [Hle' Hd'].
  split; [by eapply double_le_trans | done].
Qed.

(** A line counts for the same errors whatever the cache holds. *)
Lemma errors_cache (usb_devices1 usb_devices2 : cache) (line : string)
  (m : metrics) :
  (exists m1 m2,
      process_usbmon_data usb_devices1 line m = Ok m1 /\
      process_usbmon_data usb_devices2 line m = Ok m2 /\
      usb_transfer_errors_sent m1 = usb_transfer_errors_sent m2 /\
      usb_transfer_errors_received m1 = usb_transfer_errors_received m2) \/
  (process_usbmon_data usb_devices1 line m = Raise OverflowError /\
   process_usbmon_data usb_devices2 line m = Raise OverflowError).
Proof.
  unfold process_usbmon_data.
  destruct (parse_usbmon_line line) as [parsed|]; [|by left; exists m, m].
  destruct (negb (String.eqb (event_type parsed) "C"));
    [by left; exists m, m |].
  destruct (negb (String.eqb (status parsed) "0")).
  - left. rewrite !inc_one.
    destruct (String.eqb (direction parsed) "out"); simpl;
      eexists _, _; repeat split; reflexivity.
  - destruct (0 <? data_length parsed) eqn:E; [|by left; exists m, m].
    apply Z.ltb_lt in E. unfold inc.
    destruct (data_length parsed <? 0) eqn:E'; [apply Z.ltb_lt in E'; lia |].
    destruct (float_of_int (data_length parsed)) as [v|e] eqn:Ev.
    + left. destruct (String.eqb (direction parsed) "out"); simpl;
        eexists _, _; repeat split; reflexivity.
    + right. apply float_of_int_Raise in Ev as [-> _].
      by destruct (String.eqb (direction parsed) "out").
Qed.

Lemma error_effect_cache (usb_devices1 usb_devices2 : cache) (line : string)
  (name : counter_name) (labels : list string) :
  name = Errors_sent \/ name = Errors_received ->
  value (counter_of name (line_effect usb_devices1 line)) labels
  = value (counter_of name (line_effect usb_devices2 line)) labels.
Proof.
  intros Hname. unfold line_effect.
  destruct (errors_cache usb_devices1 usb_devices2 line no_metrics)
    as [(m1 & m2 & -> & -> & Hs & Hr) | [-> ->]]; [| done].
  simpl. destruct Hname as [-> | ->]; simpl; congruence.
Qed.

Lemma sum_Permutation (l l' : list Z) :
  Permutation l l' -> foldr Z.add 0 l = foldr Z.add 0 l'.
Proof. induction 1; simpl; lia. Qed.

Lemma stream_total_by_line (name : counter_name) (labels : list string)
  (f : string -> Z) (lines : list (cache * string)) :
  Forall (fun r => whole (value (counter_of name (line_effect r.1 r.2)) labels)
                   = f r.2) lines ->
  stream_total name labels lines = foldr Z.add 0 (f <$> lines.*2).
Proof. induction 1 as [|r lines Hr _ IH]; simpl; [done | by rewrite Hr, IH]. Qed.

(** The sum of a stream depends on the lines only, not on their order,
    for the error counters and under one cache. *)
Lemma stream_total_Permutation (name : counter_name) (labels : list string)
  (lines lines' : list (cache * string)) :
  Permutation lines.*2 lines'.*2 ->
  name = Errors_sent \/ name = Errors_received \/
  (exists usb_devices, Forall (fun r => r.1 = usb_devices) (lines ++ lines')) ->
  stream_total name labels lines = stream_total name labels lines'.
Proof.
  intros Hp Hside.
  assert (Hf : exists f : string -> Z,
             Forall (fun r => whole (value (counter_of name
                                              (line_effect r.1 r.2)) labels)
                              = f r.2) (lines ++ lines')).
  { destruct Hside as [Hn | [Hn | [d Hd]]].
    - exists (fun l => whole (value (counter_of name (line_effect ∅ l)) labels)).
      apply Forall_forall. intros r _. f_equal.
      apply error_effect_cache. by left.
    - exists (fun l => whole (value (counter_of name (line_effect ∅ l)) labels)).
      apply Forall_forall. intros r _. f_equal.
      apply error_effect_cache. by right.
    - exists (fun l => whole (value (counter_of name (line_effect d l)) labels)).
      eapply Forall_impl; [exact Hd |]. by intros r ->. }
  destruct Hf as [f Hf]. apply Forall_app in Hf as [Hf Hf'].
  rewrite !(stream_total_by_line name labels f) by done.
  apply sum_Permutation. by apply fmap_Permutation.
Qed.

(** X10: below 2^53 the counts do not depend on the order of the
    lines.  Two streams without an empty line that hold the same lines in
    another order leave the same value at a child, for an error counter
    whatever the cache is at each line, and for a byte counter when the
    cache is the same at every line: provided the child holds the whole
    number [held] and [held] plus what the lines count for is at most
    2^53. *)
Theorem monitor_loop_permutation (lines lines' : list (cache * string))
  (m : metrics) (name : counter_name) (labels : list string) (held : Z) :
  Permutation lines.*2 lines'.*2 ->
  name = Errors_sent \/ name = Errors_received \/
  (exists usb_devices, Forall (fun r => r.1 = usb_devices) (lines ++ lines')) ->
  Forall (fun r => r.2 <> "") lines ->
  value (counter_of name m) labels = Finite held ->
  0 <= held ->
  held + stream_total name labels lines <= 2 ^ 53 ->
  value (counter_of name (monitor_loop (flowing lines) m)) labels
  = value (counter_of name (monitor_loop (flowing lines') m)) labels.
Proof.
  intros Hp Hside Hl Hm Hh Hs.
  assert (Hl' : Forall (fun r => r.2 <> "") lines').
  { apply (Forall_fmap snd (fun l => l <> "")).
    rewrite <- Hp. by apply Forall_fmap. }
  pose proof (stream_total_Permutation name labels _ _ Hp Hside) as Ht.
  rewrite (monitor_loop_values lines m name labels held) by done.
  rewrite (monitor_loop_values lines' m name labels held) by (done || lia).
  by rewrite Ht.
Qed.

(** X11: the loop ends at the end of the file and at a failing read:
    what [readline] would give after an empty line or after an exception
    is never processed. *)
Theorem monitor_loop_ends (lines : list (cache * string))
  (usb_devices : cache) (last : res string)
  (rest : list (cache * res string)) (m : metrics) :
  Forall (fun r => r.2 <> "") lines ->
  last = Ok "" \/ (exists e, last = Raise e) ->
  monitor_loop (flowing lines ++ (usb_devices, last) :: rest) m
  = monitor_loop (flowing lines) m.
Proof.
  intros Hl Hlast. revert m.
  induction Hl as [|[d line] lines Hne _ IH]; intros m; simpl.
  - by destruct Hlast as [-> | (e & ->)].
  - destruct (String.eqb line ""); [done | apply IH].
Qed.

(** X12: the error counters do not depend on the cache: whatever
    [self.usb_devices] holds, a line either counts for the same errors,
    or raises the same [OverflowError] before it counts. *)
Theorem errors_ignore_cache (usb_devices1 usb_devices2 : cache)
  (line : string) (m : metrics) :
  (exists m1 m2,
      process_usbmon_data usb_devices1 line m = Ok m1 /\
      process_usbmon_data usb_devices2 line m = Ok m2 /\
      usb_transfer_errors_sent m1 = usb_transfer_errors_sent m2 /\
      usb_transfer_errors_received m1 = usb_transfer_errors_received m2) \/
  (process_usbmon_data usb_devices1 line m = Raise OverflowError /\
   process_usbmon_data usb_devices2 line m = Raise OverflowError).
Proof. apply errors_cache. Qed.

(** *** The fields of a device *)

Lemma lstrip_start (s : string) :
  Py.starts_with_space s = false -> Py.lstrip s = s.
Proof. destruct s as [|c r]; simpl; [done | by intros ->]. Qed.

Lemma rstrip_end (s : string) :
  Py.ends_with_space s = false -> Py.rstrip s = s.
Proof.
  induction s as [|c r IH]; [done |].
  cbn [Py.ends_with_space Py.rstrip]. destruct r as [|c' r'].
  - simpl. by intros ->.
  - intros H. by rewrite IH.
Qed.

Lemma all_printable_lstrip (s : string) :
  all_printable s = true -> all_printable (Py.lstrip s) = true.
Proof.
  induction s as [|c r IH]; simpl; [done |].
  intros H. apply andb_true_iff in H as [Hc Hr].
  destruct (Py.isspace c); [auto | simpl; by rewrite Hc].
Qed.

Lemma all_printable_rstrip (s : string) :
  all_printable s = true -> all_printable (Py.rstrip s) = true.
Proof.
  induction s as [|c r IH]; simpl; [done |].
  intros H. apply andb_true_iff in H as [Hc Hr]. specialize (IH Hr).
  destruct (Py.rstrip r) as [|c' r'].
  - destruct (Py.isspace c); simpl; [done | by rewrite Hc].
  - change (all_printable (String c (String c' r')))
      with (((32 <=? Py.code c) && (Py.code c <=? 126))%N
            && all_printable (String c' r')).
    by rewrite Hc, IH.
Qed.

Lemma all_printable_printable (s : string) :
  all_printable (Py.printable s) = true.
Proof.
  induction s as [|c r IH]; simpl; [done |].
  destruct (_ && _)%N eqn:E; [|done]. simpl. by rewrite E.
Qed.

Lemma printable_id (s : string) :
  all_printable s = true -> Py.printable s = s.
Proof.
  induction s as [|c r IH]; simpl; [done |].
  intros H. apply andb_true_iff in H as [Hc Hr]. by rewrite Hc, IH.
Qed.

(** What [clean_string] returns when it is not "unknown". *)
Lemma clean_string_cases (text : string) :
  clean_string text = "unknown" \/
  clean_string text = Py.strip (Py.printable text) /\
  Py.strip (Py.printable text) <> "".
Proof.
  unfold clean_string. destruct (_ || _); [by left |].
  destruct (String.eqb (Py.strip (Py.printable text)) "") eqn:E; [by left |].
  right. split; [done |]. intros H. rewrite H in E. discriminate.
Qed.

Lemma clean_string_cases_nonempty (text : string) : clean_string text <> "".
Proof. destruct (clean_string_cases text) as [-> | [-> H]]; done. Qed.

(** X13: [clean_string] never returns an empty name: the result has at
    least one character, only printable ASCII characters, and no space at
    either end. *)
Theorem clean_string_clean (text : string) :
  clean_string text <> "" /\
  all_printable (clean_string text) = true /\
  Py.starts_with_space (clean_string text) = false /\
  Py.ends_with_space (clean_string text) = false.
Proof.
  destruct (clean_string_cases text) as [-> | [-> Hne]]; [done |].
  split; [done |]. split; [|apply strip_trimmed].
  apply all_printable_rstrip, all_printable_lstrip, all_printable_printable.
Qed.

(** X14: [clean_string] is idempotent: a cleaned name is left as it is
    when it is cleaned again. *)
Theorem clean_string_idempotent (text : string) :
  clean_string (clean_string text) = clean_string text.
Proof.
  destruct (clean_string_cases text) as [-> | [E Hne]]; [done |].
  rewrite E. set (cleaned := Py.strip (Py.printable text)) in *.
  assert (Hp : all_printable cleaned = true).
  { apply all_printable_rstrip, all_printable_lstrip, all_printable_printable. }
  destruct (strip_trimmed (Py.printable text)) as [Hs He]. fold cleaned in Hs, He.
  unfold clean_string.
  destruct (String.eqb cleaned "unknown") eqn:Eu;
    [by apply String.eqb_eq in Eu |].
  destruct (String.eqb cleaned "") eqn:E0; [by apply String.eqb_eq in E0 |].
  simpl. rewrite printable_id by done.
  unfold Py.strip. rewrite lstrip_start, rstrip_end by done.
  by rewrite E0.
Qed.

Lemma search_digits_start (s group : string) :
  Py.search_digits s = Some group ->
  exists c r, group = String c r /\ Py.is_decimal c = true.
Proof.
  induction s as [|c r IH]; simpl; [discriminate |].
  destruct (Py.is_decimal c) eqn:E; [|done].
  intros [= <-]. eauto.
Qed.

(** X15: with "mA" in the text, [parse_power] is never negative: it is
    the number written by the first run of digits of the text, or 0. *)
Theorem parse_power_mA_nonneg (power_str : string) :
  Py.contains_str "mA" power_str = true ->
  0 <= parse_power power_str /\
  (parse_power power_str = 0 \/
   exists group, Py.search_digits power_str = Some group /\
                 int group = Ok (parse_power power_str)).
Proof.
  intros H. unfold parse_power. rewrite H.
  destruct (Py.search_digits power_str) as [group|] eqn:E; simpl;
    [|split; [lia | by left]].
  destruct (int group) as [v|e] eqn:Ei; simpl; [|split; [lia | by left]].
  destruct (search_digits_start _ _ E) as (c & r & -> & Hc).
  rewrite int_decimal_start in Ei by done.
  pose proof Ei as Ei'. apply magnitude_Ok in Ei' as (n & Hv & _).
  split; [lia |]. right. exists (String c r). split; [done |].
  by rewrite int_decimal_start.
Qed.

Lemma contains_char_basename (p : string) :
  Py.contains_char "/" (Py.basename p) = false.
Proof.
  induction p as [|c r IH]; simpl; [done |].
  destruct (Py.contains_char "/" r) eqn:E; [done |].
  destruct (Ascii.eqb c "/") eqn:Ec; [done |].
  simpl. by rewrite Ec, E.
Qed.

Lemma first_driver_no_slash (fs : sysfs) (device_path : string)
  (items : list string) (name : string) :
  first_driver fs device_path items = Ok (Some name) ->
  Py.contains_char "/" name = false.
Proof.
  induction items as [|item rest IH]; simpl; [discriminate |].
  destruct (Py.match_interface item); [|done].
  destruct (path_exists fs _); [|done].
  destruct (readlink fs _) as [driver_path|]; simpl; [|discriminate].
  intros [= <-]. apply contains_char_basename.
Qed.

(** X16: [get_driver_name] returns a bare name, never a path: the result
    holds no slash; and it is "none" when the directory of the device
    cannot be listed. *)
Theorem get_driver_name_bare (fs : sysfs) (device_path : string) :
  Py.contains_char "/" (get_driver_name fs device_path) = false /\
  ((exists e, listdir fs device_path = Raise e) ->
   get_driver_name fs device_path = "none").
Proof.
  unfold get_driver_name. split.
  - destruct (listdir fs device_path) as [items|]; simpl; [|done].
    destruct (first_driver fs device_path items) as [[name|]|] eqn:E;
      simpl; [|done..].
    eauto using first_driver_no_slash.
  - by intros (e & ->).
Qed.

(** X17: [read_sysfs_file] returns the default when the file does not
    exist or cannot be read; in every case it returns the default or the
    content of the existing file stripped, and then a string that is not
    empty and has no white space at either end. *)
Theorem read_sysfs_file_cases (fs : sysfs) (filepath : string)
  (default : option string) :
  (path_exists fs filepath = false \/ (exists e, read fs filepath = Raise e) ->
   read_sysfs_file fs filepath default = default) /\
  (read_sysfs_file fs filepath default = default \/
   exists text,
     path_exists fs filepath = true /\ read fs filepath = Ok text /\
     read_sysfs_file fs filepath default = Some (Py.strip text) /\
     Py.strip text <> "" /\
     Py.starts_with_space (Py.strip text) = false /\
     Py.ends_with_space (Py.strip text) = false).
Proof.
  unfold read_sysfs_file. split.
  - intros [-> | (e & ->)]; simpl; [done |]. by destruct (path_exists _ _).
  - destruct (path_exists fs filepath); simpl; [|by left].
    destruct (read fs filepath) as [text|]; simpl; [|by left].
    destruct (String.eqb (Py.strip text) "") eqn:E; [by left |].
    right. exists text. destruct (strip_trimmed text) as [Hs He].
    repeat split; try done. intros H. rewrite H in E. discriminate.
Qed.

Lemma all_decimal_pretty_N_go (x : N) (s : string) :
  all_decimal s = true -> all_decimal (pretty_N_go x s) = true.
Proof.
  revert s. induction (N.lt_wf_0 x) as [x _ IH]; intros s Hs.
  destruct (decide (x = 0)%N) as [-> | Hx]; [done |].
  assert (Hpos : (0 < x)%N) by by apply N.neq_0_lt_0.
  rewrite pretty_N_go_step by done. apply IH.
  - by apply N.div_lt.
  - simpl. unfold Py.is_decimal.
    rewrite decimal_pretty_N_char by by apply N.mod_lt. done.
Qed.

Lemma all_decimal_str (n : Z) :
  0 <= n ->
  all_decimal (Py.str n) = true /\
  exists c r, Py.str n = String c r /\ Py.is_decimal c = true.
Proof.
  intros Hn. destruct n as [|p|p]; [split; [done | by eexists _, _] | | lia].
  change (Py.str (Z.pos p)) with (pretty (N.pos p)).
  assert (Ha : all_decimal (pretty (N.pos p)) = true).
  { unfold pretty, pretty_N. destruct (decide _); [done |].
    by apply all_decimal_pretty_N_go. }
  split; [done |].
  destruct (digits_go_pretty (N.pos p)) as (_ & _ & _ & _ & Hstart).
  unfold pretty, pretty_N. destruct (decide _); [done |]. by apply Hstart.
Qed.

Lemma take_decimals_app (ds rest : string) (c : ascii) :
  all_decimal ds = true -> Py.is_decimal c = false ->
  Py.take_decimals (ds +:+ String c rest) = ds.
Proof.
  intros Hd Hc. induction ds as [|d ds IH].
  - change ("" +:+ String c rest) with (String c rest). simpl. by rewrite Hc.
  - change (String d ds +:+ String c rest)
      with (String d (ds +:+ String c rest)).
    simpl in Hd. apply andb_true_iff in Hd as [Hd1 Hd2].
    cbn [Py.take_decimals]. by rewrite Hd1, IH.
Qed.

Lemma contains_str_app (sub ds : string) :
  Py.contains_str sub (ds +:+ sub) = true.
Proof.
  assert (Hp : forall s, String.prefix s s = true).
  { induction s as [|a s IH]; simpl; [done |].
    by destruct (Ascii.ascii_dec a a). }
  induction ds as [|d ds IH].
  - change ("" +:+ sub) with sub.
    destruct sub; [done |]. cbn [Py.contains_str]. by rewrite Hp.
  - change ((String d ds) +:+ sub) with (String d (ds +:+ sub)).
    cbn [Py.contains_str]. rewrite IH. apply orb_true_r.
Qed.

Lemma contains_mA_decimal (ds : string) :
  all_decimal ds = true -> Py.contains_str "mA" ds = false.
Proof.
  induction ds as [|d ds IH]; [done |].
  cbn [all_decimal Py.contains_str]. intros H.
  apply andb_true_iff in H as [Hd Hds]. rewrite (IH Hds).
  change (String.prefix "mA" (String d ds))
    with (if Ascii.ascii_dec "m" d then String.prefix "A" ds else false).
  destruct (Ascii.ascii_dec "m" d) as [<- | _]; [discriminate | done].
Qed.

(** X18: [parse_power] reads back the two forms of bMaxPower: for a
    number n of at most 640 digits, the text of n followed by "mA" gives
    n, and the bare text of n, a count of half milliamperes, gives twice
    n. *)
Theorem parse_power_reads (n : Z) :
  0 <= n < 10 ^ 640 ->
  parse_power (Py.str n +:+ "mA") = n /\
  parse_power (Py.str n) = n * 2.
Proof.
  intros Hn.
  destruct (all_decimal_str n) as (Hd & c & r & E & Hc); [lia |].
  assert (Hi : int (Py.str n) = Ok n).
  { apply (int_str n 640); [|reflexivity].
    rewrite Z.abs_eq by lia. change (Z.of_nat 640) with 640. lia. }
  unfold parse_power. split.
  - assert (Hs : Py.search_digits (String c r +:+ "mA") = Some (String c r)).
    { change (String c r +:+ "mA") with (String c (r +:+ "mA")).
      cbn [Py.search_digits]. rewrite Hc.
      change (String c (r +:+ "mA")) with (String c r +:+ "mA").
      rewrite take_decimals_app; [done | by rewrite <- E | done]. }
    rewrite contains_str_app, E, Hs, <- E. by rewrite Hi.
  - rewrite contains_mA_decimal by done. by rewrite Hi.
Qed.

(** *** The records of the refresh *)

Section RecordFacts.
Variable fs : sysfs.

(** What the refresh writes for an entry of the listing. *)
Lemma device_write_inv (device_dir key : string) (info : device_info float) :
  device_write fs device_dir = Some (key, info) ->
  let full_path := Py.path_join devices_path device_dir in
  accepted device_dir = true /\
  exists bus_id dev_id bus_num dev_num speed_mbps,
    read_sysfs_file fs (full_path +:+ "/busnum") None = Some bus_id /\
    read_sysfs_file fs (full_path +:+ "/devnum") None = Some dev_id /\
    int bus_id = Ok bus_num /\ int dev_id = Ok dev_num /\
    parse_speed (read_sysfs_str fs (full_path +:+ "/speed") "0")
      = Ok speed_mbps /\
    key = device_key (Py.str bus_num) (Py.str dev_num) /\
    info =
      {| vendor_id :=
           Py.lower (read_sysfs_str fs (full_path +:+ "/idVendor") "unknown");
         product_id :=
           Py.lower (read_sysfs_str fs (full_path +:+ "/idProduct") "unknown");
         vendor_name :=
           clean_string
             (read_sysfs_str fs (full_path +:+ "/manufacturer") "unknown");
         product_name :=
           clean_string (read_sysfs_str fs (full_path +:+ "/product") "unknown");
         serial := read_sysfs_str fs (full_path +:+ "/serial") "unknown";
         version :=
           Some (read_sysfs_str fs (full_path +:+ "/version") "unknown");
         class_id :=
           Some (read_sysfs_str fs (full_path +:+ "/bDeviceClass") "00");
         driver := Some (get_driver_name fs full_path);
         speed := Float speed_mbps;
         max_power :=
           parse_power (read_sysfs_str fs (full_path +:+ "/bMaxPower") "0");
         info_bus := Some (Py.str bus_num);
         info_device := Some (Py.str dev_num) |}.
Proof.
  intros H. cbv zeta. unfold device_write, read_device in H.
  set (full_path := Py.path_join devices_path device_dir) in *.
  destruct (accepted device_dir); [|discriminate]. split; [done |].
  destruct (read_sysfs_file fs (full_path +:+ "/busnum") None)
    as [bus_id|] eqn:Eb; [|discriminate].
  destruct (read_sysfs_file fs (full_path +:+ "/devnum") None)
    as [dev_id|] eqn:Ed; [|discriminate].
  destruct (_ || _); [discriminate |].
  destruct (int bus_id) as [bus_num|] eqn:Ib; [|discriminate].
  destruct (int dev_id) as [dev_num|] eqn:Id; [|discriminate].
  cbn [bind] in H.
  destruct (parse_speed _) as [speed_mbps|] eqn:Es; [|discriminate].
  simpl in H. injection H as <- <-.
  exists bus_id, dev_id, bus_num, dev_num, speed_mbps. done.
Qed.

Lemma device_write_keyed (device_dir key : string) (info : device_info float) :
  device_write fs device_dir = Some (key, info) -> keyed key info.
Proof.
  intros H. apply device_write_inv in H
    as (_ & b & d & bus_num & dev_num & sp & _ & _ & _ & _ & _ & -> & ->).
  exists bus_num, dev_num. simpl. eauto 10.
Qed.
End RecordFacts.

Section RefreshMore.
Variable fs : sysfs.

Lemma update_union (usb_devices : cache) :
  update_device_info fs usb_devices
  = list_to_map (refresh_writes fs) ∪ usb_devices.
Proof.
  unfold update_device_info, refresh_writes.
  destruct (path_exists fs devices_path); simpl;
    [|by rewrite (left_id_L ∅ (∪))].
  destruct (listdir fs devices_path) as [names|]; simpl;
    [apply refresh_fold | by rewrite (left_id_L ∅ (∪))].
Qed.

Lemma refresh_writes_from (key : string) (info : device_info float) :
  (key, info) ∈ refresh_writes fs ->
  exists device_dir, device_write fs device_dir = Some (key, info).
Proof.
  unfold refresh_writes. destruct (path_exists fs devices_path);
    [|by intros ?%elem_of_nil].
  destruct (listdir fs devices_path) as [names|]; [|by intros ?%elem_of_nil].
  intros H. apply elem_of_reverse, list_elem_of_omap in H as (d & _ & H).
  eauto.
Qed.

Lemma update_lookup (usb_devices : cache) (key : string)
  (info : device_info float) :
  update_device_info fs usb_devices !! key = Some info ->
  usb_devices !! key = Some info \/
  exists device_dir, device_write fs device_dir = Some (key, info).
Proof.
  rewrite update_union. intros H.
  apply lookup_union_Some_raw in H as [H | [_ H]]; [|by left].
  right. apply elem_of_list_to_map_2 in H. by apply refresh_writes_from.
Qed.

Lemma read_sysfs_str_nonempty (filepath default : string) :
  default <> "" -> read_sysfs_str fs filepath default <> "".
Proof.
  intros Hd. unfold read_sysfs_str, read_sysfs_file.
  destruct (path_exists fs filepath); simpl; [|done].
  destruct (read fs filepath) as [text|]; simpl; [|done].
  destruct (String.eqb (Py.strip text) "") eqn:E; simpl; [done |].
  intros H. rewrite H in E. discriminate.
Qed.

Lemma lower_char_idempotent (c : ascii) :
  Py.lower_char (Py.lower_char c) = Py.lower_char c.
Proof. destruct c as [[] [] [] [] [] [] [] []]; reflexivity. Qed.

Lemma lower_idempotent (s : string) : Py.lower (Py.lower s) = Py.lower s.
Proof.
  induction s as [|c r IH]; simpl; [done |].
  by rewrite lower_char_idempotent, IH.
Qed.

Lemma lower_nonempty (s : string) : s <> "" -> Py.lower s <> "".
Proof. by destruct s. Qed.

(** X19: every record the refresh writes has all twelve keys, sits
    under the key made of its own bus and device, has ids in lower case,
    and has no empty id, name or serial. *)
Theorem written_record (device_dir key : string) (info : device_info float) :
  device_write fs device_dir = Some (key, info) ->
  keyed key info /\
  Py.lower (vendor_id info) = vendor_id info /\
  Py.lower (product_id info) = product_id info /\
  vendor_id info <> "" /\ product_id info <> "" /\
  vendor_name info <> "" /\ product_name info <> "" /\ serial info <> "".
Proof.
  intros H. split; [by eapply device_write_keyed |].
  apply device_write_inv in H
    as (_ & b & d & bus_num & dev_num & sp & _ & _ & _ & _ & _ & _ & ->).
  simpl. repeat split;
    auto using lower_idempotent, lower_nonempty, read_sysfs_str_nonempty;
    try apply clean_string_cases_nonempty.
Qed.
End RefreshMore.

Section RefreshLaws.
Variable fs : sysfs.

(** X20: an entry of the listing is recorded exactly when its name is
    that of a device or of a root hub, its busnum and devnum files give
    integers, and the conversion of the speed does not fail (a
    [ValueError] of [float] gives 0.0 and does not count): no other file
    of the device is needed. *)
Theorem device_write_iff (device_dir : string) :
  let full_path := Py.path_join devices_path device_dir in
  is_Some (device_write fs device_dir) <->
  accepted device_dir = true /\
  (exists bus_id bus_num,
      read_sysfs_file fs (full_path +:+ "/busnum") None = Some bus_id /\
      int bus_id = Ok bus_num) /\
  (exists dev_id dev_num,
      read_sysfs_file fs (full_path +:+ "/devnum") None = Some dev_id /\
      int dev_id = Ok dev_num) /\
  (forall e, float_of_str (read_sysfs_str fs (full_path +:+ "/speed") "0")
             = Raise e -> e = ValueError).
Proof.
  intros full_path. split.
  - intros [[key info] H]. apply device_write_inv in H
      as (Ha & b & d & bn & dn & sp & Hb & Hd & Ib & Id & Hs & _).
    fold full_path in Hb, Hd, Hs. split; [done |].
    split; [eauto |]. split; [eauto |].
    intros e He. unfold parse_speed in Hs. rewrite He in Hs.
    destruct e; simpl in Hs; done.
  - intros (Ha & (b & bn & Hb & Ib) & (d & dn & Hd & Id) & Hs).
    unfold device_write, read_device. fold full_path.
    rewrite Ha, Hb, Hd.
    destruct (read_sysfs_file_trimmed fs _ _ Hb) as [Hbe _].
    destruct (read_sysfs_file_trimmed fs _ _ Hd) as [Hde _].
    apply String.eqb_neq in Hbe, Hde. rewrite Hbe, Hde, Ib, Id.
    cbn [orb bind]. unfold parse_speed.
    destruct (float_of_str _) as [sp|e] eqn:Ef; simpl; [done |].
    rewrite (Hs e eq_refl). done.
Qed.

Lemma update_cache_ok (usb_devices : cache) :
  cache_ok usb_devices -> cache_ok (update_device_info fs usb_devices).
Proof.
  intros Hc key info H.
  apply update_lookup in H as [H | (d & H)]; [by apply Hc |].
  by eapply device_write_keyed.
Qed.

(** X22: refreshing twice from the same registry is refreshing once. *)
Theorem refresh_idempotent (usb_devices : cache) :
  update_device_info fs (update_device_info fs usb_devices)
  = update_device_info fs usb_devices.
Proof.
  rewrite !update_union.
  by rewrite (assoc_L (∪)), (idemp_L (∪)).
Qed.

(** X23: a refresh never forgets a key: a key of the cache is still
    there afterwards, with the record it had or with one written by this
    refresh. *)
Theorem refresh_never_forgets (usb_devices : cache) (key : string)
  (old : device_info float) :
  usb_devices !! key = Some old ->
  exists info,
    update_device_info fs usb_devices !! key = Some info /\
    (info = old \/
     exists device_dir, device_write fs device_dir = Some (key, info)).
Proof.
  intros Hold. rewrite update_union, lookup_union.
  destruct (list_to_map (refresh_writes fs) !! key) as [info|] eqn:E;
    rewrite Hold; simpl.
  - exists info. split; [done |]. right.
    apply elem_of_list_to_map_2 in E. by apply refresh_writes_from.
  - exists old. auto.
Qed.

(** The key of the last entry that writes it holds the record of that
    entry. *)
Lemma update_lookup_written (usb_devices : cache)
  (before after : list string) (device_dir key : string)
  (info : device_info float) :
  path_exists fs devices_path = true ->
  listdir fs devices_path = Ok (before ++ device_dir :: after) ->
  device_write fs device_dir = Some (key, info) ->
  (forall later info',
      In later after -> device_write fs later <> Some (key, info')) ->
  update_device_info fs usb_devices !! key = Some info.
Proof.
  intros He Hl Hw Hlater.
  unfold update_device_info. rewrite He, Hl. simpl.
  rewrite fold_left_app. simpl. rewrite refresh_retains by done.
  unfold refresh_one at 1. by rewrite Hw, lookup_insert_eq.
Qed.

(** X24: what the refresh writes, the lookup finds: after a refresh of
    a registry that can be listed, [get_device_info] with the bus and the
    device of a record written for an entry returns that record, unless a
    later entry of the listing wrote the same key. *)
Theorem lookup_after_refresh (usb_devices : cache)
  (before after : list string) (device_dir key bus_id dev_id : string)
  (info : device_info float) :
  path_exists fs devices_path = true ->
  listdir fs devices_path = Ok (before ++ device_dir :: after) ->
  device_write fs device_dir = Some (key, info) ->
  (forall later info',
      In later after -> device_write fs later <> Some (key, info')) ->
  info_bus info = Some bus_id ->
  info_device info = Some dev_id ->
  get_device_info (update_device_info fs usb_devices) bus_id dev_id = info.
Proof.
  intros He Hl Hw Hlater Hb Hd.
  destruct (device_write_keyed fs _ _ _ Hw)
    as (bn & dn & Hb' & Hd' & Hk & _).
  rewrite Hb in Hb'. rewrite Hd in Hd'.
  injection Hb' as ->. injection Hd' as ->.
  unfold get_device_info. rewrite <- Hk.
  by rewrite (update_lookup_written usb_devices before after device_dir key
                info He Hl Hw Hlater).
Qed.

(** X27: an event finds the record of its device: after a refresh, a
    line is given the record written for a registry entry when the bus
    field of its address is the bus of the record and its device field is
    read by [int] as the same integer as the device of the record, leading
    zeros or not. *)
Theorem event_finds_device (usb_devices : cache)
  (before after : list string) (device_dir key dev_id : string)
  (info : device_info float) (line : string) (ev : event) (z : Z) :
  path_exists fs devices_path = true ->
  listdir fs devices_path = Ok (before ++ device_dir :: after) ->
  device_write fs device_dir = Some (key, info) ->
  (forall later info',
      In later after -> device_write fs later <> Some (key, info')) ->
  parse_usbmon_line line = Some ev ->
  info_bus info = Some (bus ev) ->
  info_device info = Some dev_id ->
  int dev_id = Ok z ->
  int (device ev) = Ok z ->
  get_device_info (update_device_info fs usb_devices) (bus ev) (device ev)
  = info.
Proof.
  intros He Hl Hw Hlater Hp Hb Hd Hz Hz'.
  destruct (device_write_inv fs _ _ _ Hw)
    as (_ & b & d & bn & dn & sp & _ & _ & _ & Id & _ & Hk & Hi).
  assert (Hdev : dev_id = Py.str dn) by (rewrite Hi in Hd; by injection Hd).
  assert (Hbus : bus ev = Py.str bn) by (rewrite Hi in Hb; by injection Hb).
  pose proof (parse_inv _ _ Hp) as (_ & raw & z' & _ & _ & _ & _ & Ez & Hdv & _).
  assert (dn = z).
  { apply int_str_int in Id. rewrite <- Hdev, Hz in Id. by injection Id. }
  assert (z' = z).
  { apply int_str_int in Ez. rewrite <- Hdv, Hz' in Ez. by injection Ez. }
  subst dn z'. unfold get_device_info.
  rewrite Hbus, Hdv, <- Hk.
  by rewrite (update_lookup_written usb_devices before after device_dir key
                info He Hl Hw Hlater).
Qed.

(** X25: an entry that is skipped changes nothing: the loop over a
    listing with an entry that writes no record leaves the cache it
    leaves without that entry, whatever comes before and after it. *)
Theorem refresh_skips_entry (usb_devices : cache)
  (before after : list string) (device_dir : string) :
  device_write fs device_dir = None ->
  fold_left (refresh_one fs) (before ++ device_dir :: after) usb_devices
  = fold_left (refresh_one fs) (before ++ after) usb_devices.
Proof.
  intros H. rewrite !refresh_fold, !omap_app. simpl. by rewrite H.
Qed.

End RefreshLaws.

(** X21: after any number of refreshes from the empty cache of
    [__init__], whatever the registry holds each time, every record of
    the cache has all twelve keys and sits under the key made of its own
    bus and device. *)
Theorem cache_ok_refreshes (registries : list sysfs) :
  cache_ok
    (fold_left (fun usb_devices fs => update_device_info fs usb_devices)
       registries ∅).
Proof.
  assert (H : forall usb_devices : cache,
             cache_ok usb_devices ->
             cache_ok
               (fold_left (fun c fs => update_device_info fs c)
                  registries usb_devices)).
  { induction registries as [|fs registries IH]; intros c Hc; simpl; [done |].
    apply IH. by apply update_cache_ok. }
  apply H. intros key info Hk. by rewrite lookup_empty in Hk.
Qed.

Lemma run_no_slash {S : Type} (step : S -> ascii -> option S) (q : S)
  (s : string) :
  (forall q, step q "/"%char = None) ->
  is_Some (Py.run step q s) -> Py.contains_char "/" s = false.
Proof.
  intros Hstep. revert q. induction s as [|c r IH]; intros q; simpl; [done |].
  destruct (Ascii.eqb c "/") eqn:E.
  - apply Ascii.eqb_eq in E as ->. rewrite Hstep. by intros [? [=]].
  - destruct (step q c) as [q'|]; [apply IH | by intros [? [=]]].
Qed.

(** X26: an accepted name stays inside the registry: a name that
    matches the device or the root-hub pattern is not empty and holds no
    slash, so the path of the device is the registry root followed by the
    name. *)
Theorem accepted_name_inside (device_dir : string) :
  accepted device_dir = true ->
  device_dir <> "" /\
  Py.contains_char "/" device_dir = false /\
  Py.path_join devices_path device_dir = devices_path +:+ device_dir.
Proof.
  intros H.
  assert (Hne : device_dir <> "") by (intros ->; discriminate).
  assert (Hs : Py.contains_char "/" device_dir = false).
  { unfold accepted in H. apply orb_true_iff in H as [H | H].
    - unfold Py.match_port in H.
      apply (run_no_slash Py.port_step Py.P_start); [by intros [] |].
      by destruct (Py.run _ _ _).
    - unfold Py.match_root_hub in H.
      apply (run_no_slash Py.hub_step Py.H_start); [by intros [] |].
      by destruct (Py.run _ _ _). }
  split; [done |]. split; [done |].
  destruct device_dir as [|c r]; [done |]. simpl in Hs.
  apply orb_false_iff in Hs as [Hc _]. unfold Py.path_join.
  destruct c as [[] [] [] [] [] [] [] []]; try reflexivity; discriminate.
Qed.

End Exporter.

(** ** The properties at work on concrete inputs *)

Example split_strip_tokens :
  Py.split (Py.strip "  abc 123  C Ci:1:002:1 0 32
") = ["abc"; "123"; "C"; "Ci:1:002:1"; "0"; "32"].
Proof. reflexivity. Qed.

Example strip_both_ends :
  Py.strip "  a b  " = "a b" /\ Py.strip "   " = "" /\ Py.lower "AbC" = "abc".
Proof. repeat split; reflexivity. Qed.

Example split_sep_fields :
  Py.split_sep ":" "Ci:1:002:1" = ["Ci"; "1"; "002"; "1"] /\
  Py.split_sep ":" ":a::" = [""; "a"; ""; ""].
Proof. split; reflexivity. Qed.

Example int_literals :
  Py.int 4300 "002" = Ok 2 /\ Py.int 4300 "-5" = Ok (-5) /\
  Py.int 4300 "+7" = Ok 7 /\ Py.int 4300 "1_0" = Ok 10 /\
  Py.int 4300 "--5" = Raise ValueError /\ Py.int 4300 "1__0" = Raise ValueError /\
  Py.int 4300 "_1" = Raise ValueError /\ Py.int 4300 "1_" = Raise ValueError /\
  Py.int 4300 "" = Raise ValueError /\ Py.int 4300 "0x2" = Raise ValueError /\
  Py.str (-5) = "-5" /\ Py.str 0 = "0" /\ Py.str 120 = "120".
Proof. repeat split; vm_compute; reflexivity. Qed.

Example registry_names :
  Py.match_port "1-1" = true /\ Py.match_port "1-1.2.3" = true /\
  Py.match_port "1-1." = false /\ Py.match_port "1-1:1.0" = false /\
  Py.match_root_hub "usb12" = true /\ Py.match_root_hub "usb" = false /\
  Py.match_interface "1-1.4:1.12" = true /\ Py.match_interface "usb1" = false /\
  Py.match_interface "x:1.0:2.5" = true /\ Py.match_interface "x:1.0:2" = false.
Proof. repeat split; reflexivity. Qed.

(** The dollar of the patterns lets one final newline through, and the
    dot does not cross a newline. *)
Example registry_names_newline :
  Py.match_port "1-1
" = true /\ Py.match_port "1-1

" = false /\ Py.match_root_hub "usb1
" = true /\
  Py.match_interface "x:1.0
" = true /\ Py.match_interface "a
b:1.0" = false.
Proof. repeat split; reflexivity. Qed.

Example power_and_names :
  parse_power 4300 "100mA" = 100 /\ parse_power 4300 "250" = 500 /\
  parse_power 4300 "mA" = 0 /\ parse_power 4300 "n/a" = 0 /\
  clean_string "  Logitech  " = "Logitech" /\ clean_string "" = "unknown" /\
  Py.basename "../../../bus/usb/drivers/usbhid" = "usbhid".
Proof. repeat split; vm_compute; reflexivity. Qed.

(** The two lines of the specification. *)
Example parse_control_in :
  parse_usbmon_line 4300 "abc 123 C Ci:1:002:1 0 32 ..." =
  Some {| event_type := "C"; bus := "1"; device := "2"; endpoint := "1";
          direction := "in"; transfer_type := "control"; status := "0";
          data_length := 32 |}.
Proof. vm_compute. reflexivity. Qed.

Example parse_bulk_out_error :
  parse_usbmon_line 4300 "abc 123 C Bo:2:005:3 5 0" =
  Some {| event_type := "C"; bus := "2"; device := "5"; endpoint := "3";
          direction := "out"; transfer_type := "bulk"; status := "5";
          data_length := 0 |}.
Proof. vm_compute. reflexivity. Qed.

(** An address without a type field is rejected too. *)
Example parse_empty_type_field :
  parse_usbmon_line 4300 "abc 123 C :1:002:1 0 32" = None.
Proof. vm_compute. reflexivity. Qed.

(** The floats against the interpreter: [float(z)] for whole numbers
    around 2^53, 2^54 and 2^100 and at the end of the range, and sums. *)
Example round_double_values :
  round_double <$>
    [0; 1; 2 ^ 53 - 1; 2 ^ 53; 2 ^ 53 + 1; 2 ^ 53 + 2; 2 ^ 53 + 3;
     2 ^ 54 + 1; 2 ^ 54 + 2; 2 ^ 54 + 3; 2 ^ 54 + 5; 2 ^ 54 + 6; 2 ^ 54 + 7;
     10 ^ 20 + 1; 3 ^ 60; 2 ^ 100 + 2 ^ 47; 2 ^ 100 + 2 ^ 47 + 1;
     2 ^ 100 + 3 * 2 ^ 47]
  = Finite <$>
      [0; 1; 9007199254740991; 9007199254740992; 9007199254740992;
       9007199254740994; 9007199254740996; 18014398509481984;
       18014398509481984; 18014398509481988; 18014398509481988;
       18014398509481992; 18014398509481992; 100000000000000000000;
       42391158275216203520420085760; 1267650600228229401496703205376;
       1267650600228229682971679916032; 1267650600228229964446656626688].
Proof. vm_compute. reflexivity. Qed.

Example round_double_range :
  round_double <$>
    [2 ^ 1024 - 2 ^ 971; 2 ^ 1024 - 2 ^ 970 - 1; 2 ^ 1024 - 2 ^ 970;
     2 ^ 1024 - 1; 10 ^ 309]
  = [Finite (2 ^ 1024 - 2 ^ 971); Finite (2 ^ 1024 - 2 ^ 971); Infinity;
     Infinity; Infinity] /\
  float_of_int (10 ^ 308) = Ok (round_double (10 ^ 308)) /\
  float_of_int (10 ^ 309) = Raise OverflowError.
Proof. repeat split; vm_compute; reflexivity. Qed.

Example double_add_values :
  double_add (double_add (Finite (2 ^ 53)) (Finite 1)) (Finite 1)
  = Finite (2 ^ 53) /\
  double_add (double_add (Finite 1) (Finite 1)) (Finite (2 ^ 53))
  = Finite (2 ^ 53 + 2) /\
  double_add (Finite (2 ^ 54)) (Finite 3) = Finite (2 ^ 54 + 4) /\
  double_add (Finite (2 ^ 1024 - 2 ^ 971)) (Finite (2 ^ 969))
  = Finite (2 ^ 1024 - 2 ^ 971) /\
  double_add (Finite (2 ^ 1024 - 2 ^ 971)) (Finite (2 ^ 970)) = Infinity.
Proof. repeat split; vm_compute; reflexivity. Qed.

(** Beyond 2^53 the order of the lines shows: 2^53 bytes and then twice
    one byte leave 2^53, the other way round 2^53 + 2. *)
Example order_beyond_exact :
  let large := "ffff8801 1699 C Bi:1:002:1 0 9007199254740992 = 00
" in
  let small := "ffff8801 1699 C Bi:1:002:1 0 1 = 00
" in
  let labels := ["1"; "2"; "1"; "bulk"; "unknown"; "unknown"; "unknown"] in
  value (usb_data_received_bytes
           (monitor_loop 4300 Z
              (flowing Z [(∅, large); (∅, small); (∅, small)]) no_metrics))
    labels = Finite 9007199254740992 /\
  value (usb_data_received_bytes
           (monitor_loop 4300 Z
              (flowing Z [(∅, small); (∅, small); (∅, large)]) no_metrics))
    labels = Finite 9007199254740994.
Proof. split; vm_compute; reflexivity. Qed.

Lemma completion_counts_bytes_witness :
  let line := "abc 123 C Ci:1:002:1 0 32 ..." in
  let usb_devices := update_device_info 4300 Z demo_float_of_str 0 demo_fs ∅ in
  let labels := ["1"; "2"; "1"; "control"; "unknown"; "USB Optical Mouse"; "A17"] in
  exists parsed m',
    parse_usbmon_line 4300 line = Some parsed /\
    event_type parsed = "C" /\ status parsed = "0" /\
    0 < data_length parsed < 2 ^ 1024 - 2 ^ 970 /\
    process_usbmon_data 4300 Z usb_devices line no_metrics = Ok m' /\
    incremented ∅ (usb_data_received_bytes m') labels 32 /\
    value (usb_data_received_bytes m') labels = Finite 32.
Proof.
  intros line usb_devices labels.
  set (parsed := {| event_type := "C"; bus := "1"; device := "2";
                    endpoint := "1"; direction := "in";
                    transfer_type := "control"; status := "0";
                    data_length := 32 |}).
  assert (Hp : parse_usbmon_line 4300 line = Some parsed)
    by (vm_compute; reflexivity).
  assert (Hdl : 0 < data_length parsed < 2 ^ 1024 - 2 ^ 970)
    by (split; reflexivity).
  destruct (completion_counts_bytes 4300 Z usb_devices line no_metrics parsed
              Hp eq_refl eq_refl Hdl)
    as (m' & Hm & _ & _ & [(Hd & _) | (_ & Hinc & _)]); [discriminate Hd |].
  exists parsed, m'.
  split; [exact Hp |]. split; [reflexivity |]. split; [reflexivity |].
  split; [exact Hdl |]. split; [exact Hm |]. split; [exact Hinc |].
  destruct Hinc as (_ & Hexact & _).
  apply (Hexact 0); [reflexivity | discriminate | discriminate].
Defined.

(** The float nearest to 2^53 + 1 is 2^53, and ten to the 309 is no
    float: the first line counts for one byte less than its length, the
    second one raises and counts for nothing. *)
Lemma counted_bytes_counterexample :
  let rounded := "ffff8801 1699 C Bi:1:002:1 0 9007199254740993 = 00" in
  let refused := "ffff8801 1699 C Bi:1:002:1 0 1000000000000000000000000000000000000000000000000000000000000000000000000000000000000000000000000000000000000000000000000000000000000000000000000000000000000000000000000000000000000000000000000000000000000000000000000000000000000000000000000000000000000000000000000000000000000000000000000000000000000000000000 = 00" in
  let labels := ["1"; "2"; "1"; "bulk"; "unknown"; "unknown"; "unknown"] in
  (exists ev m',
      parse_usbmon_line 4300 rounded = Some ev /\
      event_type ev = "C" /\ status ev = "0" /\
      data_length ev = 9007199254740993 /\
      process_usbmon_data 4300 Z ∅ rounded no_metrics = Ok m' /\
      value (usb_data_received_bytes no_metrics) labels = Finite 0 /\
      value (usb_data_received_bytes m') labels = Finite 9007199254740992 /\
      value (usb_data_received_bytes m') labels
      <> Finite (0 + data_length ev)) /\
  (exists ev,
      parse_usbmon_line 4300 refused = Some ev /\
      event_type ev = "C" /\ status ev = "0" /\
      data_length ev = 10 ^ 309 /\
      process_usbmon_data 4300 Z ∅ refused no_metrics = Raise OverflowError).
Proof.
  intros rounded refused labels. split.
  - eexists _, {| usb_data_sent_bytes := ∅;
                  usb_data_received_bytes :=
                    {[ labels := Finite 9007199254740992 ]};
                  usb_transfer_errors_sent := ∅;
                  usb_transfer_errors_received := ∅ |}.
    split; [vm_compute; reflexivity |].
    repeat split; try (vm_compute; reflexivity).
    vm_compute. discriminate.
  - eexists. split; [vm_compute; reflexivity |].
    repeat split; vm_compute; reflexivity.
Qed.

Lemma completion_counts_error_witness :
  let line := "abc 123 C Bo:2:005:3 5 0" in
  exists parsed m',
    parse_usbmon_line 4300 line = Some parsed /\
    event_type parsed = "C" /\ status parsed <> "0" /\
    process_usbmon_data 4300 Z ∅ line no_metrics = Ok m' /\
    incremented ∅ (usb_transfer_errors_sent m') ["2"; "5"; "3"; "bulk"; "5"] 1.
Proof.
  intros line.
  set (parsed := {| event_type := "C"; bus := "2"; device := "5";
                    endpoint := "3"; direction := "out";
                    transfer_type := "bulk"; status := "5";
                    data_length := 0 |}).
  assert (Hp : parse_usbmon_line 4300 line = Some parsed)
    by (vm_compute; reflexivity).
  assert (Hst : status parsed <> "0") by (simpl; discriminate).
  destruct (completion_counts_error 4300 Z ∅ line no_metrics parsed
              Hp eq_refl Hst)
    as (m' & Hm & _ & _ & [(_ & Hinc & _) | (Hd & _)]); [| discriminate Hd].
  exists parsed, m'.
  split; [exact Hp |]. split; [reflexivity |]. split; [exact Hst |].
  split; [exact Hm | exact Hinc].
Defined.

(** The scan gives up at "--5" and never reaches the 32. *)
Lemma stated_length_counterexample :
  let line := "ffff8801 1699 C Ci:1:002:0 0 --5 32" in
  exists ev,
    parse_usbmon_line 4300 line = Some ev /\
    data_length ev = 0 /\
    stated_length 4300 (Py.split (Py.strip line)) = 32.
Proof. eexists. repeat split; vm_compute; reflexivity. Qed.

Lemma length_extraction_witness :
  let line := "ffff8801 1699 C Ci:1:002:0 0 --5 32" in
  exists ev,
    parse_usbmon_line 4300 line = Some ev /\
    data_length ev = 0 /\
    exists ev', parse_usbmon_line 4300 "ffff8801 1699 C Ci:1:002:0 0 <" = Some ev'.
Proof.
  intros line.
  set (ev := {| event_type := "C"; bus := "1"; device := "2";
                endpoint := "0"; direction := "in";
                transfer_type := "control"; status := "0";
                data_length := 0 |}).
  assert (Hp : parse_usbmon_line 4300 line = Some ev)
    by (vm_compute; reflexivity).
  destruct (length_extraction 4300 line ev Hp) as (_ & Hscan & Hany).
  exists ev. split; [exact Hp |]. split.
  - assert (Hn : ~ In "=" (Py.split (Py.strip line))).
    { intros H. apply contains_In in H. discriminate H. }
    destruct (Hscan Hn) as (_ & Hstop & _).
    apply (Hstop [] "--5" ["32"] ValueError); try reflexivity. constructor.
  - apply Hany; vm_compute; [reflexivity | lia].
Defined.

(** A stale record stays, the hub is written over, and between the two
    writes a reader sees the new mouse next to the old hub. *)
Lemma refresh_counterexample :
  let refresh := update_device_info 4300 Z demo_float_of_str 0 demo_fs in
  let seen := update_states 4300 Z demo_float_of_str 0 demo_fs old_cache in
  listdir demo_fs devices_path = Ok ["1-1"; "1-0:1.0"; "usb1"] /\
  fst <$> omap (device_write 4300 Z demo_float_of_str 0 demo_fs)
            ["1-1"; "1-0:1.0"; "usb1"] = ["1:2"; "1:1"] /\
  refresh old_cache !! "1:5" = Some (old_record "5" "gone") /\
  size (refresh old_cache) = 3%nat /\
  exists during,
    seen !! 1%nat = Some during /\
    during !! "1:2" = refresh old_cache !! "1:2" /\
    during !! "1:2" <> old_cache !! "1:2" /\
    during !! "1:1" = old_cache !! "1:1" /\
    during !! "1:1" <> refresh old_cache !! "1:1".
Proof.
  repeat split; try (vm_compute; reflexivity).
  eexists. repeat split; try (vm_compute; reflexivity);
    vm_compute; discriminate.
Qed.

Lemma refresh_merges_witness :
  let names := ["1-1"; "1-0:1.0"; "usb1"] in
  path_exists demo_fs devices_path = true /\
  listdir demo_fs devices_path = Ok names /\
  update_device_info 4300 Z demo_float_of_str 0 demo_fs old_cache
  = list_to_map
      (reverse (omap (device_write 4300 Z demo_float_of_str 0 demo_fs)
                  (take 3 names)))
    ∪ old_cache.
Proof.
  intros names. split; [reflexivity |]. split; [reflexivity |].
  exact (proj1 (refresh_merges 4300 Z demo_float_of_str 0 demo_fs old_cache
                  names eq_refl eq_refl)).
Defined.

Lemma refresh_without_root_witness :
  path_exists unplugged_fs devices_path = false /\
  update_device_info 4300 Z demo_float_of_str 0 unplugged_fs old_cache
  = old_cache.
Proof.
  split; [reflexivity |].
  exact (proj1 (refresh_without_root 4300 Z demo_float_of_str 0 unplugged_fs
                  old_cache (or_introl eq_refl))).
Defined.

Lemma malformed_line_fails_witness :
  (length (Py.split (Py.strip "ffff8801 1699 C Ci:1:0")) < 6)%nat /\
  parse_usbmon_line 4300 "ffff8801 1699 C Ci:1:0" = None.
Proof.
  assert (H : (length (Py.split (Py.strip "ffff8801 1699 C Ci:1:0")) < 6)%nat)
    by (vm_compute; lia).
  split; [exact H |].
  exact (malformed_line_fails 4300 "ffff8801 1699 C Ci:1:0" (or_introl H)).
Defined.

(** The bus "usb" is no integer and the device "-5" is negative. *)
Lemma bus_device_counterexample :
  exists ev,
    parse_usbmon_line 4300 "ffff8801 1699 C Ci:usb:-05:0 0 4 = 01000000" = Some ev /\
    bus ev = "usb" /\ (forall n, Py.int 4300 (bus ev) <> Ok n) /\
    device ev = "-5" /\ Py.int 4300 (device ev) = Ok (-5).
Proof.
  eexists. split; [vm_compute; reflexivity |].
  repeat split; try (vm_compute; reflexivity).
  intros n. vm_compute. discriminate.
Qed.

Lemma bus_device_fields_witness :
  let line := "ffff8801 1699 C Ci:usb:-05:0 0 4 = 01000000" in
  exists ev address raw_device z,
    parse_usbmon_line 4300 line = Some ev /\
    nth_error (Py.split (Py.strip line)) 3 = Some address /\
    nth_error (Py.split_sep ":" address) 1 = Some (bus ev) /\
    nth_error (Py.split_sep ":" address) 2 = Some raw_device /\
    Py.int 4300 raw_device = Ok z /\
    device ev = Py.str z /\
    Py.int 4300 (device ev) = Ok z.
Proof.
  intros line.
  set (ev := {| event_type := "C"; bus := "usb"; device := "-5";
                endpoint := "0"; direction := "in";
                transfer_type := "control"; status := "0";
                data_length := 4 |}).
  assert (Hp : parse_usbmon_line 4300 line = Some ev)
    by (vm_compute; reflexivity).
  destruct (bus_device_fields 4300 line ev Hp) as (address & raw & z & H).
  exists ev, address, raw, z. split; [exact Hp | exact H].
Defined.

Lemma lookup_total_witness :
  old_cache !! device_key "1" "5" = Some (old_record "5" "gone") /\
  get_device_info Z old_cache "1" "5" = old_record "5" "gone" /\
  old_cache !! device_key "1" "2" = None /\
  vendor_name (get_device_info Z old_cache "1" "2") = "unknown".
Proof.
  assert (H5 : old_cache !! device_key "1" "5" = Some (old_record "5" "gone"))
    by (vm_compute; reflexivity).
  assert (H2 : old_cache !! device_key "1" "2" = None)
    by (vm_compute; reflexivity).
  split; [exact H5 |]. split.
  - exact (proj1 (lookup_total Z old_cache "1" "5") _ H5).
  - split; [exact H2 |].
    exact (proj1 (proj2 (proj2 (proj2 (lookup_total Z old_cache "1" "2") H2)))).
Defined.

Lemma bad_device_field_fails_witness :
  let line := "ffff8801 1699 C Ci:1:0x2:0 0 4 = 01000000" in
  (6 <= length (Py.split (Py.strip line)))%nat /\
  nth_error (Py.split (Py.strip line)) 3 = Some "Ci:1:0x2:0" /\
  (4 <= length (Py.split_sep ":" "Ci:1:0x2:0"))%nat /\
  nth_error (Py.split_sep ":" "Ci:1:0x2:0") 2 = Some "0x2" /\
  Py.int 4300 "0x2" = Raise ValueError /\
  parse_usbmon_line 4300 line = None.
Proof.
  intros line.
  assert (H1 : (6 <= length (Py.split (Py.strip line)))%nat) by (vm_compute; lia).
  assert (H2 : (4 <= length (Py.split_sep ":" "Ci:1:0x2:0"))%nat)
    by (vm_compute; lia).
  split; [exact H1 |]. split; [reflexivity |]. split; [exact H2 |].
  split; [reflexivity |]. split; [reflexivity |].
  exact (proj2 (bad_device_field_fails 4300) line "Ci:1:0x2:0" "0x2" ValueError
           H1 eq_refl H2 eq_refl eq_refl).
Defined.

(** ** The further properties at work on concrete inputs *)

Lemma parse_same_tokens_witness :
  let line1 := "  abc 123 C Ci:1:002:1 0 32
" in
  let line2 := "abc   123 C Ci:1:002:1 0 32" in
  Py.split line1 = Py.split line2 /\
  parse_usbmon_line 4300 line1 = parse_usbmon_line 4300 line2.
Proof.
  intros line1 line2.
  assert (H : Py.split line1 = Py.split line2) by (vm_compute; reflexivity).
  split; [exact H |].
  exact (parse_same_tokens 4300 line1 line2 H).
Defined.

Lemma parsed_classification_witness :
  let line := "abc 123 C Ci:1:002:1 0 32 ..." in
  exists ev address c rest,
    parse_usbmon_line 4300 line = Some ev /\
    nth_error (Py.split line) 3 = Some address /\
    nth_error (Py.split_sep ":" address) 0 = Some (String c rest).
Proof.
  intros line.
  set (ev := {| event_type := "C"; bus := "1"; device := "2";
                endpoint := "1"; direction := "in";
                transfer_type := "control"; status := "0";
                data_length := 32 |}).
  assert (Hp : parse_usbmon_line 4300 line = Some ev)
    by (vm_compute; reflexivity).
  destruct (parsed_classification 4300 line ev Hp)
    as (address & c & rest & H3 & H0 & _).
  exists ev, address, c, rest. split; [exact Hp |]. split; [exact H3 | exact H0].
Defined.

Lemma parsed_key_injective_witness :
  let line1 := "abc 123 C Ci:1:002:1 0 32 ..." in
  let line2 := "abd 124 S Bo:1:2:3 -115 64 <" in
  exists ev1 ev2,
    parse_usbmon_line 4300 line1 = Some ev1 /\
    parse_usbmon_line 4300 line2 = Some ev2 /\
    device_key (bus ev1) (device ev1) = device_key (bus ev2) (device ev2) /\
    bus ev1 = bus ev2 /\ device ev1 = device ev2.
Proof.
  intros line1 line2.
  set (ev1 := {| event_type := "C"; bus := "1"; device := "2";
                 endpoint := "1"; direction := "in";
                 transfer_type := "control"; status := "0";
                 data_length := 32 |}).
  set (ev2 := {| event_type := "S"; bus := "1"; device := "2";
                 endpoint := "3"; direction := "out";
                 transfer_type := "bulk"; status := "-115";
                 data_length := 64 |}).
  assert (H1 : parse_usbmon_line 4300 line1 = Some ev1)
    by (vm_compute; reflexivity).
  assert (H2 : parse_usbmon_line 4300 line2 = Some ev2)
    by (vm_compute; reflexivity).
  assert (Hk : device_key (bus ev1) (device ev1)
               = device_key (bus ev2) (device ev2)) by reflexivity.
  exists ev1, ev2. split; [exact H1 |]. split; [exact H2 |].
  split; [exact Hk |].
  exact (parsed_key_injective 4300 line1 line2 ev1 ev2 H1 H2 Hk).
Defined.

Lemma scanned_length_origin_witness :
  let line := "abc 123 C Ci:1:002:1 0 32 ..." in
  exists ev,
    parse_usbmon_line 4300 line = Some ev /\
    ~ In "=" (Py.split line) /\
    0 <= data_length ev < 100000000.
Proof.
  intros line.
  set (ev := {| event_type := "C"; bus := "1"; device := "2";
                endpoint := "1"; direction := "in";
                transfer_type := "control"; status := "0";
                data_length := 32 |}).
  assert (Hp : parse_usbmon_line 4300 line = Some ev)
    by (vm_compute; reflexivity).
  assert (Hn : ~ In "=" (Py.split line)).
  { intros H. apply contains_In in H. discriminate H. }
  exists ev. split; [exact Hp |]. split; [exact Hn |].
  exact (proj1 (scanned_length_origin 4300 line ev Hp Hn)).
Defined.

Lemma process_unmetered_witness :
  let line := "abd 124 S Bo:1:2:3 -115 64 <" in
  (exists ev, parse_usbmon_line 4300 line = Some ev /\
              (event_type ev <> "C" \/
               status ev = "0" /\ data_length ev <= 0)) /\
  process_usbmon_data 4300 Z ∅ line no_metrics = Ok no_metrics.
Proof.
  intros line.
  set (ev := {| event_type := "S"; bus := "1"; device := "2";
                endpoint := "3"; direction := "out";
                transfer_type := "bulk"; status := "-115";
                data_length := 64 |}).
  assert (Hp : parse_usbmon_line 4300 line = Some ev)
    by (vm_compute; reflexivity).
  assert (Ht : event_type ev <> "C") by (simpl; discriminate).
  assert (H : exists ev, parse_usbmon_line 4300 line = Some ev /\
                (event_type ev <> "C" \/
                 status ev = "0" /\ data_length ev <= 0)).
  { exists ev. split; [exact Hp | left; exact Ht]. }
  split; [exact H |].
  exact (process_unmetered 4300 Z ∅ line no_metrics (or_intror H)).
Defined.

Lemma demo_stream_flows : Forall (fun r => r.2 <> "") demo_stream.
Proof. repeat constructor; discriminate. Defined.

Lemma process_raises_overflow_only_witness :
  let line := "ffff8801 1699 C Bi:1:002:1 0 1000000000000000000000000000000000000000000000000000000000000000000000000000000000000000000000000000000000000000000000000000000000000000000000000000000000000000000000000000000000000000000000000000000000000000000000000000000000000000000000000000000000000000000000000000000000000000000000000000000000000000000000 = 00" in
  (exists ev,
      parse_usbmon_line 4300 line = Some ev /\
      event_type ev = "C" /\ status ev = "0" /\
      In "=" (Py.split (Py.strip line)) /\
      2 ^ 1024 - 2 ^ 970 <= data_length ev) /\
  process_usbmon_data 4300 Z ∅ line no_metrics = Raise OverflowError.
Proof.
  intros line.
  set (ev := {| event_type := "C"; bus := "1"; device := "2";
                endpoint := "1"; direction := "in";
                transfer_type := "bulk"; status := "0";
                data_length := 10 ^ 309 |}).
  assert (Hp : parse_usbmon_line 4300 line = Some ev)
    by (vm_compute; reflexivity).
  assert (Hin : In "=" (Py.split (Py.strip line)))
    by (apply contains_In; vm_compute; reflexivity).
  assert (Hdl : 2 ^ 1024 - 2 ^ 970 <= data_length ev)
    by (vm_compute; discriminate).
  assert (H : exists ev,
             parse_usbmon_line 4300 line = Some ev /\
             event_type ev = "C" /\ status ev = "0" /\
             In "=" (Py.split (Py.strip line)) /\
             2 ^ 1024 - 2 ^ 970 <= data_length ev).
  { exists ev. split; [exact Hp |]. split; [reflexivity |].
    split; [reflexivity |]. split; [exact Hin | exact Hdl]. }
  split; [exact H |].
  exact (proj2 (process_raises_overflow_only 4300 Z ∅ line no_metrics
                  OverflowError) (conj eq_refl H)).
Defined.

Lemma monitor_usbmon_additive_witness :
  let labels := ["1"; "2"; "1"; "control"; "unknown"; "unknown"; "unknown"] in
  path_exists usbmon_fs ("/sys/kernel/debug/usb/usbmon" +:+ "/" +:+ "0u") = true /\
  Forall (fun r => r.2 <> "") demo_stream /\
  value (counter_of Received_bytes no_metrics) labels = Finite 0 /\
  0 + stream_total 4300 Z Received_bytes labels demo_stream <= 2 ^ 53 /\
  value (counter_of Received_bytes
           (monitor_usbmon 4300 Z usbmon_fs "/sys/kernel/debug/usb/usbmon" "0u"
              (flowing Z demo_stream) no_metrics)) labels
  = Finite (0 + stream_total 4300 Z Received_bytes labels demo_stream).
Proof.
  intros labels.
  assert (Hs : 0 + stream_total 4300 Z Received_bytes labels demo_stream
               <= 2 ^ 53) by (vm_compute; discriminate).
  assert (H0 : 0 <= 0) by discriminate.
  split; [reflexivity |]. split; [exact demo_stream_flows |].
  split; [reflexivity |]. split; [exact Hs |].
  exact (monitor_usbmon_additive 4300 Z usbmon_fs
           "/sys/kernel/debug/usb/usbmon" "0u" demo_stream no_metrics
           Received_bytes labels 0 eq_refl demo_stream_flows eq_refl H0 Hs).
Defined.

Lemma monitor_usbmon_monotone_witness :
  let labels := ["1"; "2"; "1"; "control"; "unknown"; "unknown"; "unknown"] in
  let after :=
    monitor_usbmon 4300 Z usbmon_fs "/sys/kernel/debug/usb/usbmon" "0u"
      (flowing Z demo_stream) no_metrics in
  is_double (value (counter_of Received_bytes no_metrics) labels) /\
  double_le (value (counter_of Received_bytes no_metrics) labels)
    (value (counter_of Received_bytes after) labels) /\
  is_double (value (counter_of Received_bytes after) labels).
Proof.
  intros labels after.
  assert (H : is_double (value (counter_of Received_bytes no_metrics) labels))
    by (split; [discriminate | reflexivity]).
  split; [exact H |].
  exact (monitor_usbmon_monotone 4300 Z usbmon_fs
           "/sys/kernel/debug/usb/usbmon" "0u" (flowing Z demo_stream)
           no_metrics Received_bytes labels H).
Defined.

Lemma monitor_loop_permutation_witness :
  let labels := ["2"; "5"; "3"; "bulk"; "5"] in
  Permutation demo_stream.*2 (reverse demo_stream).*2 /\
  Forall (fun r => r.2 <> "") demo_stream /\
  value (counter_of Errors_sent no_metrics) labels = Finite 0 /\
  0 + stream_total 4300 Z Errors_sent labels demo_stream <= 2 ^ 53 /\
  value (counter_of Errors_sent
           (monitor_loop 4300 Z (flowing Z demo_stream) no_metrics)) labels
  = value (counter_of Errors_sent
             (monitor_loop 4300 Z (flowing Z (reverse demo_stream))
                no_metrics)) labels.
Proof.
  intros labels.
  assert (Hp : Permutation demo_stream.*2 (reverse demo_stream).*2)
    by apply perm_swap.
  assert (Hs : 0 + stream_total 4300 Z Errors_sent labels demo_stream
               <= 2 ^ 53) by (vm_compute; discriminate).
  assert (H0 : 0 <= 0) by discriminate.
  split; [exact Hp |]. split; [exact demo_stream_flows |].
  split; [reflexivity |]. split; [exact Hs |].
  exact (monitor_loop_permutation 4300 Z demo_stream (reverse demo_stream)
           no_metrics Errors_sent labels 0 Hp (or_introl eq_refl)
           demo_stream_flows eq_refl H0 Hs).
Defined.

Lemma monitor_loop_ends_witness :
  Forall (fun r => r.2 <> "") demo_stream /\
  monitor_loop 4300 Z
    (flowing Z demo_stream ++ (∅, Ok "") :: flowing Z demo_stream) no_metrics
  = monitor_loop 4300 Z (flowing Z demo_stream) no_metrics.
Proof.
  split; [exact demo_stream_flows |].
  exact (monitor_loop_ends 4300 Z demo_stream ∅ (Ok "")
           (flowing Z demo_stream) no_metrics demo_stream_flows
           (or_introl eq_refl)).
Defined.

Lemma parse_power_mA_nonneg_witness :
  Py.contains_str "mA" "500mA" = true /\ 0 <= parse_power 4300 "500mA".
Proof.
  split; [reflexivity |].
  exact (proj1 (parse_power_mA_nonneg 4300 "500mA" eq_refl)).
Defined.

Lemma parse_power_reads_witness :
  0 <= 250 < 10 ^ 640 /\
  parse_power 4300 (Py.str 250 +:+ "mA") = 250 /\
  parse_power 4300 (Py.str 250) = 250 * 2.
Proof.
  assert (H : 0 <= 250 < 10 ^ 640) by (split; [discriminate | reflexivity]).
  split; [exact H |]. exact (parse_power_reads 4300 250 H).
Defined.

Lemma get_driver_name_bare_witness :
  (exists e, listdir unplugged_fs "/sys/bus/usb/devices/1-1" = Raise e) /\
  get_driver_name unplugged_fs "/sys/bus/usb/devices/1-1" = "none".
Proof.
  assert (H : exists e, listdir unplugged_fs "/sys/bus/usb/devices/1-1" = Raise e)
    by (exists OSError; reflexivity).
  split; [exact H |].
  exact (proj2 (get_driver_name_bare unplugged_fs "/sys/bus/usb/devices/1-1") H).
Defined.

Lemma read_sysfs_file_cases_witness :
  path_exists demo_fs "/sys/bus/usb/devices/usb1/serial" = false /\
  read_sysfs_file demo_fs "/sys/bus/usb/devices/usb1/serial" (Some "unknown")
  = Some "unknown".
Proof.
  split; [reflexivity |].
  exact (proj1 (read_sysfs_file_cases demo_fs
                  "/sys/bus/usb/devices/usb1/serial" (Some "unknown"))
           (or_introl eq_refl)).
Defined.

Lemma written_record_witness :
  exists key info,
    device_write 4300 Z demo_float_of_str 0 demo_fs "1-1" = Some (key, info) /\
    keyed Z key info /\ vendor_name info <> "".
Proof.
  let v := eval vm_compute in
             (device_write 4300 Z demo_float_of_str 0 demo_fs "1-1") in
  lazymatch v with Some (_, ?i) => pose (info := i) end.
  assert (E : device_write 4300 Z demo_float_of_str 0 demo_fs "1-1"
              = Some ("1:2", info)) by (vm_compute; reflexivity).
  destruct (written_record 4300 Z demo_float_of_str 0 demo_fs "1-1" "1:2" info E)
    as (Hk & _ & _ & _ & _ & Hv & _).
  exists "1:2", info. split; [exact E |]. split; [exact Hk | exact Hv].
Defined.

Lemma refresh_never_forgets_witness :
  old_cache !! "1:5" = Some (old_record "5" "gone") /\
  exists info,
    update_device_info 4300 Z demo_float_of_str 0 demo_fs old_cache !! "1:5"
    = Some info.
Proof.
  assert (H : old_cache !! "1:5" = Some (old_record "5" "gone"))
    by (vm_compute; reflexivity).
  split; [exact H |].
  destruct (refresh_never_forgets 4300 Z demo_float_of_str 0 demo_fs
              old_cache "1:5" (old_record "5" "gone") H) as (info & Hi & _).
  exists info. exact Hi.
Defined.

Lemma usb1_is_last (later : string) (info' : device_info Z) :
  In later [] ->
  device_write 4300 Z demo_float_of_str 0 demo_fs later <> Some ("1:1", info').
Proof. intros []. Defined.

Lemma lookup_after_refresh_witness :
  exists info,
    path_exists demo_fs devices_path = true /\
    listdir demo_fs devices_path = Ok (["1-1"; "1-0:1.0"] ++ "usb1" :: []) /\
    device_write 4300 Z demo_float_of_str 0 demo_fs "usb1" = Some ("1:1", info) /\
    info_bus info = Some "1" /\ info_device info = Some "1" /\
    get_device_info Z
      (update_device_info 4300 Z demo_float_of_str 0 demo_fs old_cache) "1" "1"
    = info.
Proof.
  let v := eval vm_compute in
             (device_write 4300 Z demo_float_of_str 0 demo_fs "usb1") in
  lazymatch v with Some (_, ?i) => pose (info := i) end.
  assert (E : device_write 4300 Z demo_float_of_str 0 demo_fs "usb1"
              = Some ("1:1", info)) by (vm_compute; reflexivity).
  assert (Hb : info_bus info = Some "1") by reflexivity.
  assert (Hd : info_device info = Some "1") by reflexivity.
  exists info. split; [reflexivity |]. split; [reflexivity |].
  split; [exact E |]. split; [exact Hb |]. split; [exact Hd |].
  exact (lookup_after_refresh 4300 Z demo_float_of_str 0 demo_fs old_cache
           ["1-1"; "1-0:1.0"] [] "usb1" "1:1" "1" "1" info
           eq_refl eq_refl E (fun later info' => usb1_is_last later info')
           Hb Hd).
Defined.

Lemma refresh_skips_entry_witness :
  device_write 4300 Z demo_float_of_str 0 demo_fs "1-0:1.0" = None /\
  fold_left (refresh_one 4300 Z demo_float_of_str 0 demo_fs)
    (["1-1"] ++ "1-0:1.0" :: ["usb1"]) old_cache
  = fold_left (refresh_one 4300 Z demo_float_of_str 0 demo_fs)
      (["1-1"] ++ ["usb1"]) old_cache.
Proof.
  assert (H : device_write 4300 Z demo_float_of_str 0 demo_fs "1-0:1.0" = None)
    by (vm_compute; reflexivity).
  split; [exact H |].
  exact (refresh_skips_entry 4300 Z demo_float_of_str 0 demo_fs old_cache
           ["1-1"] ["usb1"] "1-0:1.0" H).
Defined.

Lemma accepted_name_inside_witness :
  accepted "1-1.4" = true /\
  Py.path_join devices_path "1-1.4" = devices_path +:+ "1-1.4".
Proof.
  split; [reflexivity |].
  exact (proj2 (proj2 (accepted_name_inside "1-1.4" eq_refl))).
Defined.

Lemma event_finds_device_witness :
  let line := "abc 123 C Ci:1:002:1 0 32 ..." in
  exists ev info,
    parse_usbmon_line 4300 line = Some ev /\
    device_write 4300 Z demo_float_of_str 0 demo_fs "1-1" = Some ("1:2", info) /\
    info_bus info = Some (bus ev) /\ info_device info = Some "2" /\
    Py.int 4300 "2" = Ok 2 /\ Py.int 4300 (device ev) = Ok 2 /\
    get_device_info Z
      (update_device_info 4300 Z demo_float_of_str 0 demo_fs old_cache)
      (bus ev) (device ev)
    = info.
Proof.
  intros line.
  set (ev := {| event_type := "C"; bus := "1"; device := "2";
                endpoint := "1"; direction := "in";
                transfer_type := "control"; status := "0";
                data_length := 32 |}).
  assert (Hp : parse_usbmon_line 4300 line = Some ev)
    by (vm_compute; reflexivity).
  let v := eval vm_compute in
             (device_write 4300 Z demo_float_of_str 0 demo_fs "1-1") in
  lazymatch v with Some (_, ?i) => pose (info := i) end.
  assert (E : device_write 4300 Z demo_float_of_str 0 demo_fs "1-1"
              = Some ("1:2", info)) by (vm_compute; reflexivity).
  assert (Hb : info_bus info = Some (bus ev)) by reflexivity.
  assert (Hd : info_device info = Some "2") by reflexivity.
  assert (Hlater : forall later info',
             In later ["1-0:1.0"; "usb1"] ->
             device_write 4300 Z demo_float_of_str 0 demo_fs later
             <> Some ("1:2", info')).
  { intros later info' [<- | [<- | []]]; vm_compute; discriminate. }
  exists ev, info. split; [exact Hp |]. split; [exact E |].
  split; [exact Hb |]. split; [exact Hd |].
  split; [reflexivity |]. split; [reflexivity |].
  exact (event_finds_device 4300 Z demo_float_of_str 0 demo_fs old_cache
           [] ["1-0:1.0"; "usb1"] "1-1" "1:2" "2" info line ev 2
           eq_refl eq_refl E Hlater Hp Hb Hd eq_refl eq_refl).
Defined.
